(** * Deployment task runner and sum service: a shallow embedding

    The development follows the Python sources of the repository:

    - [main.py]                       the two HTTP handlers;
    - [task2/tasks/container.py]      version validation, parsing, [build], [push];
    - [task2/tasks/terraform.py]      workspace validation, [change_directory],
                                      [plan], [apply], [destroy];
    - [task2/tasks/cloudformation.py] [update_chat_table], [create_chat_table];
    - [task2/tasks/format.py], [check.py], [test.py], [all.py], [run.py].

    Python values are modelled as follows.  A [str] is a [string] whose
    characters are the code points U+0000 to U+00FF; the built-in string
    methods used by the sources are defined on that range with the behaviour
    CPython has there.  An [int] is a [Z].  A tuple of ints is a [list Z].
    A handler is a computation in a state and exception monad: the state
    carries the working directory of the process, the attribute set on the
    invoke context and the chronological log of every interaction with the
    outside (printing, prompts, commands, registry queries, file system
    calls); the answers of the outside come from an oracle [Env] that may
    depend on everything that happened before.  A call of [pathlib] on
    the file system may fail, as the oracle decides.  An external command
    answers with an exit status: an executable that [subprocess.run] cannot
    start is outside the model, and so is a working directory that cannot
    be entered ([os.getcwd] and [os.chdir] succeed). *)

From Stdlib Require Import String Ascii List ZArith NArith Bool Lia Sorted Permutation.
Import ListNotations.
Open Scope string_scope.

(* ================================================================== *)
(** * Python built-ins used by the sources *)

Definition code (c : ascii) : N := N_of_ascii c.

Definition in_range (lo hi n : N) : bool := ((lo <=? n) && (n <=? hi))%N.

(** [str.isdecimal] on one character: the digits 0 to 9. *)
Definition isdecimal_char (c : ascii) : bool := in_range 48 57 (code c).

(** [str.isdigit] on one character: Numeric_Type Decimal or Digit, which
    below U+0100 is 0 to 9 and the superscripts U+00B2, U+00B3, U+00B9. *)
Definition isdigit_char (c : ascii) : bool :=
  let n := code c in
  (in_range 48 57 n || (n =? 178) || (n =? 179) || (n =? 185))%N.

(** Characters removed by [str.strip()]. *)
Definition isspace_char (c : ascii) : bool :=
  let n := code c in
  (in_range 9 13 n || in_range 28 31 n || (n =? 32) || (n =? 133) || (n =? 160))%N.

(** Characters [int()] skips around a literal. *)
Definition int_space_char (c : ascii) : bool :=
  let n := code c in
  (in_range 9 13 n || (n =? 32) || (n =? 133) || (n =? 160))%N.

(** Line boundaries of [str.splitlines]. *)
Definition linebreak_char (c : ascii) : bool :=
  let n := code c in
  (in_range 10 13 n || in_range 28 30 n || (n =? 133))%N.

Definition lower_char (c : ascii) : ascii :=
  let n := code c in
  if (in_range 65 90 n || (in_range 192 222 n && negb (n =? 215)))%N
  then ascii_of_N (n + 32) else c.

Fixpoint py_lower (s : string) : string :=
  match s with
  | EmptyString => EmptyString
  | String c s' => String (lower_char c) (py_lower s')
  end.

Fixpoint string_forallb (p : ascii -> bool) (s : string) : bool :=
  match s with
  | EmptyString => true
  | String c s' => p c && string_forallb p s'
  end.

(** [s.isdigit()]: at least one character, all of them digits. *)
Definition py_isdigit (s : string) : bool :=
  match s with
  | EmptyString => false
  | _ => string_forallb isdigit_char s
  end.

(** [s.startswith(p)]. *)
Definition py_startswith (s p : string) : bool := String.prefix p s.

(** [s[1:]]. *)
Definition py_tail (s : string) : string :=
  match s with
  | EmptyString => EmptyString
  | String _ s' => s'
  end.

(** [s.split(sep)] for a separator of one character. *)
Fixpoint py_split (sep : ascii) (s : string) : list string :=
  match s with
  | EmptyString => [EmptyString]
  | String c s' =>
      if Ascii.eqb c sep then EmptyString :: py_split sep s'
      else match py_split sep s' with
           | h :: t => String c h :: t
           | [] => [String c EmptyString]
           end
  end.

Fixpoint py_lstrip (p : ascii -> bool) (s : string) : string :=
  match s with
  | EmptyString => EmptyString
  | String c s' => if p c then py_lstrip p s' else s
  end.

Fixpoint py_rstrip (p : ascii -> bool) (s : string) : string :=
  match s with
  | EmptyString => EmptyString
  | String c s' =>
      match py_rstrip p s' with
      | EmptyString => if p c then EmptyString else String c EmptyString
      | r => String c r
      end
  end.

Fixpoint string_mem (c : ascii) (s : string) : bool :=
  match s with
  | EmptyString => false
  | String d s' => Ascii.eqb c d || string_mem c s'
  end.

(** [s.strip()]. *)
Definition py_strip (s : string) : string :=
  py_rstrip isspace_char (py_lstrip isspace_char s).

(** [s.strip(chars)]. *)
Definition py_strip_chars (chars s : string) : string :=
  py_rstrip (fun c => string_mem c chars) (py_lstrip (fun c => string_mem c chars) s).

(** [s.splitlines()]: a carriage return directly followed by a line feed is
    one boundary, and no empty last line is produced. *)
Fixpoint py_splitlines (s : string) : list string :=
  match s with
  | EmptyString => []
  | String c s' =>
      if linebreak_char c then
        match s' with
        | String d s'' =>
            if (code c =? 13)%N && (code d =? 10)%N
            then EmptyString :: py_splitlines s''
            else EmptyString :: py_splitlines s'
        | EmptyString => [EmptyString]
        end
      else match py_splitlines s' with
           | [] => [String c EmptyString]
           | h :: t => String c h :: t
           end
  end.

(** [x in l] on a list of strings. *)
Definition py_in (x : string) (l : list string) : bool :=
  existsb (String.eqb x) l.

(** The value of a decimal digit. *)
Definition digit_val (c : ascii) : Z := Z.of_N (code c) - 48.

(** The digit part of an [int()] literal: decimal digits, single
    underscores allowed between two digits. *)
Fixpoint int_digits (s : string) (acc : Z) (after_digit : bool) : option Z :=
  match s with
  | EmptyString => if after_digit then Some acc else None
  | String c s' =>
      if isdecimal_char c then int_digits s' (10 * acc + digit_val c) true
      else if Ascii.eqb c "_" && after_digit then int_digits s' acc false
      else None
  end.

(** The number of decimal digits in a text. *)
Fixpoint digit_count (s : string) : N :=
  match s with
  | EmptyString => 0
  | String c s' => ((if isdecimal_char c then 1 else 0) + digit_count s')%N
  end.

(** [sys.get_int_max_str_digits()]: the interpreter's default, which the
    sources leave as it is. *)
Definition int_max_str_digits : N := 4300.

(** A literal [int()] converts: it has no more digits than the limit. *)
Definition within_int_limit (s : string) : bool :=
  (digit_count s <=? int_max_str_digits)%N.

(** [int(s)] in base ten; [None] stands for [ValueError], which is raised
    for a text that is no literal and for a literal of more digits than the
    limit. *)
Definition py_int (s : string) : option Z :=
  let literal := py_rstrip int_space_char (py_lstrip int_space_char s) in
  if negb (within_int_limit literal) then None
  else
    match literal with
    | EmptyString => None
    | String c d =>
        if Ascii.eqb c "+" then int_digits d 0 false
        else if Ascii.eqb c "-" then option_map Z.opp (int_digits d 0 false)
        else int_digits literal 0 false
    end.

(** Comparison of two tuples of ints, as CPython compares tuples: the first
    position where the items differ decides, otherwise the lengths do. *)
Fixpoint py_tuple_lt (a b : list Z) : bool :=
  match a, b with
  | _, [] => false
  | [], _ :: _ => true
  | x :: a', y :: b' => if (x =? y)%Z then py_tuple_lt a' b' else (x <? y)%Z
  end.

Fixpoint py_tuple_le (a b : list Z) : bool :=
  match a, b with
  | [], _ => true
  | _ :: _, [] => false
  | x :: a', y :: b' => if (x =? y)%Z then py_tuple_le a' b' else (x <=? y)%Z
  end.

(** [list.sort()] on tuples of ints: the order is total and items that
    compare equal are identical, so the sorted list is unique; it is computed
    here by insertion. *)
Fixpoint insert_sorted (v : list Z) (l : list (list Z)) : list (list Z) :=
  match l with
  | [] => [v]
  | w :: l' => if py_tuple_lt v w then v :: l else w :: insert_sorted v l'
  end.

Fixpoint py_sort (l : list (list Z)) : list (list Z) :=
  match l with
  | [] => []
  | v :: l' => insert_sorted v (py_sort l')
  end.

(** [l[-1]]; [None] stands for [IndexError]. *)
Fixpoint py_last {A : Type} (l : list A) : option A :=
  match l with
  | [] => None
  | [x] => Some x
  | _ :: l' => py_last l'
  end.

(* ================================================================== *)
(** * The outside world, exceptions and the handler monad *)

(** Texts shown to the operator.  Only the template and its arguments are
    kept; the comment gives the start of the source text. *)
Inductive Message : Type :=
| MsgCheckingMypy                      (* Checking code quality with mypy... *)
| MsgCheckingRuff                      (* Checking code quality with ruff... *)
| MsgFormattingCode                    (* Formatting code... *)
| MsgCheckingCode                      (* Checking code... *)
| MsgRunningTests                      (* Running tests... *)
| MsgBuildingNoCache (platform debug : string)
                                       (* Building docker image without cache... *)
| MsgBuiltForPlatform                  (* Project built successfully for platform linux/amd64! *)
| MsgBuilding                          (* Building docker image... *)
| MsgBuilt                             (* Project built successfully! *)
| MsgInvalidVersionFormat              (* Invalid version format. Must be vX.Y.Z ... *)
| MsgVersionNotGreater (version : string) (major minor patch : Z)
                                       (* Error: New version must be greater than the last one *)
| MsgLoggingIn                         (* Logging in to ECR... *)
| MsgTagging                           (* Tagging docker... *)
| MsgPushing                           (* Pushing project to ECR... *)
| MsgPushed                            (* Project pushed successfully! *)
| MsgInvalidWorkspace (workspace : string)      (* Invalid workspace: ... *)
| MsgValidWorkspaces (valid : list string)      (* Valid workspaces are: ... *)
| MsgWorkspaceMissing (workspace : string)      (* Terraform Workspace '...' does not exist. *)
| MsgExistingWorkspaces                         (* Existing workspaces are: *)
| MsgWorkspaceItem (ws : string)                (*   - ... *)
| MsgCreateWorkspaceHint (workspace : string)
   (* Check if the workspace is valid and/or create it using
      `cd infra/terraform/environment/... && terraform workspace new ...` *)
| MsgExitNonExistentWorkspace          (* Exiting due to non-existent workspace. *)
| MsgInvalidEnvironment (env : string) (* Invalid environment ..., must be one of ... *)
| MsgUpdatingStack (stack_name : string)        (* Updating stack ... *)
| MsgCreatingStack (stack_name : string)        (* Creating stack ... *)
| MsgUsingTemplate (path : string)              (* Using template ... *)
| MsgProceedPrompt                     (* Do you want to proceed? (y/n): *)
| MsgAborting                          (* Aborting... *)
| MsgUpdatingStackStart                (* Updating stack... *)
| MsgStackUpdated                      (* Stack updated successfully *)
| MsgErrorUpdatingStack (stderr : string)       (* Error updating stack: ... *)
| MsgCreatingStackStart                (* Creating stack... *)
| MsgStackCreated                      (* Stack created successfully *)
| MsgErrorCreatingStack (stderr : string)       (* Error creating stack: ... *)
| MsgEnablingProtection                (* Enabling termination protection... *)
| MsgProtectionEnabled                 (* Termination protection enabled *)
| MsgErrorEnablingProtection (stderr : string)  (* Error enabling termination protection: ... *)
| MsgFoundLocalImage (image_name : string)      (* Found local image: ..., skipping the build step... *)
| MsgImageNotFound (image_name : string).       (* Image ... not found locally, building the image... *)

(** What a finished external command leaves behind. *)
Record RunResult : Type := mkRunResult {
  exited : Z;
  stdout : string;
  stderr : string
}.

(** One entry of [imageDetails] in the registry's answer: the value of its
    [imageTags] key, [None] when the key is absent. *)
Record ImageDetail : Type := mkImageDetail {
  imageTags : option (list string)
}.

Inductive Exn : Type :=
| AssertionError (m : Message)
| ValueError
| IndexError
| AttributeError
| UnexpectedExit (r : RunResult)        (* invoke: a command of [c.run] failed *)
| CalledProcessError (r : RunResult)    (* subprocess.run(check=True) failed *)
| SystemExit_code (n : Z)               (* sys.exit(n) *)
| SystemExit_msg (m : Message)          (* raise SystemExit(text) *)
| FileSystemError.
    (* a call of pathlib failed: an OSError such as FileNotFoundError,
       IsADirectoryError or PermissionError, or the error of a link loop *)

Inductive Result (A : Type) : Type :=
| Ok (a : A)
| Raise (e : Exn).
Arguments Ok {A} a.
Arguments Raise {A} e.

(** The calls of [pathlib] on the file system. *)
Inductive FsCall : Type :=
| CallIsSymlink (path : string)         (* Path(path).is_symlink() *)
| CallExists (path : string)            (* Path(path).exists() *)
| CallResolve (path : string)           (* Path(path).resolve() *)
| CallUnlink (path : string)            (* Path(path).unlink() *)
| CallSymlinkTo (link target : string). (* Path(link).symlink_to(target) *)

(** Interactions with the outside, in the order they happen.  A call of
    the file system that succeeded is recorded with its answer, one that
    raised as [EFsError]. *)
Inductive Event : Type :=
| EPrint (m : Message)
| EInput (prompt : Message) (answer : string)
| ERun (cmd : string) (r : RunResult)                 (* c.run(cmd) *)
| ERunWarn (cmd : string) (r : RunResult)             (* c.run(cmd, warn=True) *)
| ESubprocess (argv : list string) (r : RunResult)    (* subprocess.run(argv) *)
| EDescribeImages (repo : string) (images : list ImageDetail)
| EChdir (dir : string)
| EIsSymlink (path : string) (b : bool)
| EExists (path : string) (b : bool)
| EResolve (path resolved : string)
| EUnlink (path : string)
| ESymlinkTo (link target : string)
| EFsError (call : FsCall).

Record State : Type := mkState {
  cwd : string;                  (* os.getcwd() *)
  image_exists : option bool;    (* attribute set on the invoke context *)
  log : list Event
}.

(** The answers of the outside; each may depend on the whole past.  For
    a query of the file system [None] means that the call raises; for
    [unlink] and [symlink_to] the answer tells whether the call succeeds. *)
Record Env : Type := mkEnv {
  run_reply : State -> string -> RunResult;
  subprocess_reply : State -> list string -> RunResult;
  input_reply : State -> Message -> string;
  describe_images_reply : State -> string -> list ImageDetail;
  is_symlink_reply : State -> string -> option bool;
  exists_reply : State -> string -> option bool;
  resolve_reply : State -> string -> option string;
  unlink_reply : State -> string -> bool;
  symlink_to_reply : State -> string -> string -> bool
}.

(** What the sources take from their surroundings: the three values read
    from [common.config]; the directories [INFRA_DIR] and
    [PROJECT_ROOT_PATH], computed from the location of the source file;
    [CF_TEMPLATE_PATH], the value of
    [Path("__file__").parent / "infra" / "cloudformation"]; and pathlib's
    [/] operator on paths. *)
Record Config : Type := mkConfig {
  PROJECT_NAME : string;
  AWS_REGION : string;
  ECR_BASE_URL : string;
  INFRA_DIR : string;
  PROJECT_ROOT_PATH : string;
  CF_TEMPLATE_PATH : string;
  path_join : string -> string -> string
}.

Definition M (A : Type) : Type := State -> Result A * State.

Definition ret {A : Type} (a : A) : M A := fun s => (Ok a, s).

Definition raise {A : Type} (e : Exn) : M A := fun s => (Raise e, s).

Definition bind {A B : Type} (m : M A) (k : A -> M B) : M B :=
  fun s =>
    match m s with
    | (Ok a, s') => k a s'
    | (Raise e, s') => (Raise e, s')
    end.

Declare Scope py_scope.
Delimit Scope py_scope with py.
Notation "x <- m ;; k" := (bind m (fun x => k))
  (at level 61, m at next level, right associativity) : py_scope.
Notation "m ;; k" := (bind m (fun _ => k))
  (at level 61, right associativity) : py_scope.
Open Scope py_scope.

(** [try: body finally: fin]. *)
Definition try_finally {A : Type} (body : M A) (fin : M unit) : M A :=
  fun s =>
    match body s with
    | (r, s1) =>
        match fin s1 with
        | (Ok _, s2) => (r, s2)
        | (Raise e, s2) => (Raise e, s2)
        end
    end.

(** [try: body except subprocess.CalledProcessError as e: handler(e)]. *)
Definition try_except_CalledProcessError {A : Type}
    (body : M A) (handler : RunResult -> M A) : M A :=
  fun s =>
    match body s with
    | (Raise (CalledProcessError r), s1) => handler r s1
    | other => other
    end.

Definition emit (e : Event) : M unit :=
  fun s => (Ok tt, mkState (cwd s) (image_exists s) (log s ++ [e])).

Definition print (m : Message) : M unit := emit (EPrint m).

(** [assert cond, message]. *)
Definition py_assert (cond : bool) (m : Message) : M unit :=
  if cond then ret tt else raise (AssertionError m).

Definition lift_option {A : Type} (o : option A) (e : Exn) : M A :=
  match o with
  | Some a => ret a
  | None => raise e
  end.

(** [t[i]] on a tuple. *)
Definition py_index (t : list Z) (i : nat) : M Z :=
  lift_option (nth_error t i) IndexError.

Definition os_getcwd : M string := fun s => (Ok (cwd s), s).

Definition os_chdir (dir : string) : M unit :=
  fun s => (Ok tt, mkState dir (image_exists s) (log s ++ [EChdir dir])).

Definition set_image_exists (b : bool) : M unit :=
  fun s => (Ok tt, mkState (cwd s) (Some b) (log s)).

Definition get_image_exists : M bool :=
  fun s => lift_option (image_exists s) AttributeError s.

(** The exit status of the command line program for the outcome of a
    handler: the program runner turns a failed command into the status of
    that command, [sys.exit(n)] gives [n], and [SystemExit] with a text or
    any other uncaught exception gives 1. *)
Definition exit_status {A : Type} (r : Result A) : Z :=
  match r with
  | Ok _ => 0
  | Raise (UnexpectedExit res) => exited res
  | Raise (SystemExit_code n) => n
  | Raise _ => 1
  end.

(** Calls that reach an external program or service. *)
Definition is_external_call (e : Event) : bool :=
  match e with
  | ERun _ _ | ERunWarn _ _ | ESubprocess _ _ | EDescribeImages _ _ => true
  | _ => false
  end.

Definition is_fs_mutation (e : Event) : bool :=
  match e with
  | EUnlink _ | ESymlinkTo _ _ => true
  | _ => false
  end.

(** The command lines given to [c.run], in order. *)
Fixpoint run_commands (l : list Event) : list string :=
  match l with
  | [] => []
  | ERun cmd _ :: l' => cmd :: run_commands l'
  | _ :: l' => run_commands l'
  end.

(* ================================================================== *)
(** * main.py *)

Inductive JsonValue : Type :=
| JInt (n : Z)
| JStr (s : string).

(** A JSON object, as the list of its keys with their values. *)
Definition JsonObject : Type := list (string * JsonValue).

Definition root : JsonObject := [("message", JStr "Hello from FastAPI!")].

Definition predict (x y : Z) : JsonObject := [("result", JInt (x + y))].

(* ================================================================== *)
(** * The task runner *)

Section Handlers.

Variable cfg : Config.
Variable env : Env.

Definition pjoin (a b : string) : string := path_join cfg a b.

(* ------------------------------------------------------------------ *)
(** ** Primitive interactions *)

(** [c.run(cmd)] of invoke.  A non-zero exit status raises
    [UnexpectedExit] unless [warn=True] was given; [hide] and [pty] only
    change what is displayed. *)
Definition c_run (cmd : string) (warn : bool) : M RunResult :=
  fun s =>
    let r := run_reply env s cmd in
    if warn then
      (Ok r, mkState (cwd s) (image_exists s) (log s ++ [ERunWarn cmd r]))
    else
      let s' := mkState (cwd s) (image_exists s) (log s ++ [ERun cmd r]) in
      if (exited r =? 0)%Z then (Ok r, s') else (Raise (UnexpectedExit r), s').

(** [subprocess.run(argv, check=True, capture_output=True, text=True)]. *)
Definition subprocess_run (argv : list string) : M RunResult :=
  fun s =>
    let r := subprocess_reply env s argv in
    let s' := mkState (cwd s) (image_exists s) (log s ++ [ESubprocess argv r]) in
    if (exited r =? 0)%Z then (Ok r, s') else (Raise (CalledProcessError r), s').

(** [input(prompt)]. *)
Definition input (prompt : Message) : M string :=
  fun s =>
    let a := input_reply env s prompt in
    (Ok a, mkState (cwd s) (image_exists s) (log s ++ [EInput prompt a])).

(** [session.client("ecr").describe_images(repositoryName=repo)["imageDetails"]]. *)
Definition ecr_describe_images (repo : string) : M (list ImageDetail) :=
  fun s =>
    let l := describe_images_reply env s repo in
    (Ok l, mkState (cwd s) (image_exists s) (log s ++ [EDescribeImages repo l])).

(** A call of the file system that raises. *)
Definition fs_fail {A : Type} (call : FsCall) : M A :=
  fun s =>
    (Raise FileSystemError,
     mkState (cwd s) (image_exists s) (log s ++ [EFsError call])).

Definition path_is_symlink (p : string) : M bool :=
  fun s =>
    match is_symlink_reply env s p with
    | Some b => (Ok b, mkState (cwd s) (image_exists s) (log s ++ [EIsSymlink p b]))
    | None => fs_fail (CallIsSymlink p) s
    end.

Definition path_exists (p : string) : M bool :=
  fun s =>
    match exists_reply env s p with
    | Some b => (Ok b, mkState (cwd s) (image_exists s) (log s ++ [EExists p b]))
    | None => fs_fail (CallExists p) s
    end.

Definition path_resolve (p : string) : M string :=
  fun s =>
    match resolve_reply env s p with
    | Some q => (Ok q, mkState (cwd s) (image_exists s) (log s ++ [EResolve p q]))
    | None => fs_fail (CallResolve p) s
    end.

Definition path_unlink (p : string) : M unit :=
  fun s =>
    if unlink_reply env s p then emit (EUnlink p) s
    else fs_fail (CallUnlink p) s.

Definition path_symlink_to (link target : string) : M unit :=
  fun s =>
    if symlink_to_reply env s link target then emit (ESymlinkTo link target) s
    else fs_fail (CallSymlinkTo link target) s.

(* ------------------------------------------------------------------ *)
(** ** format.py, check.py, test.py, all.py *)

Definition format_code : M unit :=
  c_run "isort ." false ;;
  c_run "black --config=./pyproject.toml ." false ;;
  ret tt.

Definition check : M unit :=
  print MsgCheckingMypy ;;
  c_run "mypy . --exclude 'vendored/.*' --exclude '.*\.ipynb$'" false ;;
  print MsgCheckingRuff ;;
  c_run "ruff check . --exclude vendored/ --extend-exclude '\.ipynb$'" false ;;
  ret tt.

(** [with ctx.cd(path): ctx.run(command)] of invoke runs the command line
    prefixed by a change of directory. *)
Definition c_run_cd (path cmd : string) : M RunResult :=
  c_run ("cd " ++ path ++ " && " ++ cmd) false.

Definition test (verbose minimal : bool) : M unit :=
  let command := "pytest" in
  let command := if verbose then command ++ " --capture=no --verbose" else command in
  let command := if minimal then command ++ " -q --disable-warnings" else command in
  c_run_cd (PROJECT_ROOT_PATH cfg) command ;;
  ret tt.

Definition run_all : M unit :=
  print MsgFormattingCode ;;
  format_code ;;
  print MsgCheckingCode ;;
  check ;;
  print MsgRunningTests ;;
  test false false.

(* ------------------------------------------------------------------ *)
(** ** container.py *)

Definition validate_version (version : string) : bool :=
  if negb (py_startswith version "v") then false
  else
    let version := py_tail version in
    let version_str_tuple := py_split "." version in
    if negb (length version_str_tuple =? 3)%nat then false
    else forallb py_isdigit version_str_tuple.

(** [tuple(map(int, parts))]: the first part that is no literal raises. *)
Fixpoint map_int (parts : list string) : option (list Z) :=
  match parts with
  | [] => Some []
  | p :: parts' =>
      match py_int p with
      | None => None
      | Some n =>
          match map_int parts' with
          | None => None
          | Some ns => Some (n :: ns)
          end
      end
  end.

(** [None] stands for the [ValueError] of [int]. *)
Definition parse_tag (tag : string) : option (list Z) :=
  let version := py_tail tag in
  let version_str_tuple := py_split "." version in
  map_int version_str_tuple.

(** [[image["imageTags"][0] for image in image_list if image.get("imageTags")]] *)
Fixpoint first_tags (image_list : list ImageDetail) : list string :=
  match image_list with
  | [] => []
  | image :: rest =>
      match imageTags image with
      | Some (tag :: _) => tag :: first_tags rest
      | _ => first_tags rest
      end
  end.

(** [[parse_tag(tag) for tag in tag_list]] *)
Fixpoint parse_tags (tag_list : list string) : option (list (list Z)) :=
  match tag_list with
  | [] => Some []
  | tag :: rest =>
      match parse_tag tag with
      | None => None
      | Some v =>
          match parse_tags rest with
          | None => None
          | Some vs => Some (v :: vs)
          end
      end
  end.

Definition get_last_version : M (option (list Z)) :=
  image_list <- ecr_describe_images (PROJECT_NAME cfg) ;;
  match image_list with
  | [] => ret None
  | _ =>
      let tag_list := first_tags image_list in
      version_list <- lift_option (parse_tags tag_list) ValueError ;;
      let version_list := py_sort version_list in
      last <- lift_option (py_last version_list) IndexError ;;
      ret (Some last)
  end.

Definition docker_build_command (platform_option_cmd debug_option_cmd : string)
    (no_cache : bool) : string :=
  if no_cache then
    "docker build " ++ platform_option_cmd ++ " " ++ debug_option_cmd ++ " "
      ++ "--no-cache -t " ++ PROJECT_NAME cfg ++ ":latest ."
  else
    "docker build " ++ platform_option_cmd ++ " " ++ debug_option_cmd ++ " "
      ++ "-t " ++ PROJECT_NAME cfg ++ ":latest .".

Definition build (no_format no_check remote no_cache debug : bool) : M unit :=
  let with_format := negb no_format in
  let with_check := negb no_check in
  (if with_format then print MsgFormattingCode ;; format_code else ret tt) ;;
  (if with_check then print MsgCheckingCode ;; check else ret tt) ;;
  let platform_option_cmd := if remote then "--platform linux/amd64" else "" in
  let debug_option_cmd := if debug then "--progress=plain" else "" in
  (if no_cache then
     print (MsgBuildingNoCache platform_option_cmd debug_option_cmd) ;;
     c_run (docker_build_command platform_option_cmd debug_option_cmd true) false ;;
     print MsgBuiltForPlatform
   else
     print MsgBuilding ;;
     c_run (docker_build_command platform_option_cmd debug_option_cmd false) false ;;
     ret tt) ;;
  print MsgBuilt.

Definition login_command : string :=
  "aws ecr get-login-password --region " ++ AWS_REGION cfg ++ " | docker login "
    ++ "--username AWS --password-stdin " ++ ECR_BASE_URL cfg.

Definition remote_path (version : string) : string :=
  ECR_BASE_URL cfg ++ "/" ++ PROJECT_NAME cfg ++ ":" ++ version.

Definition tag_command (version : string) : string :=
  "docker tag " ++ (PROJECT_NAME cfg ++ ":latest") ++ " " ++ remote_path version.

Definition push_command (version : string) : string :=
  "docker push " ++ remote_path version.

(** The part of [push] after the version checks. *)
Definition publish (version : string) : M unit :=
  print MsgLoggingIn ;;
  c_run login_command false ;;
  print MsgTagging ;;
  c_run (tag_command version) false ;;
  print MsgPushing ;;
  c_run (push_command version) false ;;
  print MsgPushed.

Definition push (version : string) : M unit :=
  py_assert (validate_version version) MsgInvalidVersionFormat ;;
  version_to_push <- lift_option (parse_tag version) ValueError ;;
  last_version <- get_last_version ;;
  match last_version with
  | Some last =>
      if py_tuple_le version_to_push last then
        major <- py_index last 0 ;;
        minor <- py_index last 1 ;;
        patch <- py_index last 2 ;;
        print (MsgVersionNotGreater version major minor patch)
      else publish version
  | None => publish version
  end.

(* ------------------------------------------------------------------ *)
(** ** terraform.py *)

(** [Workspace.values()] *)
Definition Workspace_values : list string := ["dev"; "staging"; "production"].

Definition is_valid_workspace (workspace : string) : M unit :=
  let valid_workspaces := Workspace_values in
  if negb (py_in workspace valid_workspaces) then
    print (MsgInvalidWorkspace workspace) ;;
    print (MsgValidWorkspaces valid_workspaces) ;;
    raise (SystemExit_code 1)
  else ret tt.

(** [with change_directory(directory): body] *)
Definition change_directory {A : Type} (directory : string) (body : M A) : M A :=
  prev_dir <- os_getcwd ;;
  os_chdir directory ;;
  try_finally body (os_chdir prev_dir).

Definition ensure_symlink (src dest : string) : M unit :=
  is_link <- path_is_symlink dest ;;
  present <- (if is_link then ret true else path_exists dest) ;;
  (if present then path_unlink dest else ret tt) ;;
  target <- path_resolve src ;;
  path_symlink_to dest target.

(** [for ws in existing_workspaces: print(f"  - {ws}")] *)
Fixpoint print_workspaces (existing_workspaces : list string) : M unit :=
  match existing_workspaces with
  | [] => ret tt
  | ws :: rest => print (MsgWorkspaceItem ws) ;; print_workspaces rest
  end.

Definition strip_marker (w : string) : string := py_strip (py_strip_chars "* " w).

Definition check_and_switch_workspace (workspace workspace_dir : string) : M unit :=
  change_directory workspace_dir (
    result <- c_run "terraform workspace list" false ;;
    let existing_workspaces := py_splitlines (stdout result) in
    let existing_workspaces := map strip_marker existing_workspaces in
    if py_in workspace existing_workspaces then
      c_run ("terraform workspace select " ++ workspace) false ;;
      ret tt
    else
      print (MsgWorkspaceMissing workspace) ;;
      print MsgExistingWorkspaces ;;
      print_workspaces existing_workspaces ;;
      print (MsgCreateWorkspaceHint workspace) ;;
      raise (SystemExit_msg MsgExitNonExistentWorkspace)).

Definition workspace_dir_of (workspace : string) : string :=
  pjoin (pjoin (INFRA_DIR cfg) "environment") workspace.

Definition global_config_path : string :=
  pjoin (pjoin (pjoin (INFRA_DIR cfg) "config") "global") "settings.tf".

Definition symlink_path_of (workspace : string) : string :=
  pjoin (workspace_dir_of workspace) "settings.tf".

Definition var_file_of (workspace : string) : string :=
  pjoin (pjoin (pjoin (INFRA_DIR cfg) "config") "environment") (workspace ++ ".tfvars").

Definition var_secrets_file_of (workspace : string) : string :=
  pjoin (pjoin (pjoin (INFRA_DIR cfg) "config") "environment")
        (workspace ++ ".secrets.tfvars").

Definition init_command_of (reconfigure upgrade : bool) : string :=
  let init_command := "terraform init" in
  let init_command :=
    if reconfigure then init_command ++ " -reconfigure"
    else init_command ++ " -migrate-state" in
  if upgrade then init_command ++ " -upgrade" else init_command.

Definition plan_command (workspace : string) : string :=
  "terraform plan -var-file=" ++ var_file_of workspace
    ++ " -var-file=" ++ var_secrets_file_of workspace.

Definition apply_command (workspace : string) (auto_approve : bool) : string :=
  if auto_approve then
    "terraform apply -var-file=" ++ var_file_of workspace ++ " "
      ++ "-var-file=" ++ var_secrets_file_of workspace ++ " -auto-approve"
  else
    "terraform apply -var-file=" ++ var_file_of workspace ++ " "
      ++ "-var-file=" ++ var_secrets_file_of workspace.

Definition destroy_command (workspace : string) (auto_approve : bool) : string :=
  if auto_approve then
    "terraform destroy -var-file=" ++ var_file_of workspace ++ " "
      ++ "-var-file=" ++ var_secrets_file_of workspace ++ " -auto-approve"
  else
    "terraform destroy -var-file=" ++ var_file_of workspace ++ " "
      ++ "-var-file=" ++ var_secrets_file_of workspace.

Definition plan (workspace : string) (reconfigure upgrade : bool) : M unit :=
  let workspace_dir := workspace_dir_of workspace in
  let symlink_path := symlink_path_of workspace in
  is_valid_workspace workspace ;;
  ensure_symlink global_config_path symlink_path ;;
  let init_command := init_command_of reconfigure upgrade in
  change_directory workspace_dir (c_run init_command false) ;;
  check_and_switch_workspace workspace workspace_dir ;;
  change_directory workspace_dir (c_run (plan_command workspace) false) ;;
  ret tt.

Definition apply (workspace : string) (auto_approve : bool) : M unit :=
  let workspace_dir := workspace_dir_of workspace in
  let symlink_path := symlink_path_of workspace in
  is_valid_workspace workspace ;;
  ensure_symlink global_config_path symlink_path ;;
  check_and_switch_workspace workspace workspace_dir ;;
  change_directory workspace_dir (c_run (apply_command workspace auto_approve) false) ;;
  ret tt.

Definition destroy (workspace : string) (auto_approve : bool) : M unit :=
  let workspace_dir := workspace_dir_of workspace in
  let symlink_path := symlink_path_of workspace in
  ensure_symlink global_config_path symlink_path ;;
  let init_command := "terraform init" in
  change_directory workspace_dir (
    c_run init_command false ;;
    c_run (destroy_command workspace auto_approve) false) ;;
  ret tt.

(* ------------------------------------------------------------------ *)
(** ** cloudformation.py *)

Definition chat_db_table_stack_base_name : string := "chat-backend-threads-table".

Definition stack_name_of (env_name : string) : string :=
  chat_db_table_stack_base_name ++ "-" ++ env_name.

Definition cf_template_path_of (env_name : string) : string :=
  pjoin (pjoin (pjoin (CF_TEMPLATE_PATH cfg) "data_layer") env_name)
        "cominty_chat_dynamodb_storage.json".

Definition update_stack_command (env_name : string) : list string :=
  ["aws"; "cloudformation"; "update-stack"; "--stack-name"; stack_name_of env_name;
   "--template-body"; "file://" ++ cf_template_path_of env_name;
   "--capabilities"; "CAPABILITY_IAM"].

Definition create_stack_command (env_name : string) : list string :=
  ["aws"; "cloudformation"; "create-stack"; "--stack-name"; stack_name_of env_name;
   "--template-body"; "file://" ++ cf_template_path_of env_name;
   "--capabilities"; "CAPABILITY_IAM"].

Definition protect_command (env_name : string) : list string :=
  ["aws"; "cloudformation"; "update-termination-protection";
   "--enable-termination-protection"; "--stack-name"; stack_name_of env_name].

(** [input(...).lower().strip() == "y"] *)
Definition confirm : M bool :=
  answer <- input MsgProceedPrompt ;;
  ret (String.eqb (py_strip (py_lower answer)) "y").

Definition update_chat_table (env_name : string) : M unit :=
  py_assert (py_in env_name ["dev"; "staging"; "production"])
            (MsgInvalidEnvironment env_name) ;;
  let stack_name := stack_name_of env_name in
  let cf_template_path := cf_template_path_of env_name in
  print (MsgUpdatingStack stack_name) ;;
  print (MsgUsingTemplate cf_template_path) ;;
  proceed <- confirm ;;
  if negb proceed then
    print MsgAborting
  else
    let command := update_stack_command env_name in
    try_except_CalledProcessError
      (print MsgUpdatingStackStart ;;
       subprocess_run command ;;
       print MsgStackUpdated)
      (fun e => print (MsgErrorUpdatingStack (stderr e))).

Definition create_chat_table (env_name : string) : M unit :=
  py_assert (py_in env_name ["dev"; "staging"; "production"])
            (MsgInvalidEnvironment env_name) ;;
  let stack_name := stack_name_of env_name in
  let cf_template_path := cf_template_path_of env_name in
  print (MsgCreatingStack stack_name) ;;
  print (MsgUsingTemplate cf_template_path) ;;
  proceed <- confirm ;;
  if negb proceed then
    print MsgAborting
  else
    let command := create_stack_command env_name in
    try_except_CalledProcessError
      (print MsgCreatingStackStart ;;
       subprocess_run command ;;
       print MsgStackCreated)
      (fun e => print (MsgErrorCreatingStack (stderr e))) ;;
    let protect_command := protect_command env_name in
    try_except_CalledProcessError
      (print MsgEnablingProtection ;;
       subprocess_run protect_command ;;
       print MsgProtectionEnabled)
      (fun e => print (MsgErrorEnablingProtection (stderr e))).

(* ------------------------------------------------------------------ *)
(** ** run.py *)

Definition docker_image_exists (image_name : string) : M unit :=
  result <- c_run ("docker images -q " ++ image_name) true ;;
  let found := negb (String.eqb (py_strip (stdout result)) "") in
  set_image_exists found ;;
  if found then print (MsgFoundLocalImage image_name)
  else print (MsgImageNotFound image_name).

Definition chat_run_command : string :=
  let volume_option :=
    "-v " ++ PROJECT_ROOT_PATH cfg ++ ":/app " ++ "-v ~/.aws:/root/.aws " in
  let cmd_override := "python -m chainlit run chat.py --host 0.0.0.0 --port 80" in
  "docker run -p 80:80 -e USE_PASSWORD_AUTH=true --env-file .env"
    ++ " " ++ volume_option
    ++ " " ++ PROJECT_NAME cfg ++ ":latest"
    ++ " " ++ cmd_override.

Definition chat (no_format no_check force_build : bool) : M unit :=
  let with_format := negb no_format in
  let with_check := negb no_check in
  (if with_format then format_code else ret tt) ;;
  (if with_check then check else ret tt) ;;
  found <- get_image_exists ;;
  (if negb found || force_build then build false false false false false else ret tt) ;;
  c_run chat_run_command false ;;
  ret tt.

Definition server_run_command (local : bool) : string :=
  let volume_option :=
    if local
    then "-v " ++ PROJECT_ROOT_PATH cfg ++ ":/app " ++ "-v ~/.aws:/root/.aws "
    else "" in
  let cmd_override :=
    if local
    then "uvicorn server:app --host 0.0.0.0 --port 80 --log-level debug --reload"
    else "" in
  "docker run -p 80:80 --env-file .env " ++ volume_option ++ " "
    ++ PROJECT_NAME cfg ++ ":latest"
    ++ " " ++ cmd_override.

Definition server (no_format no_check local force_build no_cache : bool) : M unit :=
  let with_format := negb no_format in
  let with_check := negb no_check in
  (if with_format then format_code else ret tt) ;;
  (if with_check then check else ret tt) ;;
  found <- get_image_exists ;;
  (if negb found || force_build
   then build false false (negb local) no_cache false else ret tt) ;;
  c_run (server_run_command local) false ;;
  ret tt.

(* ------------------------------------------------------------------ *)
(** ** The command line *)

(** The subcommands with their arguments. *)
Inductive Subcommand : Type :=
| CmdFormat
| CmdCheck
| CmdTest (verbose minimal : bool)
| CmdAll
| CmdBuild (no_format no_check remote no_cache debug : bool)
| CmdPush (version : string)
| CmdServer (no_format no_check local force_build no_cache : bool)
| CmdChat (no_format no_check force_build : bool)
| CmdPlan (workspace : string) (reconfigure upgrade : bool)
| CmdApply (workspace : string) (auto_approve : bool)
| CmdDestroy (workspace : string) (auto_approve : bool)
| CmdCreateChatTable (env_name : string)
| CmdUpdateChatTable (env_name : string).

(** The handler of a subcommand, after its pre-hooks. *)
Definition dispatch (cmd : Subcommand) : M unit :=
  match cmd with
  | CmdFormat => format_code
  | CmdCheck => check
  | CmdTest verbose minimal => test verbose minimal
  | CmdAll => run_all
  | CmdBuild no_format no_check remote no_cache debug =>
      build no_format no_check remote no_cache debug
  | CmdPush version => push version
  | CmdServer no_format no_check local force_build no_cache =>
      docker_image_exists (PROJECT_NAME cfg) ;;
      server no_format no_check local force_build no_cache
  | CmdChat no_format no_check force_build =>
      docker_image_exists (PROJECT_NAME cfg) ;;
      chat no_format no_check force_build
  | CmdPlan workspace reconfigure upgrade => plan workspace reconfigure upgrade
  | CmdApply workspace auto_approve => apply workspace auto_approve
  | CmdDestroy workspace auto_approve => destroy workspace auto_approve
  | CmdCreateChatTable env_name => create_chat_table env_name
  | CmdUpdateChatTable env_name => update_chat_table env_name
  end.

End Handlers.

(* ================================================================== *)
(** * cloudformation.py: the enumeration of stacks *)

(** [str.upper()] on one character, as the code points of the result: the
    small letters go to their capitals; U+00B5 goes to U+039C, U+00DF to
    the two letters SS and U+00FF to U+0178, outside the range of [ascii]. *)
Definition upper_codes (c : ascii) : list N :=
  let n := code c in
  if (in_range 97 122 n || (in_range 224 254 n && negb (n =? 247)))%N then [n - 32]%N
  else if (n =? 181)%N then [924%N]
  else if (n =? 223)%N then [83%N; 83%N]
  else if (n =? 255)%N then [376%N]
  else [n].

(** [s.upper()], as code points. *)
Fixpoint py_upper (s : string) : list N :=
  match s with
  | EmptyString => []
  | String c s' => (upper_codes c ++ py_upper s')%list
  end.

Fixpoint codes_of (s : string) : list N :=
  match s with
  | EmptyString => []
  | String c s' => code c :: codes_of s'
  end.

Inductive ChatDBTableStack : Type :=
| DEV
| STAGING.

Definition ChatDBTableStack_value (m : ChatDBTableStack) : string :=
  match m with
  | DEV => "cominty-chat-table-dev-59C2566A-6973-4C40-8CC2-08CFF626A"
  | STAGING => "cominty-chat-table-staging-9EEEC115-F270-42C2-8DD4-9CBF23A9B7BA"
  end.

(** [ChatDBTableStack.from_env(env)], that is [cls[env.upper()]]; [None]
    stands for [KeyError]. *)
Definition from_env (env : string) : option ChatDBTableStack :=
  let name := py_upper env in
  if list_eq_dec N.eq_dec name (codes_of "DEV") then Some DEV
  else if list_eq_dec N.eq_dec name (codes_of "STAGING") then Some STAGING
  else None.

(* ================================================================== *)
(** * Notions used in the statements *)

(** A state in directory [dir] whose log is [evs]. *)
Definition initial_state_log (dir : string) (evs : list Event) : State :=
  mkState dir None evs.

(** The state a command starts in: nothing has happened yet. *)
Definition initial_state (dir : string) : State := initial_state_log dir [].

(** The state [s] once the events [evs] have happened after it. *)
Definition after (s : State) (evs : list Event) : State :=
  mkState (cwd s) (image_exists s) (log s ++ evs).

(** The state [s] once the process has changed to directory [dir]. *)
Definition moved (dir : string) (s : State) : State :=
  mkState dir (image_exists s) (log s ++ [EChdir dir]).

(** Characters of a workspace name: no marker, no blank. *)
Definition name_char (c : ascii) : bool :=
  negb (isspace_char c) && negb (string_mem c "* ").

(** The lines printed for the existing workspaces. *)
Definition workspace_items (existing : list string) : list Event :=
  map (fun ws => EPrint (MsgWorkspaceItem ws)) existing.

(** The events that happened between the states [s] and [s']. *)
Definition new_events (s s' : State) : list Event :=
  skipn (length (log s)) (log s').

(** A command of [c.run], given without [warn], that exited non-zero. *)
Definition failed_run (e : Event) : bool :=
  match e with
  | ERun _ r => negb (exited r =? 0)%Z
  | _ => false
  end.

Definition no_failed_run (l : list Event) : bool :=
  forallb (fun e => negb (failed_run e)) l.

(** What [get_last_version] makes of the registry's answer. *)
Definition last_version_of_images (image_list : list ImageDetail)
  : Result (option (list Z)) :=
  match image_list with
  | [] => Ok None
  | _ =>
      match parse_tags (first_tags image_list) with
      | None => Raise ValueError
      | Some version_list =>
          match py_last (py_sort version_list) with
          | None => Raise IndexError
          | Some last => Ok (Some last)
          end
      end
  end.

(** Every tag of every image in the registry's answer: the published
    tags. *)
Fixpoint all_tags (image_list : list ImageDetail) : list string :=
  match image_list with
  | [] => []
  | image :: rest =>
      match imageTags image with
      | Some tags => (tags ++ all_tags rest)%list
      | None => all_tags rest
      end
  end.

(** No image carries more than one tag. *)
Definition one_tag_each (image_list : list ImageDetail) : Prop :=
  forall image tag tags,
    In image image_list -> imageTags image = Some (tag :: tags) -> tags = [].

(** The three commands of a publication, in order. *)
Definition publish_commands (cfg : Config) (version : string) : list string :=
  [login_command cfg; tag_command cfg version; push_command cfg version].

(** An exception that ends the program with a non-zero exit status. *)
Definition fatal (e : Exn) : Prop := exit_status (@Raise unit e) <> 0%Z.


(** Normal form of the operator's answer at a confirmation prompt. *)
Definition normalized (answer : string) : string := py_strip (py_lower answer).

(** [str.isdecimal]: at least one character, all of them 0 to 9. *)
Definition decimal_string (s : string) : bool :=
  match s with
  | EmptyString => false
  | _ => string_forallb isdecimal_char s
  end.

(** The non-negative integer a string of decimal digits denotes. *)
Fixpoint decimal_value_from (acc : Z) (s : string) : Z :=
  match s with
  | EmptyString => acc
  | String c s' => decimal_value_from (10 * acc + digit_val c) s'
  end.

Definition decimal_value (s : string) : Z := decimal_value_from 0 s.

(** The text [v<a>.<b>.<c>]. *)
Definition version_text (a b c : string) : string :=
  "v" ++ a ++ "." ++ b ++ "." ++ c.

(** Lexicographic order on triples. *)
Definition triple_lt (a b : Z * Z * Z) : Prop :=
  let '(a1, a2, a3) := a in
  let '(b1, b2, b3) := b in
  (a1 < b1 \/ (a1 = b1 /\ (a2 < b2 \/ (a2 = b2 /\ a3 < b3))))%Z.

Definition tuple_le (a b : list Z) : Prop := py_tuple_le a b = true.

(** [m] is an item of [l] that no item of [l] exceeds. *)
Definition greatest (m : list Z) (l : list (list Z)) : Prop :=
  In m l /\ forall v, In v l -> tuple_le v m.

(** The character U+00B2, superscript two. *)
Definition superscript_two : string := String (ascii_of_N 178) EmptyString.

(* ------------------------------------------------------------------ *)
(** ** A concrete outside world for the examples *)

Definition example_join (a b : string) : string := a ++ "/" ++ b.

Definition example_cfg : Config :=
  mkConfig "chat-backend" "eu-west-1" "registry.example"
           "/repo/infra/terraform" "/repo" "infra/cloudformation" example_join.

Definition ok_result : RunResult := mkRunResult 0 "" "".

Definition failed_result : RunResult := mkRunResult 1 "" "failed".

(** A world whose answers do not depend on the past; no file exists yet
    and every call of the file system succeeds. *)
Definition const_env (run : string -> RunResult) (sub : list string -> RunResult)
    (answer : string) (images : list ImageDetail) : Env :=
  mkEnv (fun _ cmd => run cmd) (fun _ argv => sub argv) (fun _ _ => answer)
        (fun _ _ => images) (fun _ _ => Some false) (fun _ _ => Some false)
        (fun _ p => Some p) (fun _ _ => true) (fun _ _ _ => true).

(** Every command succeeds; [terraform workspace list] prints [listing]. *)
Definition calm_run (listing : string) (cmd : string) : RunResult :=
  if String.eqb cmd "terraform workspace list" then mkRunResult 0 listing ""
  else ok_result.

Definition calm_env (listing answer : string) (images : list ImageDetail) : Env :=
  const_env (calm_run listing) (fun _ => ok_result) answer images.

Definition newline : string := String (ascii_of_N 10) EmptyString.

(** An answer of [terraform workspace list]: [dev] is the current one. *)
Definition example_listing : string :=
  "  default" ++ newline ++ "* dev" ++ newline ++ "  staging" ++ newline.

(* ------------------------------------------------------------------ *)
(** ** Notions on whole runs *)

(** A computation leaves the process in the directory it found it in. *)
Definition keeps_cwd {A : Type} (m : M A) : Prop :=
  forall s, cwd (snd (m s)) = cwd s.

(** A computation stops at the first command of [c.run] that fails:
    started where none has failed, either none has failed when it ends, or
    it raises the [UnexpectedExit] of a failed command before which none had
    failed and after which nothing external was called. *)
Definition stops_at_first_failure {A : Type} (m : M A) : Prop :=
  forall s,
    no_failed_run (log s) = true ->
    match m s with
    | (Ok _, s') => no_failed_run (log s') = true
    | (Raise e, s') =>
        (no_failed_run (log s') = true /\ forall r, e <> UnexpectedExit r) \/
        (exists before cmd r rest,
           log s' = (before ++ ERun cmd r :: rest)%list /\
           no_failed_run before = true /\
           exited r <> 0%Z /\
           existsb is_external_call rest = false /\
           e = UnexpectedExit r)
    end.

(** Every command answers with exit status 0. *)
Definition all_commands_succeed (env : Env) : Prop :=
  forall st cmd, exited (run_reply env st cmd) = 0%Z.

(** A computation returns normally from every state, having added events
    whose [c.run] commands are [cmds], and nothing else to the state. *)
Definition completes_running {A : Type} (m : M A) (cmds : list string) : Prop :=
  forall s, exists a evs, m s = (Ok a, after s evs) /\ run_commands evs = cmds.

(** No character of the text is a digit other than 0 to 9. *)
Definition only_decimal_digits (s : string) : bool :=
  string_forallb (fun c => negb (isdigit_char c) || isdecimal_char c) s.

(** No segment of a version text has more digits than [int] converts. *)
Definition segments_within_limit (s : string) : bool :=
  forallb within_int_limit (py_split "." (py_tail s)).

(** A text made of the characters [str.strip()] removes. *)
Definition blank (s : string) : Prop := string_forallb isspace_char s = true.

(** A text of capital letters A to Z in which no S follows an S. *)
Fixpoint plain_capitals (s : string) : bool :=
  match s with
  | EmptyString => true
  | String c s' =>
      in_range 65 90 (code c)
      && match s' with
         | String d _ => negb ((code c =? 83)%N && (code d =? 83)%N)
         | EmptyString => true
         end
      && plain_capitals s'
  end.

(** The commands of [format_code] and of [check], in order. *)
Definition format_commands : list string :=
  ["isort ."; "black --config=./pyproject.toml ."].

Definition check_commands : list string :=
  ["mypy . --exclude 'vendored/.*' --exclude '.*\.ipynb$'";
   "ruff check . --exclude vendored/ --extend-exclude '\.ipynb$'"].

(** A world in which [isort] succeeds and every other command of [c.run]
    exits with status 123. *)
Definition only_isort_env : Env :=
  const_env (fun cmd => if String.eqb cmd "isort ." then ok_result
                        else mkRunResult 123 "" "")
            (fun _ => ok_result) "" [].

(** A world in which only the [docker push] of version [v1.0.0] fails. *)
Definition push_fails_env : Env :=
  const_env (fun cmd => if String.eqb cmd "docker push registry.example/chat-backend:v1.0.0"
                        then failed_result else ok_result)
            (fun _ => ok_result) "" [].

(* ================================================================== *)
(** * Properties of the built-ins *)

Lemma isdecimal_isdigit : forall c, isdecimal_char c = true -> isdigit_char c = true.
Proof.
  intros c H. unfold isdigit_char, isdecimal_char in *. rewrite H. reflexivity.
Qed.

Lemma ascii_eqb_code : forall c d, Ascii.eqb c d = (code c =? code d)%N.
Proof.
  intros c d. unfold code. destruct (Ascii.eqb_spec c d) as [->|Hne].
  - symmetry. apply N.eqb_refl.
  - symmetry. apply N.eqb_neq. intro H. apply Hne.
    rewrite <- (ascii_N_embedding c), <- (ascii_N_embedding d). now rewrite H.
Qed.

Lemma isdigit_not_dot : forall c, isdigit_char c = true -> Ascii.eqb c "." = false.
Proof.
  intros c H. rewrite ascii_eqb_code. unfold isdigit_char, in_range in H.
  change (code ".") with 46%N. apply N.eqb_neq. intro E. rewrite E in H.
  discriminate H.
Qed.

Lemma forallb_isdigit_no_dot :
  forall s, string_forallb isdigit_char s = true -> string_mem "." s = false.
Proof.
  induction s as [|c s IH]; cbn [string_forallb string_mem]; intro H; [reflexivity|].
  apply andb_true_iff in H as [Hc Hs].
  rewrite Ascii.eqb_sym, (isdigit_not_dot c Hc). cbn [orb]. auto.
Qed.

Lemma py_isdigit_no_dot : forall s, py_isdigit s = true -> string_mem "." s = false.
Proof.
  intros [|c s] H; [reflexivity|]. apply forallb_isdigit_no_dot. exact H.
Qed.

Lemma decimal_string_isdigit : forall s, decimal_string s = true -> py_isdigit s = true.
Proof.
  intros [|c s] H; [discriminate|]. unfold py_isdigit, decimal_string in *.
  revert H. generalize (String c s). induction s0 as [|d t IH]; simpl; [auto|].
  intro H. apply andb_true_iff in H as [Hd Ht].
  rewrite (isdecimal_isdigit d Hd). simpl. auto.
Qed.

Lemma py_split_not_nil : forall sep s, py_split sep s <> [].
Proof.
  intros sep [|c s]; simpl; [discriminate|].
  destruct (Ascii.eqb c sep); [discriminate|].
  destruct (py_split sep s); discriminate.
Qed.

Lemma py_split_no_sep :
  forall sep s, string_mem sep s = false -> py_split sep s = [s].
Proof.
  induction s as [|c s IH]; simpl; intro H; [reflexivity|].
  apply orb_false_iff in H as [Hc Hs].
  rewrite Ascii.eqb_sym, Hc, (IH Hs). reflexivity.
Qed.

Lemma py_split_app :
  forall sep a rest,
    string_mem sep a = false ->
    py_split sep (a ++ String sep rest) = a :: py_split sep rest.
Proof.
  induction a as [|c a IH]; simpl; intros rest H.
  - rewrite Ascii.eqb_refl. reflexivity.
  - apply orb_false_iff in H as [Hc Ha].
    rewrite Ascii.eqb_sym, Hc, (IH rest Ha). reflexivity.
Qed.

(** Joining the parts of a split with the separator gives the text back. *)
Lemma py_split_join :
  forall sep s, String.concat (String sep EmptyString) (py_split sep s) = s.
Proof.
  induction s as [|c s IH]; simpl; [reflexivity|].
  destruct (Ascii.eqb_spec c sep) as [->|Hne].
  - pose proof (py_split_not_nil sep s) as Hnn.
    destruct (py_split sep s) as [|h t] eqn:E; [congruence|].
    simpl in *. now rewrite IH.
  - pose proof (py_split_not_nil sep s) as Hnn.
    destruct (py_split sep s) as [|h t] eqn:E; [congruence|].
    destruct t as [|h' t']; simpl in *; now rewrite <- IH.
Qed.

Lemma py_lstrip_head :
  forall p c s, p c = false -> py_lstrip p (String c s) = String c s.
Proof. intros p c s H. simpl. now rewrite H. Qed.

Lemma py_rstrip_forall_not :
  forall p s, string_forallb (fun c => negb (p c)) s = true -> py_rstrip p s = s.
Proof.
  induction s as [|c s IH]; simpl; intro H; [reflexivity|].
  apply andb_true_iff in H as [Hc Hs]. rewrite (IH Hs).
  apply negb_true_iff in Hc. rewrite Hc. destruct s; reflexivity.
Qed.

Lemma string_forallb_impl :
  forall (p q : ascii -> bool) s,
    (forall c, p c = true -> q c = true) ->
    string_forallb p s = true -> string_forallb q s = true.
Proof.
  intros p q s Hpq. induction s as [|c s IH]; simpl; [auto|].
  intro H. apply andb_true_iff in H as [Hc Hs]. rewrite (Hpq c Hc). simpl. auto.
Qed.

Lemma isdecimal_code : forall c, isdecimal_char c = true -> (48 <= code c <= 57)%N.
Proof.
  intros c H. unfold isdecimal_char, in_range in H.
  apply andb_true_iff in H as [H1 H2].
  apply N.leb_le in H1. apply N.leb_le in H2. lia.
Qed.

Lemma isdecimal_not_space : forall c, isdecimal_char c = true -> int_space_char c = false.
Proof.
  intros c H. apply isdecimal_code in H. unfold int_space_char, in_range.
  repeat (apply orb_false_iff; split);
    first [apply andb_false_iff; left; apply N.leb_gt; lia
          | apply andb_false_iff; right; apply N.leb_gt; lia
          | apply N.eqb_neq; lia].
Qed.

Lemma isdecimal_not_sign :
  forall c, isdecimal_char c = true -> Ascii.eqb c "+" = false /\ Ascii.eqb c "-" = false.
Proof.
  intros c H. apply isdecimal_code in H. rewrite !ascii_eqb_code.
  change (code "+") with 43%N. change (code "-") with 45%N.
  split; apply N.eqb_neq; lia.
Qed.

Lemma int_digits_decimal :
  forall s acc b,
    string_forallb isdecimal_char s = true ->
    int_digits (String.append s EmptyString) acc b =
      match s with
      | EmptyString => if b then Some acc else None
      | _ => Some (decimal_value_from acc s)
      end.
Proof.
  induction s as [|c s IH]; intros acc b H; [reflexivity|].
  cbn [string_forallb] in H. apply andb_true_iff in H as [Hc Hs].
  cbn [String.append int_digits decimal_value_from]. rewrite Hc.
  rewrite (IH _ true Hs). destruct s; reflexivity.
Qed.

Lemma string_append_empty : forall s, String.append s EmptyString = s.
Proof. induction s as [|c s IH]; simpl; [reflexivity|now rewrite IH]. Qed.

(** [int] reads a string of decimal digits as the integer it denotes,
    unless it is longer than the limit. *)
Lemma py_int_decimal_cases :
  forall s, decimal_string s = true ->
            py_int s = if within_int_limit s then Some (decimal_value s) else None.
Proof.
  intros [|c s] H; [discriminate|]. unfold decimal_string in H.
  pose proof H as Hall. cbn [string_forallb] in H.
  apply andb_true_iff in H as [Hc Hs].
  unfold py_int. rewrite (py_lstrip_head _ c s (isdecimal_not_space c Hc)).
  rewrite py_rstrip_forall_not.
  2:{ apply (string_forallb_impl isdecimal_char); [|exact Hall].
      intros d Hd. now rewrite (isdecimal_not_space d Hd). }
  cbv zeta. destruct (within_int_limit (String c s)); [|reflexivity]. cbn [negb].
  destruct (isdecimal_not_sign c Hc) as [Hp Hm]. rewrite Hp, Hm.
  rewrite <- (string_append_empty (String c s)) at 1.
  rewrite (int_digits_decimal _ 0 false Hall). reflexivity.
Qed.

Lemma py_int_decimal :
  forall s, decimal_string s = true -> within_int_limit s = true ->
            py_int s = Some (decimal_value s).
Proof. intros s H L. rewrite (py_int_decimal_cases s H), L. reflexivity. Qed.

Lemma py_int_beyond_limit :
  forall s, decimal_string s = true -> within_int_limit s = false -> py_int s = None.
Proof. intros s H L. rewrite (py_int_decimal_cases s H), L. reflexivity. Qed.

Lemma py_startswith_v : forall s, py_startswith s "v" = true <-> exists t, s = String "v" t.
Proof.
  intros s. unfold py_startswith. split.
  - destruct s as [|c t]; cbn [String.prefix]; [discriminate|].
    destruct (ascii_dec "v" c) as [<-|]; [eauto|discriminate].
  - intros [t ->]. cbn [String.prefix]. destruct (ascii_dec "v" "v"); [|congruence].
    destruct t; reflexivity.
Qed.

(** [validate_version] accepts exactly the texts [v<a>.<b>.<c>] whose three
    segments satisfy [str.isdigit]. *)
Lemma validate_version_iff :
  forall s,
    validate_version s = true <->
    exists a b c, s = version_text a b c /\
                  py_isdigit a = true /\ py_isdigit b = true /\ py_isdigit c = true.
Proof.
  intros s. unfold validate_version. split.
  - destruct (py_startswith s "v") eqn:Hv; [|discriminate]. cbn [negb].
    apply py_startswith_v in Hv as [t ->]. cbn [py_tail].
    pose proof (py_split_join "." t) as Hj.
    destruct (py_split "." t) as [|a [|b [|c [|d l]]]]; try discriminate.
    cbn [length Nat.eqb negb forallb]. intro H.
    apply andb_true_iff in H as [Ha H]. apply andb_true_iff in H as [Hb H].
    apply andb_true_iff in H as [Hc _].
    exists a, b, c. repeat split; auto.
    unfold version_text. rewrite <- Hj. reflexivity.
  - intros (a & b & c & -> & Ha & Hb & Hc).
    unfold version_text. change ("v" ++ a ++ "." ++ b ++ "." ++ c)
      with (String "v" (a ++ String "." (b ++ String "." c))).
    replace (py_startswith _ "v") with true
      by (symmetry; apply py_startswith_v; eauto).
    cbn [negb py_tail].
    rewrite (py_split_app "." a _ (py_isdigit_no_dot a Ha)).
    rewrite (py_split_app "." b _ (py_isdigit_no_dot b Hb)).
    rewrite (py_split_no_sep "." c (py_isdigit_no_dot c Hc)).
    cbn [length Nat.eqb negb forallb]. now rewrite Ha, Hb, Hc.
Qed.

(** The segments of a text [v<digits>.<digits>.<digits>] with the digits
    0 to 9. *)
Lemma segments_decimal_shape :
  forall a b c,
    decimal_string a = true -> decimal_string b = true -> decimal_string c = true ->
    py_split "." (py_tail (version_text a b c)) = [a; b; c].
Proof.
  intros a b c Ha Hb Hc. unfold version_text.
  change ("v" ++ a ++ "." ++ b ++ "." ++ c)
    with (String "v" (a ++ String "." (b ++ String "." c))).
  cbn [py_tail].
  pose proof (py_isdigit_no_dot a (decimal_string_isdigit a Ha)) as Na.
  pose proof (py_isdigit_no_dot b (decimal_string_isdigit b Hb)) as Nb.
  pose proof (py_isdigit_no_dot c (decimal_string_isdigit c Hc)) as Nc.
  now rewrite (py_split_app "." a _ Na), (py_split_app "." b _ Nb),
    (py_split_no_sep "." c Nc).
Qed.

Lemma parse_tag_decimal_shape :
  forall a b c,
    decimal_string a = true -> decimal_string b = true -> decimal_string c = true ->
    parse_tag (version_text a b c) = map_int [a; b; c].
Proof.
  intros a b c Ha Hb Hc. unfold parse_tag.
  now rewrite (segments_decimal_shape a b c Ha Hb Hc).
Qed.

(** Every text [v<digits>.<digits>.<digits>] with the digits 0 to 9 is
    accepted, and [parse_tag] gives the three integers its segments denote
    when none of them is longer than the limit of [int]. *)
Lemma validate_version_decimal_shape :
  forall a b c,
    decimal_string a = true -> decimal_string b = true -> decimal_string c = true ->
    validate_version (version_text a b c) = true /\
    (within_int_limit a = true -> within_int_limit b = true ->
     within_int_limit c = true ->
     parse_tag (version_text a b c) =
       Some [decimal_value a; decimal_value b; decimal_value c]).
Proof.
  intros a b c Ha Hb Hc. split.
  - apply validate_version_iff. exists a, b, c.
    repeat split; auto using decimal_string_isdigit.
  - intros La Lb Lc. rewrite (parse_tag_decimal_shape a b c Ha Hb Hc). cbn [map_int].
    now rewrite (py_int_decimal a Ha La), (py_int_decimal b Hb Lb),
      (py_int_decimal c Hc Lc).
Qed.

Lemma decimal_value_from_nonneg :
  forall s acc, string_forallb isdecimal_char s = true -> (0 <= acc)%Z ->
                (0 <= decimal_value_from acc s)%Z.
Proof.
  induction s as [|c s IH]; cbn [string_forallb decimal_value_from];
    intros acc H Hacc; [exact Hacc|].
  apply andb_true_iff in H as [Hc Hs]. apply IH; [exact Hs|].
  apply isdecimal_code in Hc. unfold digit_val. lia.
Qed.

(* ================================================================== *)
(** * Order on version tuples *)

Lemma py_tuple_le_not_lt : forall a b, py_tuple_le a b = negb (py_tuple_lt b a).
Proof.
  induction a as [|x a IH]; intros [|y b]; simpl; try reflexivity.
  rewrite (Z.eqb_sym y x). destruct (Z.eqb_spec x y) as [_|Hne]; [apply IH|].
  destruct (Z.leb_spec x y), (Z.ltb_spec y x); try reflexivity; lia.
Qed.

Lemma py_tuple_lt_triple :
  forall a1 a2 a3 b1 b2 b3,
    py_tuple_lt [a1; a2; a3] [b1; b2; b3] = true <->
    triple_lt (a1, a2, a3) (b1, b2, b3).
Proof.
  intros. unfold triple_lt. simpl.
  destruct (Z.eqb_spec a1 b1), (Z.eqb_spec a2 b2), (Z.eqb_spec a3 b3);
    rewrite ?Z.ltb_lt; split; try lia; try discriminate.
Qed.

Lemma py_tuple_le_refl : forall a, py_tuple_le a a = true.
Proof. induction a as [|x a IH]; simpl; [reflexivity|]. now rewrite Z.eqb_refl. Qed.

Lemma py_tuple_le_trans :
  forall a b c, py_tuple_le a b = true -> py_tuple_le b c = true -> py_tuple_le a c = true.
Proof.
  induction a as [|x a IH]; intros [|y b] [|z c]; simpl; try congruence.
  destruct (Z.eqb_spec x y), (Z.eqb_spec y z), (Z.eqb_spec x z);
    rewrite ?Z.leb_le; try lia; try (subst; apply IH); intros; lia.
Qed.

Lemma py_tuple_le_total : forall a b, py_tuple_le a b = true \/ py_tuple_le b a = true.
Proof.
  induction a as [|x a IH]; intros [|y b]; simpl; auto.
  rewrite (Z.eqb_sym y x). destruct (Z.eqb_spec x y); [apply IH|].
  rewrite !Z.leb_le. lia.
Qed.

(** ** The last item of the sorted list is a greatest one *)

Lemma py_last_in : forall (A : Type) (l : list A) x, py_last l = Some x -> In x l.
Proof.
  induction l as [|a l IH]; simpl; intros x H; [discriminate|].
  destruct l as [|b l]; [injection H as <-; auto|]. right. now apply IH.
Qed.

Lemma insert_sorted_in :
  forall v w l, In w (insert_sorted v l) <-> w = v \/ In w l.
Proof.
  induction l as [|u l IH]; simpl; [intuition congruence|].
  destruct (py_tuple_lt v u); simpl; [intuition congruence|].
  rewrite IH. intuition congruence.
Qed.

Lemma py_sort_in : forall w l, In w (py_sort l) <-> In w l.
Proof.
  induction l as [|v l IH]; simpl; [tauto|].
  rewrite insert_sorted_in, IH. intuition congruence.
Qed.

Lemma py_tuple_lt_le : forall a b, py_tuple_lt a b = true -> tuple_le a b.
Proof.
  intros a b H. unfold tuple_le.
  destruct (py_tuple_le_total a b) as [Hab|Hba]; [exact Hab|].
  rewrite py_tuple_le_not_lt, H in Hba. discriminate.
Qed.

Lemma insert_sorted_sorted :
  forall v l, StronglySorted tuple_le l -> StronglySorted tuple_le (insert_sorted v l).
Proof.
  intros v l Hs. induction Hs as [|w l Hs IH Hw]; cbn [insert_sorted].
  - constructor; constructor.
  - destruct (py_tuple_lt v w) eqn:Hvw.
    + constructor; [now constructor|]. constructor; [now apply py_tuple_lt_le|].
      apply Forall_forall. intros u Hu. unfold tuple_le.
      apply (py_tuple_le_trans _ w); [now apply py_tuple_lt_le|].
      rewrite Forall_forall in Hw. now apply Hw.
    + constructor; [exact IH|]. apply Forall_forall. intros u Hu.
      apply insert_sorted_in in Hu as [->|Hu].
      * unfold tuple_le. now rewrite py_tuple_le_not_lt, Hvw.
      * rewrite Forall_forall in Hw. now apply Hw.
Qed.

Lemma py_sort_sorted : forall l, StronglySorted tuple_le (py_sort l).
Proof.
  induction l as [|v l IH]; cbn [py_sort]; [constructor|].
  now apply insert_sorted_sorted.
Qed.

Lemma py_last_sorted_greatest :
  forall l m, StronglySorted tuple_le l -> py_last l = Some m ->
              forall u, In u l -> tuple_le u m.
Proof.
  intros l m Hs. induction Hs as [|w l Hs IH Hw]; intros Hm u Hu; [destruct Hu|].
  destruct l as [|x l].
  - simpl in Hm. injection Hm as <-. destruct Hu as [->|[]]. apply py_tuple_le_refl.
  - assert (Hm' : py_last (x :: l) = Some m) by exact Hm.
    destruct Hu as [<-|Hu]; [|now apply IH].
    rewrite Forall_forall in Hw. apply Hw. now apply py_last_in.
Qed.

(** [version_list.sort(); version_list[-1]] is a greatest version of the list. *)
Lemma py_last_sort_greatest :
  forall l m, py_last (py_sort l) = Some m -> greatest m l.
Proof.
  intros l m Hm. split; [apply py_sort_in; now apply py_last_in|].
  intros v Hv. apply (py_last_sorted_greatest (py_sort l)); auto using py_sort_sorted.
  now apply py_sort_in.
Qed.

(** The version [get_last_version] yields is a greatest one among the
    versions parsed from the first tags of the tagged images. *)
Lemma last_version_of_images_greatest :
  forall images last,
    last_version_of_images images = Ok (Some last) ->
    exists versions,
      parse_tags (first_tags images) = Some versions /\ greatest last versions.
Proof.
  intros images last H. unfold last_version_of_images in H.
  destruct images as [|image rest]; [discriminate|].
  destruct (parse_tags _) as [versions|]; [|discriminate].
  destruct (py_last (py_sort versions)) as [m|] eqn:Hm; [|discriminate].
  injection H as <-. exists versions. split; [reflexivity|].
  now apply py_last_sort_greatest.
Qed.

(* ================================================================== *)
(** * Symbolic execution of handlers *)

Lemma after_after : forall s l1 l2, after (after s l1) l2 = after s (l1 ++ l2).
Proof. intros. unfold after. simpl. now rewrite app_assoc. Qed.

Lemma after_nil : forall s, after s [] = s.
Proof. intros [c i l]. unfold after. simpl. now rewrite app_nil_r. Qed.

Lemma c_run_eq :
  forall env cmd s,
    c_run env cmd false s =
      let r := run_reply env s cmd in
      (if (exited r =? 0)%Z then Ok r else Raise (UnexpectedExit r),
       after s [ERun cmd r]).
Proof. intros. unfold c_run, after. cbv zeta. destruct (_ =? _)%Z; reflexivity. Qed.

Lemma subprocess_run_eq :
  forall env argv s,
    subprocess_run env argv s =
      let r := subprocess_reply env s argv in
      (if (exited r =? 0)%Z then Ok r else Raise (CalledProcessError r),
       after s [ESubprocess argv r]).
Proof. intros. unfold subprocess_run, after. cbv zeta. destruct (_ =? _)%Z; reflexivity. Qed.

Lemma print_eq : forall m s, print m s = (Ok tt, after s [EPrint m]).
Proof. reflexivity. Qed.

Lemma input_eq :
  forall env prompt s,
    input env prompt s =
      (Ok (input_reply env s prompt), after s [EInput prompt (input_reply env s prompt)]).
Proof. reflexivity. Qed.

Lemma bind_ok :
  forall (A B : Type) (m : M A) (k : A -> M B) s a s',
    m s = (Ok a, s') -> bind m k s = k a s'.
Proof. intros. unfold bind. now rewrite H. Qed.

Lemma bind_raise :
  forall (A B : Type) (m : M A) (k : A -> M B) s e s',
    m s = (Raise e, s') -> bind m k s = (Raise e, s').
Proof. intros. unfold bind. now rewrite H. Qed.

(** Unfold the monad and the primitive interactions, keeping the answers
    of the outside as they are. *)
Ltac run_handler :=
  cbv beta iota zeta delta
    [bind ret raise try_finally try_except_CalledProcessError emit print py_assert
     lift_option py_index os_getcwd os_chdir set_image_exists get_image_exists
     c_run subprocess_run input ecr_describe_images path_is_symlink path_exists
     path_resolve path_unlink path_symlink_to fs_fail c_run_cd after moved];
  cbn [cwd image_exists log fst snd].

Ltac norm_log :=
  cbv zeta; unfold after, moved; cbn [cwd image_exists log fst snd];
  rewrite <- ?app_assoc; cbn [app].

Ltac step := run_handler; norm_log.

(* ================================================================== *)
(** * The scoped directory change *)

(** C7.  For every target directory and every block, [change_directory]
    leaves the process in the working directory it captured on entry, its
    last action being the change back to that directory, and it passes on
    the outcome of the block, be it a value or a raised exception. *)
Theorem change_directory_restores_cwd :
  forall (A : Type) (directory : string) (body : M A) (s : State),
    let entered := moved directory s in
    cwd (snd (change_directory directory body s)) = cwd s /\
    fst (change_directory directory body s) = fst (body entered) /\
    snd (change_directory directory body s) = moved (cwd s) (snd (body entered)).
Proof.
  intros A directory body s entered. unfold change_directory.
  run_handler. subst entered. unfold moved.
  destruct (body _) as [r s1]. cbn [fst snd cwd log]. auto.
Qed.

(** The two exit paths of a block, spelled out. *)
Lemma change_directory_normal_exit :
  forall (A : Type) (directory : string) (body : M A) (s s1 : State) (a : A),
    body (moved directory s) = (Ok a, s1) ->
    change_directory directory body s = (Ok a, moved (cwd s) s1).
Proof.
  intros A directory body s s1 a H. unfold change_directory. run_handler.
  unfold moved in H. now rewrite H.
Qed.

Lemma change_directory_raised_exit :
  forall (A : Type) (directory : string) (body : M A) (s s1 : State) (e : Exn),
    body (moved directory s) = (Raise e, s1) ->
    change_directory directory body s = (Raise e, moved (cwd s) s1).
Proof.
  intros A directory body s s1 e H. unfold change_directory. run_handler.
  unfold moved in H. now rewrite H.
Qed.

(** A failing command inside the block: the exception leaves the block and
    the directory is the one the command started from. *)
Example change_directory_failed_command :
  let env := const_env (fun _ => failed_result) (fun _ => ok_result) "" [] in
  change_directory "/repo/infra" (c_run env "terraform init" false) (initial_state "/home/op")
  = (Raise (UnexpectedExit failed_result),
     mkState "/home/op" None
       [EChdir "/repo/infra"; ERun "terraform init" failed_result; EChdir "/home/op"]).
Proof. reflexivity. Qed.

(* ================================================================== *)
(** * The chat table stack commands *)

Section ChatTable.

Variable cfg : Config.
Variable env : Env.

(** What [update_chat_table] does for an accepted environment name. *)
Lemma update_chat_table_run :
  forall env_name s,
    py_in env_name ["dev"; "staging"; "production"] = true ->
    update_chat_table cfg env env_name s =
      let asked := after s [EPrint (MsgUpdatingStack (stack_name_of env_name));
                            EPrint (MsgUsingTemplate (cf_template_path_of cfg env_name))] in
      let answer := input_reply env asked MsgProceedPrompt in
      if String.eqb (normalized answer) "y" then
        let started := after asked [EInput MsgProceedPrompt answer;
                                    EPrint MsgUpdatingStackStart] in
        let reply := subprocess_reply env started (update_stack_command cfg env_name) in
        (Ok tt,
         after started
           [ESubprocess (update_stack_command cfg env_name) reply;
            EPrint (if (exited reply =? 0)%Z then MsgStackUpdated
                    else MsgErrorUpdatingStack (stderr reply))])
      else (Ok tt, after asked [EInput MsgProceedPrompt answer; EPrint MsgAborting]).
Proof.
  intros env_name s Hvalid. unfold update_chat_table, confirm, normalized.
  rewrite Hvalid. run_handler. norm_log.
  destruct (String.eqb _ "y"); cbn [negb]; run_handler; norm_log; [|reflexivity].
  destruct (exited _ =? 0)%Z; run_handler; norm_log; reflexivity.
Qed.

(** What [create_chat_table] does for an accepted environment name. *)
Lemma create_chat_table_run :
  forall env_name s,
    py_in env_name ["dev"; "staging"; "production"] = true ->
    create_chat_table cfg env env_name s =
      let asked := after s [EPrint (MsgCreatingStack (stack_name_of env_name));
                            EPrint (MsgUsingTemplate (cf_template_path_of cfg env_name))] in
      let answer := input_reply env asked MsgProceedPrompt in
      if String.eqb (normalized answer) "y" then
        let started := after asked [EInput MsgProceedPrompt answer;
                                    EPrint MsgCreatingStackStart] in
        let reply := subprocess_reply env started (create_stack_command cfg env_name) in
        let protecting :=
          after started
            [ESubprocess (create_stack_command cfg env_name) reply;
             EPrint (if (exited reply =? 0)%Z then MsgStackCreated
                     else MsgErrorCreatingStack (stderr reply));
             EPrint MsgEnablingProtection] in
        let reply2 := subprocess_reply env protecting (protect_command env_name) in
        (Ok tt,
         after protecting
           [ESubprocess (protect_command env_name) reply2;
            EPrint (if (exited reply2 =? 0)%Z then MsgProtectionEnabled
                    else MsgErrorEnablingProtection (stderr reply2))])
      else (Ok tt, after asked [EInput MsgProceedPrompt answer; EPrint MsgAborting]).
Proof.
  intros env_name s Hvalid. unfold create_chat_table, confirm, normalized.
  rewrite Hvalid. run_handler. norm_log.
  destruct (String.eqb _ "y"); cbn [negb]; run_handler; norm_log; [|reflexivity].
  destruct (exited _ =? 0)%Z; run_handler; norm_log;
    destruct (exited _ =? 0)%Z; run_handler; norm_log; reflexivity.
Qed.

End ChatTable.

(** C9.  In [update_chat_table] and in [create_chat_table], for an accepted
    environment name: when the operator's answer, lowercased and stripped,
    is not [y], the command prints the abort notice and returns normally
    without any [subprocess.run] call; when it is [y], the next external
    action is the [subprocess.run] of the stack-changing command,
    [aws cloudformation update-stack] or [create-stack] for the stack and
    the template of the environment. *)
Theorem chat_table_confirmation :
  forall cfg env env_name s,
    py_in env_name ["dev"; "staging"; "production"] = true ->
    let stack := "chat-backend-threads-table-" ++ env_name in
    let template_path :=
      path_join cfg (path_join cfg (path_join cfg (CF_TEMPLATE_PATH cfg) "data_layer")
                               env_name)
                "cominty_chat_dynamodb_storage.json" in
    let template := EPrint (MsgUsingTemplate template_path) in
    let asked_u := after s [EPrint (MsgUpdatingStack stack); template] in
    let asked_c := after s [EPrint (MsgCreatingStack stack); template] in
    let answer_u := input_reply env asked_u MsgProceedPrompt in
    let answer_c := input_reply env asked_c MsgProceedPrompt in
    (normalized answer_u <> "y" ->
       update_chat_table cfg env env_name s =
         (Ok tt, after asked_u [EInput MsgProceedPrompt answer_u; EPrint MsgAborting])) /\
    (normalized answer_c <> "y" ->
       create_chat_table cfg env env_name s =
         (Ok tt, after asked_c [EInput MsgProceedPrompt answer_c; EPrint MsgAborting])) /\
    (normalized answer_u = "y" ->
       exists reply rest,
         log (snd (update_chat_table cfg env env_name s)) =
           (log asked_u ++
            [EInput MsgProceedPrompt answer_u; EPrint MsgUpdatingStackStart;
             ESubprocess
               ["aws"; "cloudformation"; "update-stack"; "--stack-name"; stack;
                "--template-body"; ("file://" ++ template_path)%string;
                "--capabilities"; "CAPABILITY_IAM"] reply] ++ rest)%list) /\
    (normalized answer_c = "y" ->
       exists reply rest,
         log (snd (create_chat_table cfg env env_name s)) =
           (log asked_c ++
            [EInput MsgProceedPrompt answer_c; EPrint MsgCreatingStackStart;
             ESubprocess
               ["aws"; "cloudformation"; "create-stack"; "--stack-name"; stack;
                "--template-body"; ("file://" ++ template_path)%string;
                "--capabilities"; "CAPABILITY_IAM"] reply] ++ rest)%list).
Proof.
  intros cfg env env_name s Hvalid stack template_path template asked_u asked_c
    answer_u answer_c.
  rewrite (update_chat_table_run cfg env env_name s Hvalid).
  rewrite (create_chat_table_run cfg env env_name s Hvalid).
  cbv zeta.
  change (stack_name_of env_name) with stack.
  change (cf_template_path_of cfg env_name) with template_path.
  fold template. fold asked_u asked_c. fold answer_u answer_c.
  repeat split.
  - intro Hn. apply String.eqb_neq in Hn. now rewrite Hn.
  - intro Hn. apply String.eqb_neq in Hn. now rewrite Hn.
  - intro Hy. apply String.eqb_eq in Hy. rewrite Hy.
    eexists. eexists. unfold after. cbn [snd log cwd image_exists]. norm_log. reflexivity.
  - intro Hy. apply String.eqb_eq in Hy. rewrite Hy.
    eexists. eexists. unfold after. cbn [snd log cwd image_exists]. norm_log. reflexivity.
Qed.

(** An operator who answers [No], and one who answers [ Y ]. *)
Lemma chat_table_confirmation_witness :
  py_in "dev" ["dev"; "staging"; "production"] = true /\
  update_chat_table example_cfg (calm_env "" "No" []) "dev" (initial_state "/repo") =
    (Ok tt,
     initial_state_log "/repo"
       [EPrint (MsgUpdatingStack "chat-backend-threads-table-dev");
        EPrint (MsgUsingTemplate
                  "infra/cloudformation/data_layer/dev/cominty_chat_dynamodb_storage.json");
        EInput MsgProceedPrompt "No"; EPrint MsgAborting]) /\
  normalized " Y " = "y" /\
  update_chat_table example_cfg (calm_env "" " Y " []) "dev" (initial_state "/repo") =
    (Ok tt,
     initial_state_log "/repo"
       [EPrint (MsgUpdatingStack "chat-backend-threads-table-dev");
        EPrint (MsgUsingTemplate
                  "infra/cloudformation/data_layer/dev/cominty_chat_dynamodb_storage.json");
        EInput MsgProceedPrompt " Y ";
        EPrint MsgUpdatingStackStart;
        ESubprocess
          ["aws"; "cloudformation"; "update-stack"; "--stack-name";
           "chat-backend-threads-table-dev"; "--template-body";
           "file://infra/cloudformation/data_layer/dev/cominty_chat_dynamodb_storage.json";
           "--capabilities"; "CAPABILITY_IAM"] ok_result;
        EPrint MsgStackUpdated]) /\
  exists reply rest,
    log (snd (create_chat_table example_cfg (calm_env "" " Y " []) "staging"
                (initial_state "/repo"))) =
      ([EPrint (MsgCreatingStack "chat-backend-threads-table-staging");
       EPrint (MsgUsingTemplate
                 "infra/cloudformation/data_layer/staging/cominty_chat_dynamodb_storage.json");
       EInput MsgProceedPrompt " Y ";
       EPrint MsgCreatingStackStart;
       ESubprocess
         ["aws"; "cloudformation"; "create-stack"; "--stack-name";
          "chat-backend-threads-table-staging"; "--template-body";
          "file://infra/cloudformation/data_layer/staging/cominty_chat_dynamodb_storage.json";
          "--capabilities"; "CAPABILITY_IAM"] reply] ++ rest)%list.
Proof.
  split; [reflexivity|]. split.
  { exact (proj1 (chat_table_confirmation example_cfg (calm_env "" "No" []) "dev"
                    (initial_state "/repo") eq_refl) ltac:(vm_compute; discriminate)). }
  split; [reflexivity|]. split; [reflexivity|].
  exact (proj2 (proj2 (proj2 (chat_table_confirmation example_cfg
                                (calm_env "" " Y " []) "staging"
                                (initial_state "/repo") eq_refl))) eq_refl).
Defined.

(** C10.  In [create_chat_table], once the operator has confirmed, the
    outcome of the stack creation only selects the notice that is printed
    (success, or the error with the captured text): in both cases the
    command goes on to run the termination-protection command for the stack
    name, and it returns normally. *)
Theorem create_chat_table_always_protects :
  forall cfg env env_name s,
    py_in env_name ["dev"; "staging"; "production"] = true ->
    let asked := after s [EPrint (MsgCreatingStack (stack_name_of env_name));
                          EPrint (MsgUsingTemplate (cf_template_path_of cfg env_name))] in
    let answer := input_reply env asked MsgProceedPrompt in
    normalized answer = "y" ->
    let started := after asked [EInput MsgProceedPrompt answer;
                                EPrint MsgCreatingStackStart] in
    let reply := subprocess_reply env started (create_stack_command cfg env_name) in
    let notice := if (exited reply =? 0)%Z then MsgStackCreated
                  else MsgErrorCreatingStack (stderr reply) in
    let protecting :=
      after started [ESubprocess (create_stack_command cfg env_name) reply;
                     EPrint notice; EPrint MsgEnablingProtection] in
    let reply2 := subprocess_reply env protecting (protect_command env_name) in
    create_chat_table cfg env env_name s =
      (Ok tt,
       after protecting
         [ESubprocess (protect_command env_name) reply2;
          EPrint (if (exited reply2 =? 0)%Z then MsgProtectionEnabled
                  else MsgErrorEnablingProtection (stderr reply2))]).
Proof.
  intros cfg env env_name s Hvalid asked answer Hy.
  rewrite (create_chat_table_run cfg env env_name s Hvalid).
  cbv zeta. fold asked. fold answer. rewrite Hy. reflexivity.
Qed.

(** Stack creation fails: the error is printed and protection is attempted. *)
Lemma create_chat_table_always_protects_witness :
  create_chat_table example_cfg
    (const_env (fun _ => ok_result) (fun _ => failed_result) "y" []) "dev"
    (initial_state "/repo") =
  (Ok tt,
   initial_state_log "/repo"
     [EPrint (MsgCreatingStack "chat-backend-threads-table-dev");
      EPrint (MsgUsingTemplate
                "infra/cloudformation/data_layer/dev/cominty_chat_dynamodb_storage.json");
      EInput MsgProceedPrompt "y";
      EPrint MsgCreatingStackStart;
      ESubprocess
        ["aws"; "cloudformation"; "create-stack"; "--stack-name";
         "chat-backend-threads-table-dev"; "--template-body";
         "file://infra/cloudformation/data_layer/dev/cominty_chat_dynamodb_storage.json";
         "--capabilities"; "CAPABILITY_IAM"] failed_result;
      EPrint (MsgErrorCreatingStack "failed");
      EPrint MsgEnablingProtection;
      ESubprocess
        ["aws"; "cloudformation"; "update-termination-protection";
         "--enable-termination-protection"; "--stack-name";
         "chat-backend-threads-table-dev"] failed_result;
      EPrint (MsgErrorEnablingProtection "failed")]).
Proof.
  exact (create_chat_table_always_protects example_cfg
           (const_env (fun _ => ok_result) (fun _ => failed_result) "y" []) "dev"
           (initial_state "/repo") eq_refl eq_refl).
Defined.

(* ================================================================== *)
(** * Workspaces *)

Lemma run_commands_app :
  forall l1 l2, run_commands (l1 ++ l2) = (run_commands l1 ++ run_commands l2)%list.
Proof.
  induction l1 as [|e l1 IH]; intro l2; [reflexivity|].
  destruct e; simpl; now rewrite ?IH.
Qed.


Lemma print_workspaces_run :
  forall l s, print_workspaces l s = (Ok tt, after s (workspace_items l)).
Proof.
  induction l as [|ws l IH]; intro s.
  - cbn [print_workspaces workspace_items map]. now rewrite after_nil.
  - cbn [print_workspaces workspace_items map]. unfold bind.
    rewrite print_eq, IH, after_after. reflexivity.
Qed.

Lemma py_lstrip_app_all :
  forall p a s, string_forallb p a = true -> py_lstrip p (a ++ s) = py_lstrip p s.
Proof.
  induction a as [|c a IH]; intros s H; [reflexivity|].
  cbn [string_forallb] in H. apply andb_true_iff in H as [Hc Ha].
  cbn [String.append py_lstrip]. rewrite Hc. now apply IH.
Qed.

Lemma py_lstrip_forall_not :
  forall p s, string_forallb (fun c => negb (p c)) s = true -> py_lstrip p s = s.
Proof.
  intros p [|c s] H; [reflexivity|]. cbn [string_forallb] in H.
  apply andb_true_iff in H as [Hc _]. apply negb_true_iff in Hc.
  now apply py_lstrip_head.
Qed.

(** On a line of the workspace list, the marker or the indentation is
    removed and the name is kept. *)
Lemma strip_marker_name :
  forall name,
    string_forallb name_char name = true ->
    strip_marker ("* " ++ name) = name /\ strip_marker ("  " ++ name) = name.
Proof.
  intros name H.
  assert (Hm : string_forallb (fun c => negb (string_mem c "* ")) name = true).
  { apply (string_forallb_impl name_char); [|exact H].
    intros c Hc. unfold name_char in Hc. now apply andb_true_iff in Hc as [_ Hc]. }
  assert (Hs : string_forallb (fun c => negb (isspace_char c)) name = true).
  { apply (string_forallb_impl name_char); [|exact H].
    intros c Hc. unfold name_char in Hc. now apply andb_true_iff in Hc as [Hc _]. }
  unfold strip_marker, py_strip_chars, py_strip.
  rewrite (py_lstrip_app_all (fun c => string_mem c "* ") "* " name eq_refl).
  rewrite (py_lstrip_app_all (fun c => string_mem c "* ") "  " name eq_refl).
  rewrite (py_lstrip_forall_not _ name Hm), (py_rstrip_forall_not _ name Hm).
  rewrite (py_lstrip_forall_not _ name Hs), (py_rstrip_forall_not _ name Hs).
  auto.
Qed.

(** What [check_and_switch_workspace] does, case by case. *)
Lemma check_and_switch_workspace_run :
  forall env workspace workspace_dir s,
    check_and_switch_workspace env workspace workspace_dir s =
      let entered := moved workspace_dir s in
      let listing := run_reply env entered "terraform workspace list" in
      let listed := after entered [ERun "terraform workspace list" listing] in
      let existing := map strip_marker (py_splitlines (stdout listing)) in
      if (exited listing =? 0)%Z then
        if py_in workspace existing then
          let sel := run_reply env listed ("terraform workspace select " ++ workspace) in
          (if (exited sel =? 0)%Z then Ok tt else Raise (UnexpectedExit sel),
           moved (cwd s)
             (after listed [ERun ("terraform workspace select " ++ workspace) sel]))
        else
          (Raise (SystemExit_msg MsgExitNonExistentWorkspace),
           moved (cwd s)
             (after listed
                ([EPrint (MsgWorkspaceMissing workspace); EPrint MsgExistingWorkspaces]
                 ++ workspace_items existing
                 ++ [EPrint (MsgCreateWorkspaceHint workspace)])))
      else (Raise (UnexpectedExit listing), moved (cwd s) listed).
Proof.
  intros env workspace workspace_dir s.
  unfold check_and_switch_workspace, change_directory. step.
  destruct (exited _ =? 0)%Z; step; [|reflexivity].
  destruct (py_in _ _); step.
  - destruct (exited _ =? 0)%Z; step; reflexivity.
  - rewrite print_workspaces_run. step. reflexivity.
Qed.

Lemma select_is_not_new :
  forall workspace,
    String.prefix "terraform workspace new" ("terraform workspace select " ++ workspace)
    = false.
Proof. intro workspace. reflexivity. Qed.



(** [production] is not listed: the command stops with the hint. *)
Example check_and_switch_workspace_missing :
  check_and_switch_workspace (calm_env example_listing "" []) "production"
    "/repo/infra/terraform/environment/production" (initial_state "/repo") =
  (Raise (SystemExit_msg MsgExitNonExistentWorkspace),
   initial_state_log "/repo"
     [EChdir "/repo/infra/terraform/environment/production";
      ERun "terraform workspace list" (mkRunResult 0 example_listing "");
      EPrint (MsgWorkspaceMissing "production");
      EPrint MsgExistingWorkspaces;
      EPrint (MsgWorkspaceItem "default");
      EPrint (MsgWorkspaceItem "dev");
      EPrint (MsgWorkspaceItem "staging");
      EPrint (MsgCreateWorkspaceHint "production");
      EChdir "/repo"]).
Proof. reflexivity. Qed.

Lemma new_events_after : forall s evs, new_events s (after s evs) = evs.
Proof.
  intros s evs. unfold new_events, after. cbn [log].
  rewrite skipn_app, skipn_all, Nat.sub_diag. reflexivity.
Qed.

Lemma new_events_log :
  forall s c i evs, new_events s (mkState c i (log s ++ evs)) = evs.
Proof.
  intros s c i evs. unfold new_events. cbn [log].
  rewrite skipn_app, skipn_all, Nat.sub_diag. reflexivity.
Qed.

Lemma py_in_Workspace_values :
  forall workspace,
    py_in workspace Workspace_values = true <->
    workspace = "dev" \/ workspace = "staging" \/ workspace = "production".
Proof.
  intro workspace. unfold py_in, Workspace_values. cbn [existsb].
  rewrite !orb_true_iff, !String.eqb_eq. intuition discriminate.
Qed.



(** Case analysis on the answers of the file system. *)
Ltac fs_cases :=
  repeat match goal with
         | |- context [is_symlink_reply ?e ?s ?p] =>
             destruct (is_symlink_reply e s p) as [[|]|] eqn:?; step
         | |- context [exists_reply ?e ?s ?p] =>
             destruct (exists_reply e s p) as [[|]|] eqn:?; step
         | |- context [unlink_reply ?e ?s ?p] =>
             destruct (unlink_reply e s p) eqn:?; step
         | |- context [resolve_reply ?e ?s ?p] =>
             destruct (resolve_reply e s p) as [?|] eqn:?; step
         | |- context [symlink_to_reply ?e ?s ?l ?t] =>
             destruct (symlink_to_reply e s l t) eqn:?; step
         end.

(** [ensure_symlink] runs no command.  Either it returns normally after
    creating the link, or a call of the file system failed. *)
Lemma ensure_symlink_cases :
  forall env src dest s,
    exists evs,
      (ensure_symlink env src dest s = (Ok tt, after s evs) /\
       existsb is_fs_mutation evs = true \/
       ensure_symlink env src dest s = (Raise FileSystemError, after s evs)) /\
      run_commands evs = [] /\
      existsb is_external_call evs = false /\
      (forall cmd r, ~ In (ERun cmd r) evs).
Proof.
  intros env src dest s. unfold ensure_symlink. step. fs_cases;
    (eexists; split;
     [first [left; split; [unfold after; reflexivity|reflexivity]
            |right; unfold after; reflexivity]|]);
    (split; [reflexivity|]); (split; [reflexivity|]);
    intros cmd r H; cbn [In] in H; intuition discriminate.
Qed.

Ltac split_cases :=
  repeat match goal with
         | |- context [if ?c then _ else _] => destruct c eqn:?; step
         end.

(** [destroy] creates the link and runs [terraform init] whatever the
    workspace name is, provided the link can be made. *)
Lemma destroy_starts_for_any_workspace :
  forall cfg env workspace auto_approve s,
    fst (ensure_symlink env (global_config_path cfg) (symlink_path_of cfg workspace) s)
      = Ok tt ->
    let happened := new_events s (snd (destroy cfg env workspace auto_approve s)) in
    existsb is_fs_mutation happened = true /\
    In "terraform init" (run_commands happened).
Proof.
  intros cfg env workspace auto_approve s Hlink happened. subst happened.
  destruct (ensure_symlink_cases env (global_config_path cfg)
              (symlink_path_of cfg workspace) s)
    as (evs & [[E Hmut]|E] & Hcmds & _ & _);
    rewrite E in Hlink; [clear Hlink|discriminate].
  unfold destroy. cbv zeta. rewrite (bind_ok _ _ _ _ _ _ _ E).
  unfold change_directory. step.
  (destruct (exited _ =? 0)%Z; step;
   [destruct (exited _ =? 0)%Z; step|]);
    rewrite new_events_log, existsb_app, run_commands_app, Hmut, Hcmds; cbn; auto.
Qed.

(** [destroy] never leaves through the exit of the workspace validation. *)
Lemma destroy_never_exits :
  forall cfg env workspace auto_approve s n,
    fst (destroy cfg env workspace auto_approve s) <> Raise (SystemExit_code n).
Proof.
  intros cfg env workspace auto_approve s n.
  destruct (ensure_symlink_cases env (global_config_path cfg)
              (symlink_path_of cfg workspace) s) as (evs & [[E _]|E] & _).
  - unfold destroy. cbv zeta. rewrite (bind_ok _ _ _ _ _ _ _ E).
    unfold change_directory. step.
    destruct (exited _ =? 0)%Z; step;
      [destruct (exited _ =? 0)%Z; step|]; discriminate.
  - unfold destroy. cbv zeta. rewrite (bind_raise _ _ _ _ _ _ _ E). discriminate.
Qed.

(** C1.  [destroy] does not call the workspace validation that [plan] and
    [apply] start with.  For the name [qa], which is none of [dev],
    [staging], [production], it creates the settings link, runs
    [terraform init] and [terraform destroy], and returns normally; for
    every name for which the link can be made it creates the link and runs
    [terraform init]; and for no name does it end with the exit of the
    validation. *)
Theorem destroy_skips_workspace_validation :
  py_in "qa" Workspace_values = false /\
  destroy example_cfg (calm_env "" "" []) "qa" false (initial_state "/repo") =
    (Ok tt,
     initial_state_log "/repo"
       [EIsSymlink "/repo/infra/terraform/environment/qa/settings.tf" false;
        EExists "/repo/infra/terraform/environment/qa/settings.tf" false;
        EResolve "/repo/infra/terraform/config/global/settings.tf"
                 "/repo/infra/terraform/config/global/settings.tf";
        ESymlinkTo "/repo/infra/terraform/environment/qa/settings.tf"
                   "/repo/infra/terraform/config/global/settings.tf";
        EChdir "/repo/infra/terraform/environment/qa";
        ERun "terraform init" ok_result;
        ERun ("terraform destroy"
              ++ " -var-file=/repo/infra/terraform/config/environment/qa.tfvars"
              ++ " -var-file=/repo/infra/terraform/config/environment/qa.secrets.tfvars")
             ok_result;
        EChdir "/repo"]) /\
  (forall cfg env workspace auto_approve s,
     fst (ensure_symlink env (global_config_path cfg) (symlink_path_of cfg workspace) s)
       = Ok tt ->
     let happened := new_events s (snd (destroy cfg env workspace auto_approve s)) in
     existsb is_fs_mutation happened = true /\
     In "terraform init" (run_commands happened)) /\
  (forall cfg env workspace auto_approve s n,
     fst (destroy cfg env workspace auto_approve s) <> Raise (SystemExit_code n)).
Proof.
  split; [reflexivity|]. split; [reflexivity|].
  split; [exact destroy_starts_for_any_workspace|exact destroy_never_exits].
Qed.

(** The link can be made for [zz], another name outside the three: the
    link is created and [terraform init] runs. *)
Lemma destroy_skips_workspace_validation_witness :
  fst (ensure_symlink (calm_env "" "" []) (global_config_path example_cfg)
         (symlink_path_of example_cfg "zz") (initial_state "/repo")) = Ok tt /\
  In "terraform init"
     (run_commands
        (new_events (initial_state "/repo")
           (snd (destroy example_cfg (calm_env "" "" []) "zz" true
                   (initial_state "/repo"))))).
Proof.
  split; [reflexivity|].
  exact (proj2 (proj1 (proj2 (proj2 destroy_skips_workspace_validation))
                  example_cfg (calm_env "" "" []) "zz" true (initial_state "/repo")
                  eq_refl)).
Defined.

(* ================================================================== *)
(** * Publication of a version *)

Section Push.

Variable cfg : Config.
Variable env : Env.

Lemma get_last_version_run :
  forall s,
    get_last_version cfg env s =
      let images := describe_images_reply env s (PROJECT_NAME cfg) in
      (last_version_of_images images,
       after s [EDescribeImages (PROJECT_NAME cfg) images]).
Proof.
  intro s. unfold get_last_version, last_version_of_images. step.
  destruct (describe_images_reply env s (PROJECT_NAME cfg)) as [|image rest];
    [reflexivity|].
  destruct (parse_tags _) as [version_list|]; step; [|reflexivity].
  destruct (py_last _); step; reflexivity.
Qed.

(** What [publish] does: each command is run once the one before it has
    succeeded. *)
Lemma publish_run :
  forall version s,
    publish cfg env version s =
      let s1 := after s [EPrint MsgLoggingIn] in
      let r1 := run_reply env s1 (login_command cfg) in
      let s2 := after s1 [ERun (login_command cfg) r1; EPrint MsgTagging] in
      let r2 := run_reply env s2 (tag_command cfg version) in
      let s3 := after s2 [ERun (tag_command cfg version) r2; EPrint MsgPushing] in
      let r3 := run_reply env s3 (push_command cfg version) in
      if (exited r1 =? 0)%Z then
        if (exited r2 =? 0)%Z then
          if (exited r3 =? 0)%Z then
            (Ok tt, after s3 [ERun (push_command cfg version) r3; EPrint MsgPushed])
          else (Raise (UnexpectedExit r3), after s3 [ERun (push_command cfg version) r3])
        else (Raise (UnexpectedExit r2), after s2 [ERun (tag_command cfg version) r2])
      else (Raise (UnexpectedExit r1), after s1 [ERun (login_command cfg) r1]).
Proof.
  intros version s. unfold publish. step.
  destruct (exited _ =? 0)%Z; step; [|reflexivity].
  destruct (exited _ =? 0)%Z; step; [|reflexivity].
  destruct (exited _ =? 0)%Z; step; reflexivity.
Qed.

(** The commands [publish] runs: the login first, and all three when none
    fails. *)
Lemma publish_commands_run :
  forall version s,
    let outcome := publish cfg env version s in
    let commands := run_commands (new_events s (snd outcome)) in
    (exists n, commands = login_command cfg :: firstn n [tag_command cfg version;
                                                         push_command cfg version]) /\
    ((forall st cmd, exited (run_reply env st cmd) = 0%Z) ->
       fst outcome = Ok tt /\ commands = publish_commands cfg version).
Proof.
  intros version s outcome commands. subst commands outcome.
  rewrite publish_run. cbv zeta. split.
  - destruct (exited _ =? 0)%Z; [destruct (exited _ =? 0)%Z;
                                 [destruct (exited _ =? 0)%Z|]|];
      cbn [snd]; rewrite !after_after, new_events_after; cbn [app run_commands].
    + exists 2%nat. reflexivity.
    + exists 2%nat. reflexivity.
    + exists 1%nat. reflexivity.
    + exists 0%nat. reflexivity.
  - intro Hok. rewrite !Hok. cbn [Z.eqb fst snd].
    rewrite !after_after, new_events_after. split; reflexivity.
Qed.

(** What [push] does once the requested version has passed the format
    check and has been parsed. *)
Lemma push_run :
  forall version v s,
    validate_version version = true ->
    parse_tag version = Some v ->
    push cfg env version s =
      let images := describe_images_reply env s (PROJECT_NAME cfg) in
      let queried := after s [EDescribeImages (PROJECT_NAME cfg) images] in
      match last_version_of_images images with
      | Raise e => (Raise e, queried)
      | Ok None => publish cfg env version queried
      | Ok (Some last) =>
          if py_tuple_le v last then
            match last with
            | major :: minor :: patch :: _ =>
                (Ok tt, after queried [EPrint (MsgVersionNotGreater version major minor patch)])
            | _ => (Raise IndexError, queried)
            end
          else publish cfg env version queried
      end.
Proof.
  intros version v s Hvalid Hparse. unfold push. rewrite Hvalid, Hparse.
  cbn [py_assert lift_option]. unfold bind at 1. cbn [ret]. unfold bind at 1.
  cbn [ret]. unfold bind at 1.
  rewrite get_last_version_run. cbv zeta.
  destruct (last_version_of_images _) as [[last|]|e]; try reflexivity.
  destruct (py_tuple_le v last); [|reflexivity].
  destruct last as [|major [|minor [|patch rest]]];
    unfold py_index; cbn [nth_error]; step; reflexivity.
Qed.

End Push.

Lemma skipn_length_app :
  forall (A : Type) (l rest : list A), skipn (length l) (l ++ rest) = rest.
Proof.
  intros A l rest. rewrite skipn_app, skipn_all, Nat.sub_diag. reflexivity.
Qed.

Lemma new_events_extend :
  forall s evs s' rest,
    log s' = (log (after s evs) ++ rest)%list ->
    new_events s s' = (evs ++ new_events (after s evs) s')%list.
Proof.
  intros s evs s' rest H. unfold new_events. rewrite H.
  rewrite skipn_length_app. cbn [after log]. rewrite <- app_assoc.
  now rewrite skipn_length_app.
Qed.

Lemma publish_extends_log :
  forall cfg env version s,
    exists rest, log (snd (publish cfg env version s)) = (log s ++ rest)%list.
Proof.
  intros cfg env version s. rewrite publish_run. cbv zeta.
  destruct (exited _ =? 0)%Z; [destruct (exited _ =? 0)%Z;
                               [destruct (exited _ =? 0)%Z|]|];
    cbn [snd]; rewrite !after_after; cbn [after log]; eauto.
Qed.

(** Against the version [get_last_version] answers with, [push] does what
    is asked of it.  When the registry query yields the version [last] and
    the requested version has passed the format check and parses to [v]:
    [push] starts the publication, whose first command is the login,
    exactly when [v] is strictly greater than [last] in the order of
    tuples, and all three commands login, tag, push are run when none
    fails; when [v] is less than or equal to [last], no command is run at
    all.  On triples the order is the lexicographic one. *)
Lemma push_publishes_iff_strictly_greater :
  forall cfg env version v last s,
    validate_version version = true ->
    parse_tag version = Some v ->
    last_version_of_images (describe_images_reply env s (PROJECT_NAME cfg))
      = Ok (Some last) ->
    let outcome := push cfg env version s in
    let commands := run_commands (new_events s (snd outcome)) in
    (py_tuple_lt last v = true <-> In (login_command cfg) commands) /\
    (py_tuple_lt last v = true ->
       (exists n, commands =
                    login_command cfg
                    :: firstn n [tag_command cfg version; push_command cfg version]) /\
       ((forall st cmd, exited (run_reply env st cmd) = 0%Z) ->
          fst outcome = Ok tt /\ commands = publish_commands cfg version)) /\
    (py_tuple_le v last = true -> commands = []) /\
    py_tuple_le v last = negb (py_tuple_lt last v) /\
    (forall l1 l2 l3 v1 v2 v3,
       last = [l1; l2; l3] -> v = [v1; v2; v3] ->
       (py_tuple_lt last v = true <-> triple_lt (l1, l2, l3) (v1, v2, v3))).
Proof.
  intros cfg env version v last s Hvalid Hparse Hlast outcome commands.
  assert (Hrun := push_run cfg env version v s Hvalid Hparse).
  cbv zeta in Hrun. rewrite Hlast in Hrun. fold outcome in Hrun.
  pose proof (py_tuple_le_not_lt v last) as Hle.
  set (images := describe_images_reply env s (PROJECT_NAME cfg)) in *.
  set (queried := after s [EDescribeImages (PROJECT_NAME cfg) images]) in *.
  assert (Hno : py_tuple_le v last = true -> commands = []).
  { intro Hv. subst commands. rewrite Hrun, Hv.
    destruct last as [|major [|minor [|patch rest]]]; cbn [snd]; subst queried;
      rewrite ?after_after, new_events_after; reflexivity. }
  assert (Hpub : py_tuple_lt last v = true ->
                 commands = run_commands (new_events queried
                                            (snd (publish cfg env version queried))) /\
                 outcome = publish cfg env version queried).
  { intro Hlt. rewrite Hlt in Hle. cbn [negb] in Hle. rewrite Hle in Hrun.
    split; [|exact Hrun]. subst commands. rewrite Hrun.
    destruct (publish_extends_log cfg env version queried) as [rest Hrest].
    subst queried. rewrite (new_events_extend _ _ _ _ Hrest). reflexivity. }
  repeat split.
  - intro Hlt. destruct (Hpub Hlt) as [Hc _]. rewrite Hc.
    destruct (proj1 (publish_commands_run cfg env version queried)) as [n Hn].
    rewrite Hn. now left.
  - intro Hin. destruct (py_tuple_lt last v); [reflexivity|].
    cbn [negb] in Hle. rewrite (Hno Hle) in Hin. destruct Hin.
  - destruct (Hpub H) as [Hc _]. rewrite Hc.
    exact (proj1 (publish_commands_run cfg env version queried)).
  - destruct (Hpub H) as [_ Ho]. rewrite Ho.
    now apply (proj2 (publish_commands_run cfg env version queried)).
  - destruct (Hpub H) as [Hc _]. rewrite Hc.
    now apply (proj2 (publish_commands_run cfg env version queried)).
  - exact Hno.
  - exact Hle.
  - intros Hlt. subst last v. now apply py_tuple_lt_triple.
  - intros Hlt. subst last v. now apply py_tuple_lt_triple.
Qed.

(** The registry holds [v1.2.3]: [v1.3.0] is published, with all three
    commands. *)
Lemma push_publishes_iff_strictly_greater_witness :
  validate_version "v1.3.0" = true /\
  parse_tag "v1.3.0" = Some [1; 3; 0]%Z /\
  push example_cfg (calm_env "" "" [mkImageDetail (Some ["v1.2.3"])]) "v1.3.0"
       (initial_state "/repo") =
    (Ok tt,
     initial_state_log "/repo"
       [EDescribeImages "chat-backend" [mkImageDetail (Some ["v1.2.3"])];
        EPrint MsgLoggingIn;
        ERun ("aws ecr get-login-password --region eu-west-1 | docker login "
              ++ "--username AWS --password-stdin registry.example") ok_result;
        EPrint MsgTagging;
        ERun "docker tag chat-backend:latest registry.example/chat-backend:v1.3.0"
             ok_result;
        EPrint MsgPushing;
        ERun "docker push registry.example/chat-backend:v1.3.0" ok_result;
        EPrint MsgPushed]) /\
  In (login_command example_cfg)
     (run_commands
        (new_events (initial_state "/repo")
           (snd (push example_cfg (calm_env "" "" [mkImageDetail (Some ["v1.2.3"])])
                      "v1.3.0" (initial_state "/repo"))))).
Proof.
  split; [reflexivity|]. split; [reflexivity|]. split; [reflexivity|].
  exact (proj1 (proj1 (push_publishes_iff_strictly_greater example_cfg
                         (calm_env "" "" [mkImageDetail (Some ["v1.2.3"])])
                         "v1.3.0" [1; 3; 0]%Z [1; 2; 3]%Z (initial_state "/repo")
                         eq_refl eq_refl eq_refl)) eq_refl).
Defined.

(** The registry holds [v1.2.3]: [v1.2.3] and [v1.2.0] are turned down. *)
Example push_rejects_not_greater :
  let env := calm_env "" "" [mkImageDetail (Some ["v1.2.3"]); mkImageDetail None] in
  push example_cfg env "v1.2.3" (initial_state "/repo") =
    (Ok tt,
     initial_state_log "/repo"
       [EDescribeImages "chat-backend" [mkImageDetail (Some ["v1.2.3"]); mkImageDetail None];
        EPrint (MsgVersionNotGreater "v1.2.3" 1 2 3)]) /\
  push example_cfg env "v1.2.0" (initial_state "/repo") =
    (Ok tt,
     initial_state_log "/repo"
       [EDescribeImages "chat-backend" [mkImageDetail (Some ["v1.2.3"]); mkImageDetail None];
        EPrint (MsgVersionNotGreater "v1.2.0" 1 2 3)]).
Proof. split; reflexivity. Qed.

(** When no image carries more than one tag, the first tags are all the
    published tags. *)
Lemma first_tags_all_tags :
  forall image_list, one_tag_each image_list -> first_tags image_list = all_tags image_list.
Proof.
  induction image_list as [|image rest IH]; intro H; [reflexivity|].
  cbn [first_tags all_tags]. rewrite IH.
  - destruct (imageTags image) as [[|tag tags]|] eqn:E; try reflexivity.
    now rewrite (H image tag tags (or_introl eq_refl) E).
  - intros image' tag tags Hin. apply (H image' tag tags). now right.
Qed.

(** C2.  The registry holds two images, one tagged [v1.2.0] and [v3.0.0],
    the other tagged [v1.0.0]: the last published version is [v3.0.0].
    [get_last_version] reads only the first tag of each image and answers
    1.2.0.  Against it [push] turns down [v1.1.0], naming 1.2.0 as the
    last version; but it publishes [v1.2.5], running login, tag and push,
    although [v1.2.5] is less than the published [v3.0.0]. *)
Theorem push_overlooks_further_tags :
  let images := [mkImageDetail (Some ["v1.2.0"; "v3.0.0"]);
                 mkImageDetail (Some ["v1.0.0"])] in
  let env := calm_env "" "" images in
  all_tags images = ["v1.2.0"; "v3.0.0"; "v1.0.0"] /\
  first_tags images = ["v1.2.0"; "v1.0.0"] /\
  parse_tag "v3.0.0" = Some [3; 0; 0]%Z /\
  validate_version "v1.2.5" = true /\
  parse_tag "v1.2.5" = Some [1; 2; 5]%Z /\
  py_tuple_lt [1; 2; 5]%Z [3; 0; 0]%Z = true /\
  get_last_version example_cfg env (initial_state "/repo") =
    (Ok (Some [1; 2; 0]%Z),
     initial_state_log "/repo" [EDescribeImages "chat-backend" images]) /\
  push example_cfg env "v1.1.0" (initial_state "/repo") =
    (Ok tt,
     initial_state_log "/repo"
       [EDescribeImages "chat-backend" images;
        EPrint (MsgVersionNotGreater "v1.1.0" 1 2 0)]) /\
  push example_cfg env "v1.2.5" (initial_state "/repo") =
    (Ok tt,
     initial_state_log "/repo"
       [EDescribeImages "chat-backend" images;
        EPrint MsgLoggingIn;
        ERun ("aws ecr get-login-password --region eu-west-1 | docker login "
              ++ "--username AWS --password-stdin registry.example") ok_result;
        EPrint MsgTagging;
        ERun "docker tag chat-backend:latest registry.example/chat-backend:v1.2.5"
             ok_result;
        EPrint MsgPushing;
        ERun "docker push registry.example/chat-backend:v1.2.5" ok_result;
        EPrint MsgPushed]).
Proof.
  repeat split; reflexivity.
Qed.

(** With an empty image list every version that passes the format check
    and parses goes to publication. *)
Lemma push_first_publication :
  forall cfg env version v s,
    validate_version version = true ->
    parse_tag version = Some v ->
    describe_images_reply env s (PROJECT_NAME cfg) = [] ->
    push cfg env version s =
      publish cfg env version (after s [EDescribeImages (PROJECT_NAME cfg) []]).
Proof.
  intros cfg env version v s Hvalid Hparse Hempty.
  rewrite (push_run cfg env version v s Hvalid Hparse). cbv zeta.
  rewrite Hempty. reflexivity.
Qed.

(** C4.  The image list of the registry holds one image and it has no
    tag, so no version has been published: [get_last_version] fails on the
    last item of an empty list, and [push] of the well-formed [v1.0.0] ends
    with [IndexError] after the registry query, without login, tag or push.
    With an empty image list the same version is published. *)
Theorem push_fails_on_untagged_images :
  validate_version "v1.0.0" = true /\
  first_tags [mkImageDetail None] = [] /\
  (forall cfg run sub answer s,
     let images := [mkImageDetail None] in
     let env := const_env run sub answer images in
     get_last_version cfg env s =
       (Raise IndexError, after s [EDescribeImages (PROJECT_NAME cfg) images]) /\
     push cfg env "v1.0.0" s =
       (Raise IndexError, after s [EDescribeImages (PROJECT_NAME cfg) images])) /\
  (forall cfg run sub answer s,
     push cfg (const_env run sub answer []) "v1.0.0" s =
       publish cfg (const_env run sub answer []) "v1.0.0"
               (after s [EDescribeImages (PROJECT_NAME cfg) []])).
Proof.
  split; [reflexivity|]. split; [reflexivity|]. split.
  - intros cfg run sub answer s images env. split.
    + rewrite get_last_version_run. reflexivity.
    + rewrite (push_run cfg env "v1.0.0" [1; 0; 0]%Z s eq_refl eq_refl). reflexivity.
  - intros cfg run sub answer s.
    now apply (push_first_publication cfg _ "v1.0.0" [1; 0; 0]%Z).
Qed.

(* ================================================================== *)
(** * Version texts *)

(** C3.  [validate_version] accepts [v<U+00B2>.0.0], whose first segment
    is the superscript two: [str.isdigit] holds for that character although
    it is no decimal digit.  [parse_tag] then fails on the segment, and
    [push] ends with [ValueError] before it contacts the registry. *)
Theorem validate_version_accepts_superscript_digit :
  let version := version_text superscript_two "0" "0" in
  decimal_string superscript_two = false /\
  py_isdigit superscript_two = true /\
  validate_version version = true /\
  parse_tag version = None /\
  (forall cfg env s, push cfg env version s = (Raise ValueError, s)).
Proof.
  repeat split; intros; reflexivity.
Qed.

(** Leading zeros are accepted and do not change the value. *)
Example validate_version_leading_zeros :
  validate_version "v01.002.0003" = true /\
  parse_tag "v01.002.0003" = Some [1; 2; 3]%Z.
Proof. split; reflexivity. Qed.

(** Wrong prefix, wrong number of segments, a segment that is no number. *)
Example validate_version_rejects :
  validate_version "1.2.3" = false /\
  validate_version "V1.2.3" = false /\
  validate_version "v1.2" = false /\
  validate_version "v1.2.3.4" = false /\
  validate_version "v1..3" = false /\
  validate_version "v1.2.x" = false /\
  validate_version "v1.2.-3" = false /\
  validate_version "v1.2.3 " = false.
Proof. repeat split; reflexivity. Qed.

(* ================================================================== *)
(** * The sum service *)

(** C8.  For all integers [x] and [y] the handler of [/predict] returns the
    object whose only key is [result], with value [x + y]. *)
Theorem predict_returns_sum :
  forall x y : Z,
    predict x y = [("result", JInt (x + y))] /\
    map fst (predict x y) = ["result"] /\
    predict 2 3 = [("result", JInt 5)] /\
    predict (-1) 1 = [("result", JInt 0)].
Proof. intros x y. repeat split. Qed.

(* ================================================================== *)
(** * Exit status of the subcommands *)

Lemma no_failed_run_snoc :
  forall l e, no_failed_run (l ++ [e]) = no_failed_run l && negb (failed_run e).
Proof.
  intros l e. unfold no_failed_run. rewrite forallb_app. cbn [forallb].
  now rewrite andb_true_r.
Qed.

Lemma fatal_not_unexpected :
  forall e, (forall r, e <> UnexpectedExit r) -> (forall n, e <> SystemExit_code n) -> fatal e.
Proof.
  intros e Hu Hn. unfold fatal. destruct e; cbn; try discriminate.
  - exfalso. now apply (Hu r).
  - exfalso. now apply (Hn n).
Qed.

Section Reports.

Variable cfg : Config.
Variable env : Env.
























End Reports.




Section ReportsHandlers.

Variable cfg : Config.
Variable env : Env.






















End ReportsHandlers.


(** A failed stack update is reported and the program still exits with 0. *)
Example update_chat_table_failure_exits_zero :
  let env := const_env (fun _ => ok_result) (fun _ => failed_result) "y" [] in
  dispatch example_cfg env (CmdUpdateChatTable "dev") (initial_state "/repo") =
    (Ok tt,
     initial_state_log "/repo"
       [EPrint (MsgUpdatingStack "chat-backend-threads-table-dev");
        EPrint (MsgUsingTemplate
                  "infra/cloudformation/data_layer/dev/cominty_chat_dynamodb_storage.json");
        EInput MsgProceedPrompt "y";
        EPrint MsgUpdatingStackStart;
        ESubprocess
          ["aws"; "cloudformation"; "update-stack"; "--stack-name";
           "chat-backend-threads-table-dev"; "--template-body";
           "file://infra/cloudformation/data_layer/dev/cominty_chat_dynamodb_storage.json";
           "--capabilities"; "CAPABILITY_IAM"] failed_result;
        EPrint (MsgErrorUpdatingStack "failed")]).
Proof. reflexivity. Qed.



(* ================================================================== *)
(** * The working directory across whole subcommands *)

Section KeepsCwd.

Variable cfg : Config.
Variable env : Env.

Lemma keeps_ret : forall (A : Type) (a : A), keeps_cwd (ret a).
Proof. intros A a s. reflexivity. Qed.

Lemma keeps_raise : forall (A : Type) (e : Exn), keeps_cwd (@raise A e).
Proof. intros A e s. reflexivity. Qed.

Lemma keeps_bind :
  forall (A B : Type) (m : M A) (k : A -> M B),
    keeps_cwd m -> (forall a, keeps_cwd (k a)) -> keeps_cwd (bind m k).
Proof.
  intros A B m k Hm Hk s. unfold bind. specialize (Hm s).
  destruct (m s) as [[a|e] s1]; cbn [snd] in *; [|exact Hm].
  now rewrite Hk.
Qed.

Lemma keeps_emit : forall e, keeps_cwd (emit e).
Proof. intros e s. reflexivity. Qed.

Lemma keeps_c_run : forall cmd warn, keeps_cwd (c_run env cmd warn).
Proof.
  intros cmd warn s. unfold c_run. destruct warn; [reflexivity|].
  cbv zeta. destruct (exited _ =? 0)%Z; reflexivity.
Qed.

Lemma keeps_subprocess_run : forall argv, keeps_cwd (subprocess_run env argv).
Proof.
  intros argv s. unfold subprocess_run. cbv zeta.
  destruct (exited _ =? 0)%Z; reflexivity.
Qed.

Lemma keeps_get_image_exists : keeps_cwd get_image_exists.
Proof. intros s. unfold get_image_exists. destruct (image_exists s); reflexivity. Qed.

Lemma keeps_lift_option :
  forall (A : Type) (o : option A) e, keeps_cwd (lift_option o e).
Proof. intros A [a|] e s; reflexivity. Qed.

Lemma keeps_py_assert : forall cond m, keeps_cwd (py_assert cond m).
Proof. intros [|] m s; reflexivity. Qed.

(** Whatever the block does to the working directory, it is set back. *)
Lemma keeps_change_directory :
  forall (A : Type) d (body : M A), keeps_cwd (change_directory d body).
Proof.
  intros A d body s. unfold change_directory. run_handler.
  destruct (body _) as [r s1]. reflexivity.
Qed.

Lemma keeps_try_except :
  forall (A : Type) (body : M A) (handler : RunResult -> M A),
    keeps_cwd body -> (forall r, keeps_cwd (handler r)) ->
    keeps_cwd (try_except_CalledProcessError body handler).
Proof.
  intros A body handler Hbody Hh s. unfold try_except_CalledProcessError.
  specialize (Hbody s). destruct (body s) as [[a|e] s1]; [exact Hbody|].
  destruct e; try exact Hbody. cbn [snd] in Hbody. now rewrite Hh.
Qed.

End KeepsCwd.

Ltac keeps_step :=
  first
    [ apply keeps_change_directory
    | match goal with
      | |- keeps_cwd (bind _ _) => apply keeps_bind; [|intro]
      end
    | apply keeps_ret
    | apply keeps_raise
    | apply keeps_emit
    | apply keeps_c_run
    | apply keeps_subprocess_run
    | apply keeps_get_image_exists
    | apply keeps_py_assert
    | apply keeps_lift_option
    | apply keeps_try_except; [|intro]
    | match goal with
      | |- keeps_cwd (input _ _) => intro; reflexivity
      | |- keeps_cwd (ecr_describe_images _ _) => intro; reflexivity
      | |- keeps_cwd (path_is_symlink _ _) =>
          intro; unfold path_is_symlink, fs_fail;
          destruct (is_symlink_reply _ _ _); reflexivity
      | |- keeps_cwd (path_exists _ _) =>
          intro; unfold path_exists, fs_fail;
          destruct (exists_reply _ _ _); reflexivity
      | |- keeps_cwd (path_resolve _ _) =>
          intro; unfold path_resolve, fs_fail;
          destruct (resolve_reply _ _ _); reflexivity
      | |- keeps_cwd (path_unlink _ _) =>
          intro; unfold path_unlink, fs_fail;
          destruct (unlink_reply _ _ _); reflexivity
      | |- keeps_cwd (path_symlink_to _ _ _) =>
          intro; unfold path_symlink_to, fs_fail;
          destruct (symlink_to_reply _ _ _ _); reflexivity
      | |- keeps_cwd (set_image_exists _) => intro; reflexivity
      | |- keeps_cwd (if ?b then _ else _) => destruct b
      | |- keeps_cwd (match ?x with _ => _ end) => destruct x
      end ].

Lemma keeps_print_workspaces : forall l, keeps_cwd (print_workspaces l).
Proof.
  induction l as [|ws l IH]; cbn [print_workspaces]; repeat keeps_step. exact IH.
Qed.

Lemma keeps_build :
  forall cfg env no_format no_check remote no_cache debug,
    keeps_cwd (build cfg env no_format no_check remote no_cache debug).
Proof.
  intros. unfold build, format_code, check. cbv zeta. repeat keeps_step.
Qed.

(** X1.  Every subcommand, with every argument and whatever the outside
    answers, ends in the working directory it was started in: on a normal
    return, on a failed command, on a failed assertion and on an exit. *)
Theorem subcommand_keeps_working_directory :
  forall cfg env cmd s, cwd (snd (dispatch cfg env cmd s)) = cwd s.
Proof.
  intros cfg env cmd s. revert s. change (keeps_cwd (dispatch cfg env cmd)).
  destruct cmd; cbn [dispatch];
    unfold run_all, format_code, check, test, c_run_cd, push, publish,
      get_last_version, py_index, server, chat, docker_image_exists, plan, apply,
      destroy, is_valid_workspace, ensure_symlink, check_and_switch_workspace,
      create_chat_table, update_chat_table, confirm, print, format_code, check;
    cbv zeta;
    repeat first [apply keeps_build | apply keeps_print_workspaces | keeps_step].
Qed.

(* ================================================================== *)
(** * Stopping at the first failed command *)

Section StopsAtFirstFailure.

Variable cfg : Config.
Variable env : Env.

Lemma stops_ret : forall (A : Type) (a : A), stops_at_first_failure (ret a).
Proof. intros A a s Hs. exact Hs. Qed.

Lemma stops_raise :
  forall (A : Type) (e : Exn),
    (forall r, e <> UnexpectedExit r) -> stops_at_first_failure (@raise A e).
Proof. intros A e He s Hs. cbn. left. auto. Qed.

Lemma stops_bind :
  forall (A B : Type) (m : M A) (k : A -> M B),
    stops_at_first_failure m -> (forall a, stops_at_first_failure (k a)) ->
    stops_at_first_failure (bind m k).
Proof.
  intros A B m k Hm Hk s Hs. unfold bind. specialize (Hm s Hs).
  destruct (m s) as [[a|e] s1]; [now apply Hk|exact Hm].
Qed.

(** A step that returns normally and adds one event that is no failed
    command. *)
Lemma stops_quiet :
  forall (A : Type) (m : M A),
    (forall s, exists a c i e,
        m s = (Ok a, mkState c i (log s ++ [e])) /\ failed_run e = false) ->
    stops_at_first_failure m.
Proof.
  intros A m H s Hs. destruct (H s) as (a & c & i & e & -> & He).
  cbn [log]. now rewrite no_failed_run_snoc, Hs, He.
Qed.

Lemma stops_emit :
  forall e, failed_run e = false -> stops_at_first_failure (emit e).
Proof.
  intros e He. apply stops_quiet. intro s. exists tt, (cwd s), (image_exists s), e.
  auto.
Qed.

Lemma stops_c_run : forall cmd warn, stops_at_first_failure (c_run env cmd warn).
Proof.
  intros cmd warn s Hs. unfold c_run. destruct warn.
  - cbn [log]. now rewrite no_failed_run_snoc, Hs.
  - cbv zeta. destruct (exited _ =? 0)%Z eqn:E.
    + cbn [log]. rewrite no_failed_run_snoc, Hs. cbn [failed_run]. now rewrite E.
    + right. exists (log s), cmd, (run_reply env s cmd), []. cbn [log].
      repeat split; auto. now apply Z.eqb_neq.
Qed.

Lemma stops_subprocess_run :
  forall argv, stops_at_first_failure (subprocess_run env argv).
Proof.
  intros argv s Hs. unfold subprocess_run. cbv zeta.
  destruct (exited _ =? 0)%Z; cbn [log]; rewrite no_failed_run_snoc, Hs.
  - reflexivity.
  - left. split; [reflexivity|discriminate].
Qed.

Lemma stops_fs_fail :
  forall (A : Type) call, stops_at_first_failure (@fs_fail A call).
Proof.
  intros A call s Hs. unfold fs_fail. left. cbn [log].
  rewrite no_failed_run_snoc, Hs. split; [reflexivity|discriminate].
Qed.

Lemma stops_path_is_symlink :
  forall p, stops_at_first_failure (path_is_symlink env p).
Proof.
  intros p s Hs. unfold path_is_symlink.
  destruct (is_symlink_reply env s p); [|exact (stops_fs_fail bool _ s Hs)].
  cbn [log]. now rewrite no_failed_run_snoc, Hs.
Qed.

Lemma stops_path_exists : forall p, stops_at_first_failure (path_exists env p).
Proof.
  intros p s Hs. unfold path_exists.
  destruct (exists_reply env s p); [|exact (stops_fs_fail bool _ s Hs)].
  cbn [log]. now rewrite no_failed_run_snoc, Hs.
Qed.

Lemma stops_path_resolve : forall p, stops_at_first_failure (path_resolve env p).
Proof.
  intros p s Hs. unfold path_resolve.
  destruct (resolve_reply env s p); [|exact (stops_fs_fail string _ s Hs)].
  cbn [log]. now rewrite no_failed_run_snoc, Hs.
Qed.

Lemma stops_path_unlink : forall p, stops_at_first_failure (path_unlink env p).
Proof.
  intros p s Hs. unfold path_unlink.
  destruct (unlink_reply env s p);
    [exact (stops_emit (EUnlink p) eq_refl s Hs)|exact (stops_fs_fail unit _ s Hs)].
Qed.

Lemma stops_path_symlink_to :
  forall l t, stops_at_first_failure (path_symlink_to env l t).
Proof.
  intros l t s Hs. unfold path_symlink_to.
  destruct (symlink_to_reply env s l t);
    [exact (stops_emit (ESymlinkTo l t) eq_refl s Hs)
    |exact (stops_fs_fail unit _ s Hs)].
Qed.

Lemma stops_get_image_exists : stops_at_first_failure get_image_exists.
Proof.
  intros s Hs. unfold get_image_exists.
  destruct (image_exists s); cbn; [exact Hs|]. left. split; [exact Hs|discriminate].
Qed.

Lemma stops_lift_option :
  forall (A : Type) (o : option A) e,
    (forall r, e <> UnexpectedExit r) -> stops_at_first_failure (lift_option o e).
Proof.
  intros A [a|] e He; cbn [lift_option]; [apply stops_ret|now apply stops_raise].
Qed.

Lemma stops_py_assert : forall cond m, stops_at_first_failure (py_assert cond m).
Proof.
  intros [|] m; cbn [py_assert]; [apply stops_ret|].
  apply stops_raise. discriminate.
Qed.

Lemma stops_change_directory :
  forall (A : Type) d (body : M A),
    stops_at_first_failure body -> stops_at_first_failure (change_directory d body).
Proof.
  intros A d body Hbody s Hs. unfold change_directory. run_handler.
  assert (Hs1 : no_failed_run (log (moved d s)) = true).
  { unfold moved. cbn [log]. now rewrite no_failed_run_snoc, Hs. }
  specialize (Hbody _ Hs1). unfold moved in Hbody.
  destruct (body _) as [[a|e] s1]; cbn [log].
  - now rewrite no_failed_run_snoc, Hbody.
  - destruct Hbody as [[Hc He]|(before & cmd & r & rest & Hl & Hb & Hr & Hx & He)].
    + left. now rewrite no_failed_run_snoc, Hc.
    + right. exists before, cmd, r, (rest ++ [EChdir (cwd s)])%list.
      rewrite Hl, <- app_assoc, existsb_app, Hx. repeat split; auto.
Qed.

Lemma stops_try_except :
  forall (A : Type) (body : M A) (handler : RunResult -> M A),
    stops_at_first_failure body -> (forall r, stops_at_first_failure (handler r)) ->
    stops_at_first_failure (try_except_CalledProcessError body handler).
Proof.
  intros A body handler Hbody Hh s Hs. unfold try_except_CalledProcessError.
  specialize (Hbody s Hs). destruct (body s) as [[a|e] s1]; [exact Hbody|].
  destruct e; try exact Hbody.
  destruct Hbody as [[Hc _]|(before & cmd & r0 & rest & _ & _ & _ & _ & He)];
    [now apply Hh|discriminate].
Qed.

End StopsAtFirstFailure.

Ltac stops_quiet_tac :=
  apply stops_quiet; intro; do 4 eexists; split; reflexivity.

Ltac stops_step :=
  first
    [ apply stops_change_directory
    | match goal with
      | |- stops_at_first_failure (bind _ _) => apply stops_bind; [|intro]
      end
    | apply stops_ret
    | apply stops_emit; reflexivity
    | apply stops_c_run
    | apply stops_subprocess_run
    | apply stops_get_image_exists
    | apply stops_py_assert
    | apply stops_lift_option; discriminate
    | apply stops_raise; discriminate
    | apply stops_try_except; [|intro]
    | match goal with
      | |- stops_at_first_failure (input _ _) => stops_quiet_tac
      | |- stops_at_first_failure (ecr_describe_images _ _) => stops_quiet_tac
      | |- stops_at_first_failure (path_is_symlink _ _) => apply stops_path_is_symlink
      | |- stops_at_first_failure (path_exists _ _) => apply stops_path_exists
      | |- stops_at_first_failure (path_resolve _ _) => apply stops_path_resolve
      | |- stops_at_first_failure (path_unlink _ _) => apply stops_path_unlink
      | |- stops_at_first_failure (path_symlink_to _ _ _) =>
          apply stops_path_symlink_to
      | |- stops_at_first_failure (set_image_exists _) => intros ? ?; assumption
      | |- stops_at_first_failure (if ?b then _ else _) => destruct b
      | |- stops_at_first_failure (match ?x with _ => _ end) => destruct x
      end ].

Lemma stops_print_workspaces : forall l, stops_at_first_failure (print_workspaces l).
Proof.
  induction l as [|ws l IH]; cbn [print_workspaces]; unfold print; repeat stops_step.
  exact IH.
Qed.

Lemma stops_build :
  forall cfg env no_format no_check remote no_cache debug,
    stops_at_first_failure (build cfg env no_format no_check remote no_cache debug).
Proof.
  intros. unfold build, format_code, check, print. cbv zeta. repeat stops_step.
Qed.

Lemma stops_dispatch :
  forall cfg env cmd, stops_at_first_failure (dispatch cfg env cmd).
Proof.
  intros cfg env cmd.
  destruct cmd; cbn [dispatch];
    unfold run_all, format_code, check, test, c_run_cd, push, publish,
      get_last_version, py_index, server, chat, docker_image_exists, plan, apply,
      destroy, is_valid_workspace, ensure_symlink, check_and_switch_workspace,
      create_chat_table, update_chat_table, confirm, print, format_code, check;
    cbv zeta;
    repeat first [apply stops_build | apply stops_print_workspaces | stops_step].
Qed.

(** X2.  Started where no command has failed, a subcommand stops at the
    first command of [c.run] (given without [warn]) that fails: when it ends
    with [UnexpectedExit], the failed command is preceded only by commands
    that succeeded and followed by no external call, and the exit status of
    the program is the non-zero status of that command; when it ends in any
    other way, no such command has failed. *)
Theorem subcommand_stops_at_first_failure :
  forall cfg env cmd s,
    no_failed_run (log s) = true ->
    let outcome := dispatch cfg env cmd s in
    match fst outcome with
    | Raise (UnexpectedExit r) =>
        exists before failed rest,
          log (snd outcome) = (before ++ ERun failed r :: rest)%list /\
          no_failed_run before = true /\
          existsb is_external_call rest = false /\
          exit_status (fst outcome) = exited r /\
          exited r <> 0%Z
    | _ => no_failed_run (log (snd outcome)) = true
    end.
Proof.
  intros cfg env cmd s Hs outcome. subst outcome.
  pose proof (stops_dispatch cfg env cmd s Hs) as H.
  destruct (dispatch cfg env cmd s) as [[a|e] s']; cbn [fst snd]; [exact H|].
  destruct H as [[Hc He]|(before & failed & r & rest & Hl & Hb & Hr & Hx & ->)].
  - destruct e; try exact Hc. exfalso. now apply (He r).
  - exists before, failed, rest. repeat split; auto.
Qed.

(** [black] fails after [isort] succeeded: [all] stops there with the
    status of [black]. *)
Lemma subcommand_stops_at_first_failure_witness :
  no_failed_run (log (initial_state "/repo")) = true /\
  exists before failed rest,
    log (snd (dispatch example_cfg only_isort_env CmdAll (initial_state "/repo"))) =
      (before ++ ERun failed (mkRunResult 123 "" "") :: rest)%list /\
    no_failed_run before = true /\
    existsb is_external_call rest = false /\
    exit_status (fst (dispatch example_cfg only_isort_env CmdAll (initial_state "/repo")))
      = 123%Z /\
    (123 <> 0)%Z.
Proof.
  split; [reflexivity|].
  exact (subcommand_stops_at_first_failure example_cfg only_isort_env CmdAll
           (initial_state "/repo") eq_refl).
Defined.

(* ================================================================== *)
(** * Building and running the image *)

Lemma calm_env_succeeds :
  forall listing answer images, all_commands_succeed (calm_env listing answer images).
Proof.
  intros listing answer images st cmd. cbn. unfold calm_run.
  destruct (String.eqb _ _); reflexivity.
Qed.

Section CompletesRunning.

Variable cfg : Config.
Variable env : Env.
Hypothesis Hok : all_commands_succeed env.

Lemma completes_ret : forall (A : Type) (a : A), completes_running (ret a) [].
Proof. intros A a s. exists a, []. now rewrite after_nil. Qed.

Lemma completes_print : forall m, completes_running (print m) [].
Proof. intros m s. exists tt, [EPrint m]. auto. Qed.

Lemma completes_c_run : forall cmd, completes_running (c_run env cmd false) [cmd].
Proof.
  intros cmd s. exists (run_reply env s cmd), [ERun cmd (run_reply env s cmd)].
  rewrite c_run_eq. cbv zeta. rewrite Hok. auto.
Qed.

Lemma completes_bind :
  forall (A B : Type) (m : M A) (k : A -> M B) c1 c2 c,
    completes_running m c1 -> (forall a, completes_running (k a) c2) ->
    c = (c1 ++ c2)%list ->
    completes_running (bind m k) c.
Proof.
  intros A B m k c1 c2 c Hm Hk -> s.
  destruct (Hm s) as (a & evs1 & E1 & R1).
  destruct (Hk a (after s evs1)) as (b & evs2 & E2 & R2).
  exists b, (evs1 ++ evs2)%list. unfold bind. rewrite E1, E2, after_after.
  now rewrite run_commands_app, R1, R2.
Qed.

Lemma completes_seq :
  forall (A B : Type) (m : M A) (k : A -> M B) c1 c2,
    completes_running m c1 -> (forall a, completes_running (k a) c2) ->
    completes_running (bind m k) (c1 ++ c2).
Proof. intros. now apply (completes_bind _ _ m k c1 c2). Qed.

Lemma completes_eq :
  forall (A : Type) (m : M A) c c',
    completes_running m c -> c = c' -> completes_running m c'.
Proof. intros A m c c' H <-. exact H. Qed.

Lemma completes_format_code : completes_running (format_code env) format_commands.
Proof.
  unfold format_code.
  eapply completes_bind; [apply completes_c_run|intro|reflexivity].
  eapply completes_bind; [apply completes_c_run|intro; apply completes_ret|reflexivity].
Qed.

Lemma completes_check : completes_running (check env) check_commands.
Proof.
  unfold check.
  eapply completes_bind; [apply completes_print|intro|reflexivity].
  eapply completes_bind; [apply completes_c_run|intro|reflexivity].
  eapply completes_bind; [apply completes_print|intro|reflexivity].
  eapply completes_bind; [apply completes_c_run|intro; apply completes_ret|reflexivity].
Qed.

Lemma completes_test :
  forall verbose minimal,
    completes_running (test cfg env verbose minimal)
      ["cd " ++ PROJECT_ROOT_PATH cfg ++ " && "
        ++ ("pytest" ++ (if verbose then " --capture=no --verbose" else "")
                     ++ (if minimal then " -q --disable-warnings" else ""))].
Proof.
  intros verbose minimal. unfold test, c_run_cd. cbv zeta.
  eapply completes_bind; [apply completes_c_run|intro; apply completes_ret|].
  destruct verbose, minimal; reflexivity.
Qed.

Lemma completes_build :
  forall no_format no_check remote no_cache debug,
    completes_running (build cfg env no_format no_check remote no_cache debug)
      ((if no_format then [] else format_commands)
       ++ (if no_check then [] else check_commands)
       ++ [docker_build_command cfg
             (if remote then "--platform linux/amd64" else "")
             (if debug then "--progress=plain" else "") no_cache])%list.
Proof.
  intros no_format no_check remote no_cache debug. unfold build. cbv zeta.
  destruct no_format, no_check, no_cache; cbn [negb];
    (eapply completes_eq;
     [ repeat first
         [ apply completes_ret
         | apply completes_print
         | apply completes_c_run
         | apply completes_format_code
         | apply completes_check
         | eapply completes_seq; [| intro] ]
     | reflexivity ]).
Qed.

(** The part of [server] and [chat] before the image flag is read. *)
Lemma completes_format_and_check :
  forall (no_format no_check : bool) (B : Type) (k : M B) c,
    completes_running k c ->
    completes_running
      ((if negb no_format then format_code env else ret tt) ;;
       (if negb no_check then check env else ret tt) ;; k)
      ((if no_format then [] else format_commands)
       ++ (if no_check then [] else check_commands) ++ c)%list.
Proof.
  intros no_format no_check B k c Hk.
  eapply completes_bind; [|intro|reflexivity].
  { destruct no_format; cbn [negb]; [apply completes_ret|apply completes_format_code]. }
  eapply completes_bind; [|intro; exact Hk|reflexivity].
  destruct no_check; cbn [negb]; [apply completes_ret|apply completes_check].
Qed.

End CompletesRunning.

(** X3.  When every command succeeds, [build] returns normally after
    running, in this order, the two formatting commands unless
    [no_format], the two checking commands unless [no_check], and last one
    [docker build] command, which asks for the linux/amd64 platform exactly
    when [remote], for plain progress exactly when [debug] and for no cache
    exactly when [no_cache]. *)
Theorem build_runs_enabled_steps_in_order :
  forall cfg env (no_format no_check remote no_cache debug : bool) s,
    all_commands_succeed env ->
    let platform_option : string := if remote then "--platform linux/amd64" else "" in
    let debug_option : string := if debug then "--progress=plain" else "" in
    let cache_option : string := if no_cache then "--no-cache " else "" in
    let outcome := build cfg env no_format no_check remote no_cache debug s in
    fst outcome = Ok tt /\
    run_commands (new_events s (snd outcome)) =
      ((if no_format then [] else format_commands)
       ++ (if no_check then [] else check_commands)
       ++ [("docker build " ++ platform_option ++ " " ++ debug_option ++ " "
            ++ cache_option ++ "-t " ++ PROJECT_NAME cfg ++ ":latest .")%string])%list.
Proof.
  intros cfg env no_format no_check remote no_cache debug s Hok platform_option
    debug_option cache_option outcome.
  subst outcome.
  destruct (completes_build cfg env Hok no_format no_check remote no_cache debug s)
    as ([] & evs & E & R).
  rewrite E. cbn [fst snd]. rewrite new_events_after, R. split; [reflexivity|].
  do 3 f_equal. subst platform_option debug_option cache_option.
  unfold docker_build_command. destruct remote, debug, no_cache; reflexivity.
Qed.

(** A remote build without cache, and a local one with plain progress. *)
Lemma build_runs_enabled_steps_in_order_witness :
  all_commands_succeed (calm_env "" "" []) /\
  run_commands
    (new_events (initial_state "/repo")
       (snd (build example_cfg (calm_env "" "" []) true false true true false
               (initial_state "/repo")))) =
    ["mypy . --exclude 'vendored/.*' --exclude '.*\.ipynb$'";
     "ruff check . --exclude vendored/ --extend-exclude '\.ipynb$'";
     "docker build --platform linux/amd64  --no-cache -t chat-backend:latest ."] /\
  run_commands
    (new_events (initial_state "/repo")
       (snd (build example_cfg (calm_env "" "" []) true true false false true
               (initial_state "/repo")))) =
    ["docker build  --progress=plain -t chat-backend:latest ."].
Proof.
  split; [apply calm_env_succeeds|]. split.
  - exact (proj2 (build_runs_enabled_steps_in_order example_cfg (calm_env "" "" [])
                    true false true true false (initial_state "/repo")
                    (calm_env_succeeds "" "" []))).
  - exact (proj2 (build_runs_enabled_steps_in_order example_cfg (calm_env "" "" [])
                    true true false false true (initial_state "/repo")
                    (calm_env_succeeds "" "" []))).
Defined.

(** What the pre-hook does, whatever [docker images] answers. *)
Lemma docker_image_exists_run :
  forall env image_name s,
    docker_image_exists env image_name s =
      let probe := run_reply env s ("docker images -q " ++ image_name) in
      let found := negb (String.eqb (py_strip (stdout probe)) "") in
      (Ok tt,
       mkState (cwd s) (Some found)
         (log s ++ [ERunWarn ("docker images -q " ++ image_name) probe;
                    EPrint (if found then MsgFoundLocalImage image_name
                            else MsgImageNotFound image_name)])).
Proof.
  intros env image_name s. unfold docker_image_exists. step.
  destruct (String.eqb _ ""); cbn [negb]; step; reflexivity.
Qed.

Section ServerAndChat.

Variable cfg : Config.
Variable env : Env.
Hypothesis Hok : all_commands_succeed env.

(** Reading the flag of a state in which it is set. *)
Lemma get_image_exists_set :
  forall (B : Type) (k : bool -> M B) s found,
    image_exists s = Some found ->
    bind get_image_exists k s = k found s.
Proof.
  intros B k s found H. unfold bind, get_image_exists. rewrite H. reflexivity.
Qed.

Lemma completes_after_format_and_check :
  forall (no_format no_check : bool) (k : bool -> M unit) c s found,
    image_exists s = Some found ->
    completes_running (k found) c ->
    exists evs,
      ((if negb no_format then format_code env else ret tt) ;;
       (if negb no_check then check env else ret tt) ;;
       found <- get_image_exists ;; k found) s = (Ok tt, after s evs) /\
      run_commands evs =
        ((if no_format then [] else format_commands)
         ++ (if no_check then [] else check_commands) ++ c)%list.
Proof.
  intros no_format no_check k c s found Himg Hk.
  assert (Hf : completes_running (if negb no_format then format_code env else ret tt)
                 (if no_format then [] else format_commands)).
  { destruct no_format; cbn [negb];
      [apply completes_ret|now apply completes_format_code]. }
  assert (Hc : completes_running (if negb no_check then check env else ret tt)
                 (if no_check then [] else check_commands)).
  { destruct no_check; cbn [negb]; [apply completes_ret|now apply completes_check]. }
  destruct (Hf s) as (a1 & evs1 & E1 & R1).
  destruct (Hc (after s evs1)) as (a2 & evs2 & E2 & R2).
  destruct (Hk (after (after s evs1) evs2)) as ([] & evs3 & E3 & R3).
  exists (evs1 ++ evs2 ++ evs3)%list.
  rewrite (bind_ok _ _ _ _ _ _ _ E1), (bind_ok _ _ _ _ _ _ _ E2).
  rewrite (get_image_exists_set _ (fun found => k found)
             (after (after s evs1) evs2) found Himg), E3, !after_after.
  now rewrite !run_commands_app, R1, R2, R3.
Qed.

Lemma completes_server_tail :
  forall (local force_build no_cache found : bool),
    completes_running
      ((if negb found || force_build
        then build cfg env false false (negb local) no_cache false else ret tt) ;;
       c_run env (server_run_command cfg local) false ;; ret tt)
      ((if negb found || force_build
        then format_commands ++ check_commands
             ++ [docker_build_command cfg
                   (if negb local then "--platform linux/amd64" else "") "" no_cache]
        else [])
       ++ [server_run_command cfg local])%list.
Proof.
  intros local force_build no_cache found.
  destruct (negb found || force_build);
    (eapply completes_eq;
     [ repeat first
         [ apply completes_ret
         | now apply completes_c_run
         | apply (completes_build cfg env Hok)
         | eapply completes_seq; [| intro] ]
     | reflexivity ]).
Qed.

Lemma completes_chat_tail :
  forall (force_build found : bool),
    completes_running
      ((if negb found || force_build
        then build cfg env false false false false false else ret tt) ;;
       c_run env (chat_run_command cfg) false ;; ret tt)
      ((if negb found || force_build
        then format_commands ++ check_commands ++ [docker_build_command cfg "" "" false]
        else [])
       ++ [chat_run_command cfg])%list.
Proof.
  intros force_build found.
  destruct (negb found || force_build);
    (eapply completes_eq;
     [ repeat first
         [ apply completes_ret
         | now apply completes_c_run
         | apply (completes_build cfg env Hok)
         | eapply completes_seq; [| intro] ]
     | reflexivity ]).
Qed.

End ServerAndChat.

(** X4.  When every command succeeds, [server] and [chat] (each after its
    pre-hook) return normally; the image counts as found exactly when
    [docker images -q] printed something other than blanks.  They run the
    formatting and checking commands unless disabled; then, exactly when
    the image was not found or [force_build] is given, a whole [build],
    which formats and checks by itself whatever [no_format] and [no_check]
    say; and last the [docker run] command: for [server] with the volumes
    and the reloading [uvicorn] exactly when [local], for [chat] always
    with the volumes and with [chainlit]. *)
Theorem server_and_chat_build_when_needed :
  forall cfg env (no_format no_check local force_build no_cache : bool) s,
    all_commands_succeed env ->
    let probe := run_reply env s ("docker images -q " ++ PROJECT_NAME cfg) in
    let found := negb (String.eqb (py_strip (stdout probe)) "") in
    let before_build : list string :=
      ((if no_format then [] else format_commands)
       ++ (if no_check then [] else check_commands))%list in
    let volume_option : string :=
      "-v " ++ PROJECT_ROOT_PATH cfg ++ ":/app -v ~/.aws:/root/.aws " in
    let server_build : string :=
      "docker build " ++ (if local then "" else "--platform linux/amd64") ++ "  "
        ++ (if no_cache then "--no-cache " else "")
        ++ "-t " ++ PROJECT_NAME cfg ++ ":latest ." in
    let chat_build : string := "docker build   -t " ++ PROJECT_NAME cfg ++ ":latest ." in
    let server_run : string :=
      "docker run -p 80:80 --env-file .env " ++ (if local then volume_option else "")
        ++ " " ++ PROJECT_NAME cfg ++ ":latest "
        ++ (if local
            then "uvicorn server:app --host 0.0.0.0 --port 80 --log-level debug --reload"
            else "") in
    let chat_run : string :=
      "docker run -p 80:80 -e USE_PASSWORD_AUTH=true --env-file .env " ++ volume_option
        ++ " " ++ PROJECT_NAME cfg
        ++ ":latest python -m chainlit run chat.py --host 0.0.0.0 --port 80" in
    let server_outcome :=
      dispatch cfg env (CmdServer no_format no_check local force_build no_cache) s in
    let chat_outcome :=
      dispatch cfg env (CmdChat no_format no_check force_build) s in
    fst server_outcome = Ok tt /\
    image_exists (snd server_outcome) = Some found /\
    run_commands (new_events s (snd server_outcome)) =
      (before_build
       ++ (if negb found || force_build
           then format_commands ++ check_commands ++ [server_build]
           else [])
       ++ [server_run])%list /\
    fst chat_outcome = Ok tt /\
    image_exists (snd chat_outcome) = Some found /\
    run_commands (new_events s (snd chat_outcome)) =
      (before_build
       ++ (if negb found || force_build
           then format_commands ++ check_commands ++ [chat_build]
           else [])
       ++ [chat_run])%list.
Proof.
  intros cfg env no_format no_check local force_build no_cache s Hok
         probe found before_build volume_option server_build chat_build server_run
         chat_run server_outcome chat_outcome.
  assert (Hsb : docker_build_command cfg
                  (if negb local then "--platform linux/amd64" else "") "" no_cache
                = server_build).
  { subst server_build. unfold docker_build_command.
    destruct local, no_cache; reflexivity. }
  assert (Hcb : docker_build_command cfg "" "" false = chat_build) by reflexivity.
  assert (Hsr : server_run_command cfg local = server_run).
  { subst server_run volume_option. unfold server_run_command.
    destruct local; reflexivity. }
  assert (Hcr : chat_run_command cfg = chat_run) by reflexivity.
  clearbody server_build chat_build server_run chat_run. clear volume_option.
  subst server_outcome chat_outcome before_build. cbn [dispatch].
  assert (Hpre := docker_image_exists_run env (PROJECT_NAME cfg) s).
  cbv zeta in Hpre. fold probe in Hpre. fold found in Hpre.
  set (s1 := mkState (cwd s) (Some found) _) in Hpre.
  rewrite !(bind_ok _ _ _ _ _ _ _ Hpre).
  destruct (completes_after_format_and_check env Hok no_format no_check
              (fun found =>
                 (if negb found || force_build
                  then build cfg env false false (negb local) no_cache false
                  else ret tt) ;;
                 c_run env (server_run_command cfg local) false ;; ret tt)
              _ s1 found eq_refl
              (completes_server_tail cfg env Hok local force_build no_cache found))
    as (evs & E & R).
  destruct (completes_after_format_and_check env Hok no_format no_check
              (fun found =>
                 (if negb found || force_build
                  then build cfg env false false false false false
                  else ret tt) ;;
                 c_run env (chat_run_command cfg) false ;; ret tt)
              _ s1 found eq_refl
              (completes_chat_tail cfg env Hok force_build found))
    as (evs' & E' & R').
  unfold server, chat. cbv zeta. rewrite E, E'. unfold after. subst s1.
  cbn [fst snd log cwd image_exists]. rewrite <- !app_assoc, !new_events_log.
  cbn [app run_commands]. rewrite R, R', Hsb, Hcb, Hsr, Hcr. repeat split; reflexivity.
Qed.

(** No image yet: [chat --no-format --no-check] still formats and checks,
    inside the build, and so does [server --no-format --no-check --local]. *)
Lemma server_and_chat_build_when_needed_witness :
  all_commands_succeed (calm_env "" "" []) /\
  run_commands
    (new_events (initial_state "/repo")
       (snd (dispatch example_cfg (calm_env "" "" []) (CmdChat true true false)
               (initial_state "/repo")))) =
    ["isort ."; "black --config=./pyproject.toml .";
     "mypy . --exclude 'vendored/.*' --exclude '.*\.ipynb$'";
     "ruff check . --exclude vendored/ --extend-exclude '\.ipynb$'";
     "docker build   -t chat-backend:latest .";
     "docker run -p 80:80 -e USE_PASSWORD_AUTH=true --env-file .env"
       ++ " -v /repo:/app -v ~/.aws:/root/.aws "
       ++ " chat-backend:latest"
       ++ " python -m chainlit run chat.py --host 0.0.0.0 --port 80"] /\
  run_commands
    (new_events (initial_state "/repo")
       (snd (dispatch example_cfg (calm_env "" "" [])
               (CmdServer true true true false false) (initial_state "/repo")))) =
    ["isort ."; "black --config=./pyproject.toml .";
     "mypy . --exclude 'vendored/.*' --exclude '.*\.ipynb$'";
     "ruff check . --exclude vendored/ --extend-exclude '\.ipynb$'";
     "docker build   -t chat-backend:latest .";
     "docker run -p 80:80 --env-file .env"
       ++ " -v /repo:/app -v ~/.aws:/root/.aws "
       ++ " chat-backend:latest"
       ++ " uvicorn server:app --host 0.0.0.0 --port 80 --log-level debug --reload"] /\
  run_commands
    (new_events (initial_state "/repo")
       (snd (dispatch example_cfg (calm_env "" "" [])
               (CmdServer true true false false true) (initial_state "/repo")))) =
    ["isort ."; "black --config=./pyproject.toml .";
     "mypy . --exclude 'vendored/.*' --exclude '.*\.ipynb$'";
     "ruff check . --exclude vendored/ --extend-exclude '\.ipynb$'";
     "docker build --platform linux/amd64  --no-cache -t chat-backend:latest .";
     "docker run -p 80:80 --env-file .env  chat-backend:latest "].
Proof.
  split; [apply calm_env_succeeds|].
  pose proof (server_and_chat_build_when_needed example_cfg (calm_env "" "" [])
                true true true false false (initial_state "/repo")
                (calm_env_succeeds "" "" [])) as H.
  cbv zeta in H. destruct H as (_ & _ & Hs & _ & _ & Hc).
  pose proof (server_and_chat_build_when_needed example_cfg (calm_env "" "" [])
                true true false false true (initial_state "/repo")
                (calm_env_succeeds "" "" [])) as H'.
  cbv zeta in H'. destruct H' as (_ & _ & Hs' & _).
  split; [exact Hc|]. split; [exact Hs|exact Hs'].
Defined.

(* ================================================================== *)
(** * More on versions and the registry *)

Lemma string_forallb_app :
  forall p a b, string_forallb p (a ++ b) = string_forallb p a && string_forallb p b.
Proof.
  induction a as [|c a IH]; intro b; cbn [String.append string_forallb]; [reflexivity|].
  now rewrite IH, andb_assoc.
Qed.

Lemma isdigit_only_decimal :
  forall s, py_isdigit s = true -> only_decimal_digits s = true -> decimal_string s = true.
Proof.
  intros [|c s] Hd Ho; [discriminate|]. unfold py_isdigit, only_decimal_digits,
    decimal_string in *.
  revert Hd Ho. generalize (String c s). induction s0 as [|d t IH];
    cbn [string_forallb]; [auto|].
  intros Hd Ho. apply andb_true_iff in Hd as [Hd1 Hd2].
  apply andb_true_iff in Ho as [Ho1 Ho2]. rewrite Hd1 in Ho1. cbn in Ho1.
  rewrite Ho1. cbn. auto.
Qed.

Lemma decimal_value_nonneg :
  forall s, decimal_string s = true -> (0 <= decimal_value s)%Z.
Proof.
  intros [|c s] H; [discriminate|]. unfold decimal_string in H.
  apply decimal_value_from_nonneg; [exact H|lia].
Qed.

(** X5.  A text that [validate_version] accepts and that holds no digit
    other than 0 to 9 is read by [parse_tag] as exactly three non-negative
    integers when none of its segments has more digits than [int]
    converts (4300), and makes [parse_tag] raise [ValueError] when one of
    them has.  Leading zeros are accepted and, within that limit, do not
    change what is read, so different accepted texts denote the same
    version. *)
Theorem parse_tag_reads_validated_version :
  forall s,
    validate_version s = true ->
    only_decimal_digits s = true ->
    (if segments_within_limit s
     then exists x y z,
            parse_tag s = Some [x; y; z] /\ (0 <= x)%Z /\ (0 <= y)%Z /\ (0 <= z)%Z
     else parse_tag s = None) /\
    (exists a b c,
       s = version_text a b c /\
       validate_version (version_text ("0" ++ a) ("0" ++ b) ("0" ++ c)) = true /\
       (segments_within_limit (version_text ("0" ++ a) ("0" ++ b) ("0" ++ c)) = true ->
        parse_tag (version_text ("0" ++ a) ("0" ++ b) ("0" ++ c)) = parse_tag s)).
Proof.
  intros s Hvalid Honly.
  apply validate_version_iff in Hvalid as (a & b & c & -> & Ha & Hb & Hc).
  unfold only_decimal_digits, version_text in Honly.
  change ("v" ++ a ++ "." ++ b ++ "." ++ c)
    with ("v" ++ (a ++ "." ++ (b ++ "." ++ c))) in Honly.
  rewrite !string_forallb_app in Honly.
  repeat (apply andb_true_iff in Honly as [? Honly]).
  assert (Da : decimal_string a = true) by now apply isdigit_only_decimal.
  assert (Db : decimal_string b = true) by now apply isdigit_only_decimal.
  assert (Dc : decimal_string c = true) by now apply isdigit_only_decimal.
  assert (Hcases : forall a b c,
            decimal_string a = true -> decimal_string b = true ->
            decimal_string c = true ->
            parse_tag (version_text a b c) =
              if segments_within_limit (version_text a b c)
              then Some [decimal_value a; decimal_value b; decimal_value c]
              else None).
  { intros a' b' c' Ha' Hb' Hc'. unfold segments_within_limit.
    rewrite (parse_tag_decimal_shape a' b' c' Ha' Hb' Hc'),
      (segments_decimal_shape a' b' c' Ha' Hb' Hc').
    cbn [map_int forallb].
    rewrite (py_int_decimal_cases a' Ha'), (py_int_decimal_cases b' Hb'),
      (py_int_decimal_cases c' Hc').
    destruct (within_int_limit a'), (within_int_limit b'), (within_int_limit c');
      reflexivity. }
  split.
  - rewrite (Hcases a b c Da Db Dc).
    destruct (segments_within_limit (version_text a b c)); [|reflexivity].
    exists (decimal_value a), (decimal_value b), (decimal_value c).
    repeat split; auto using decimal_value_nonneg.
  - exists a, b, c. split; [reflexivity|].
    assert (Z0 : forall t, decimal_string t = true -> decimal_string ("0" ++ t) = true).
    { intros t Ht. destruct t; [discriminate|]. exact Ht. }
    split; [apply (validate_version_decimal_shape _ _ _ (Z0 a Da) (Z0 b Db) (Z0 c Dc))|].
    intro Hlim. rewrite (Hcases _ _ _ (Z0 a Da) (Z0 b Db) (Z0 c Dc)), Hlim.
    rewrite (Hcases a b c Da Db Dc).
    assert (Hle : forall t, within_int_limit ("0" ++ t) = true ->
                            within_int_limit t = true).
    { intros t Ht. unfold within_int_limit in *. cbn [String.append digit_count] in Ht.
      apply N.leb_le in Ht. apply N.leb_le.
      destruct (isdecimal_char "0"); lia. }
    unfold segments_within_limit in *.
    rewrite (segments_decimal_shape _ _ _ (Z0 a Da) (Z0 b Db) (Z0 c Dc)) in Hlim.
    rewrite (segments_decimal_shape a b c Da Db Dc).
    cbn [forallb] in *.
    apply andb_true_iff in Hlim as [La Hlim]. apply andb_true_iff in Hlim as [Lb Hlim].
    apply andb_true_iff in Hlim as [Lc _].
    rewrite (Hle a La), (Hle b Lb), (Hle c Lc). reflexivity.
Qed.

(** [v1.20.3] is read as three integers. *)
Lemma parse_tag_reads_validated_version_witness :
  validate_version "v1.20.3" = true /\
  only_decimal_digits "v1.20.3" = true /\
  exists x y z,
    parse_tag "v1.20.3" = Some [x; y; z] /\ (0 <= x)%Z /\ (0 <= y)%Z /\ (0 <= z)%Z.
Proof.
  split; [reflexivity|]. split; [reflexivity|].
  exact (proj1 (parse_tag_reads_validated_version "v1.20.3" eq_refl eq_refl)).
Defined.

(** X6.  [publish] runs login, tag and push in this order and stops at the
    first that fails: the commands it has run are the first [n] of the
    three, with [n] at least one; it returns normally only after all three,
    none of which failed; and when it raises, the exception is the
    [UnexpectedExit] of the command run last, all earlier ones having
    succeeded. *)
Theorem publish_stops_at_first_failed_step :
  forall cfg env version s,
    let outcome := publish cfg env version s in
    let happened := new_events s (snd outcome) in
    (exists n, (1 <= n <= 3)%nat /\
               run_commands happened = firstn n (publish_commands cfg version)) /\
    (fst outcome = Ok tt ->
       run_commands happened = publish_commands cfg version /\
       no_failed_run happened = true) /\
    (forall e, fst outcome = Raise e ->
       exists before cmd r,
         happened = (before ++ [ERun cmd r])%list /\
         e = UnexpectedExit r /\ exited r <> 0%Z /\ no_failed_run before = true).
Proof.
  intros cfg env version s outcome happened. subst happened outcome.
  rewrite publish_run. cbv zeta. rewrite !after_after.
  set (r1 := run_reply env _ (login_command cfg)).
  set (r2 := run_reply env _ (tag_command cfg version)).
  set (r3 := run_reply env _ (push_command cfg version)).
  destruct (exited r1 =? 0)%Z eqn:E1;
    [destruct (exited r2 =? 0)%Z eqn:E2; [destruct (exited r3 =? 0)%Z eqn:E3|]|];
    cbn [fst snd]; rewrite new_events_after; cbn [app run_commands];
    (split; [|split]).
  - exists 3%nat. split; [lia|reflexivity].
  - intros _. split; [reflexivity|]. cbn. now rewrite E1, E2, E3.
  - intros e He. discriminate.
  - exists 3%nat. split; [lia|reflexivity].
  - intros He. discriminate.
  - intros e He. injection He as <-. eexists [_; _; _; _; _], _, _.
    split; [reflexivity|]. split; [reflexivity|]. split; [now apply Z.eqb_neq|].
    cbn. now rewrite E1, E2.
  - exists 2%nat. split; [lia|reflexivity].
  - intros He. discriminate.
  - intros e He. injection He as <-. eexists [_; _; _], _, _.
    split; [reflexivity|]. split; [reflexivity|]. split; [now apply Z.eqb_neq|].
    cbn. now rewrite E1.
  - exists 1%nat. split; [lia|reflexivity].
  - intros He. discriminate.
  - intros e He. injection He as <-. eexists [_], _, _.
    split; [reflexivity|]. split; [reflexivity|]. split; [now apply Z.eqb_neq|reflexivity].
Qed.

(** The push of the image fails after login and tag went through. *)
Lemma publish_stops_at_first_failed_step_witness :
  fst (publish example_cfg push_fails_env "v1.0.0" (initial_state "/repo")) =
    Raise (UnexpectedExit failed_result) /\
  exists before cmd r,
    new_events (initial_state "/repo")
      (snd (publish example_cfg push_fails_env "v1.0.0" (initial_state "/repo"))) =
      (before ++ [ERun cmd r])%list /\
    UnexpectedExit failed_result = UnexpectedExit r /\
    exited r <> 0%Z /\ no_failed_run before = true.
Proof.
  split; [reflexivity|].
  exact (proj2 (proj2 (publish_stops_at_first_failed_step example_cfg push_fails_env
                         "v1.0.0" (initial_state "/repo")))
           (UnexpectedExit failed_result) eq_refl).
Defined.

(** X7.  If the first tag of some tagged image is no version text that
    [parse_tag] can read (a tag such as [latest]), [get_last_version]
    raises [ValueError], and so does [push] for every requested version
    that passed its own checks: after the registry query nothing more
    happens. *)
Theorem push_fails_on_unreadable_tag :
  forall cfg env version v s,
    validate_version version = true ->
    parse_tag version = Some v ->
    parse_tags (first_tags (describe_images_reply env s (PROJECT_NAME cfg))) = None ->
    let queried :=
      after s [EDescribeImages (PROJECT_NAME cfg)
                 (describe_images_reply env s (PROJECT_NAME cfg))] in
    get_last_version cfg env s = (Raise ValueError, queried) /\
    push cfg env version s = (Raise ValueError, queried).
Proof.
  intros cfg env version v s Hvalid Hparse Hbad queried.
  assert (Hlast : last_version_of_images
                    (describe_images_reply env s (PROJECT_NAME cfg)) = Raise ValueError).
  { unfold last_version_of_images. rewrite Hbad.
    destruct (describe_images_reply env s (PROJECT_NAME cfg)); [discriminate|reflexivity]. }
  split.
  - rewrite get_last_version_run. cbv zeta. now rewrite Hlast.
  - rewrite (push_run cfg env version v s Hvalid Hparse). cbv zeta. now rewrite Hlast.
Qed.

(** An image carries the tags [latest] and [v1.0.0], in this order. *)
Lemma push_fails_on_unreadable_tag_witness :
  validate_version "v2.0.0" = true /\
  parse_tag "latest" = None /\
  push example_cfg (calm_env "" "" [mkImageDetail (Some ["latest"; "v1.0.0"])])
       "v2.0.0" (initial_state "/repo") =
    (Raise ValueError,
     initial_state_log "/repo"
       [EDescribeImages "chat-backend" [mkImageDetail (Some ["latest"; "v1.0.0"])]]).
Proof.
  split; [reflexivity|]. split; [reflexivity|].
  exact (proj2 (push_fails_on_unreadable_tag example_cfg
                  (calm_env "" "" [mkImageDetail (Some ["latest"; "v1.0.0"])])
                  "v2.0.0" [2; 0; 0]%Z (initial_state "/repo") eq_refl eq_refl eq_refl)).
Defined.

Lemma py_tuple_le_antisym :
  forall a b, py_tuple_le a b = true -> py_tuple_le b a = true -> a = b.
Proof.
  induction a as [|x a IH]; intros [|y b]; simpl; try congruence.
  rewrite (Z.eqb_sym y x). destruct (Z.eqb_spec x y) as [->|Hne].
  - intros H1 H2. f_equal. now apply IH.
  - rewrite !Z.leb_le. lia.
Qed.

Lemma first_tags_perm :
  forall l l', Permutation l l' -> Permutation (first_tags l) (first_tags l').
Proof.
  intros l l' H. induction H as [|x l l' H IH|x y l|l l' l'' H1 IH1 H2 IH2].
  - constructor.
  - cbn [first_tags]. destruct (imageTags x) as [[|t ts]|]; auto.
  - cbn [first_tags].
    destruct (imageTags x) as [[|t ts]|], (imageTags y) as [[|u us]|];
      auto using Permutation_refl, perm_swap.
  - now apply Permutation_trans with (first_tags l').
Qed.

Lemma parse_tags_perm :
  forall l l', Permutation l l' ->
    match parse_tags l, parse_tags l' with
    | Some vs, Some vs' => Permutation vs vs'
    | None, None => True
    | _, _ => False
    end.
Proof.
  intros l l' H. induction H as [|x l l' H IH|x y l|l l' l'' H1 IH1 H2 IH2].
  - constructor.
  - cbn [parse_tags]. destruct (parse_tag x); [|exact I].
    destruct (parse_tags l), (parse_tags l'); auto.
  - cbn [parse_tags]. destruct (parse_tag x), (parse_tag y), (parse_tags l);
      auto using Permutation_refl, perm_swap.
  - destruct (parse_tags l), (parse_tags l'), (parse_tags l''); try tauto.
    now apply Permutation_trans with l1.
Qed.

Lemma py_last_none : forall (A : Type) (l : list A), py_last l = None -> l = [].
Proof.
  induction l as [|a l IH]; [reflexivity|]. cbn [py_last].
  destruct l; [discriminate|]. intro H. specialize (IH H). discriminate.
Qed.

Lemma py_last_sort_perm :
  forall vs vs', Permutation vs vs' -> py_last (py_sort vs) = py_last (py_sort vs').
Proof.
  intros vs vs' H.
  destruct (py_last (py_sort vs)) as [m|] eqn:Em,
           (py_last (py_sort vs')) as [m'|] eqn:Em'.
  - apply py_last_sort_greatest in Em as [Hin Hmax].
    apply py_last_sort_greatest in Em' as [Hin' Hmax'].
    f_equal. apply py_tuple_le_antisym.
    + apply Hmax'. now apply (Permutation_in _ H).
    + apply Hmax. now apply (Permutation_in _ (Permutation_sym H)).
  - apply py_last_none in Em'.
    assert (Hnil : vs' = []).
    { destruct vs' as [|w ws]; [reflexivity|]. exfalso.
      assert (Hw : In w (py_sort (w :: ws))) by (apply py_sort_in; now left).
      rewrite Em' in Hw. destruct Hw. }
    subst vs'. apply Permutation_sym, Permutation_nil in H. subst vs. discriminate.
  - apply py_last_none in Em.
    assert (Hnil : vs = []).
    { destruct vs as [|w ws]; [reflexivity|]. exfalso.
      assert (Hw : In w (py_sort (w :: ws))) by (apply py_sort_in; now left).
      rewrite Em in Hw. destruct Hw. }
    subst vs. apply Permutation_nil in H. subst vs'. discriminate.
  - reflexivity.
Qed.

Lemma last_version_of_images_perm :
  forall l l', Permutation l l' -> last_version_of_images l = last_version_of_images l'.
Proof.
  intros l l' H. unfold last_version_of_images.
  pose proof (parse_tags_perm _ _ (first_tags_perm _ _ H)) as Hp.
  destruct l as [|i l], l' as [|i' l'].
  - reflexivity.
  - apply Permutation_nil in H. discriminate.
  - apply Permutation_sym, Permutation_nil in H. discriminate.
  - destruct (parse_tags (first_tags (i :: l))), (parse_tags (first_tags (i' :: l')));
      try tauto. now rewrite (py_last_sort_perm _ _ Hp).
Qed.

(** X8.  What [get_last_version] answers depends only on which images the
    registry lists, not on their order; and when it answers with a version,
    that version was parsed from the first tag of some tagged image and no
    version parsed from such a first tag is greater. *)
Theorem get_last_version_greatest_whatever_order :
  forall cfg env env' s s',
    Permutation (describe_images_reply env s (PROJECT_NAME cfg))
                (describe_images_reply env' s' (PROJECT_NAME cfg)) ->
    fst (get_last_version cfg env s) = fst (get_last_version cfg env' s') /\
    (forall last,
       fst (get_last_version cfg env s) = Ok (Some last) ->
       exists versions,
         parse_tags (first_tags (describe_images_reply env s (PROJECT_NAME cfg)))
           = Some versions /\
         In last versions /\
         forall v, In v versions -> py_tuple_lt last v = false).
Proof.
  intros cfg env env' s s' Hperm. rewrite !get_last_version_run. cbv zeta.
  cbn [fst]. split; [now apply last_version_of_images_perm|].
  intros last Hlast.
  destruct (last_version_of_images_greatest _ _ Hlast) as (versions & Hp & Hin & Hmax).
  exists versions. repeat split; auto.
  intros v Hv. specialize (Hmax v Hv). unfold tuple_le in Hmax.
  rewrite py_tuple_le_not_lt in Hmax. now apply negb_true_iff in Hmax.
Qed.

(** The same two images listed in either order. *)
Lemma get_last_version_greatest_whatever_order_witness :
  fst (get_last_version example_cfg
         (calm_env "" "" [mkImageDetail (Some ["v1.2.3"]); mkImageDetail (Some ["v1.10.0"])])
         (initial_state "/repo")) =
  fst (get_last_version example_cfg
         (calm_env "" "" [mkImageDetail (Some ["v1.10.0"]); mkImageDetail (Some ["v1.2.3"])])
         (initial_state "/repo")).
Proof.
  exact (proj1 (get_last_version_greatest_whatever_order example_cfg
                  (calm_env "" "" [mkImageDetail (Some ["v1.2.3"]);
                                   mkImageDetail (Some ["v1.10.0"])])
                  (calm_env "" "" [mkImageDetail (Some ["v1.10.0"]);
                                   mkImageDetail (Some ["v1.2.3"])])
                  (initial_state "/repo") (initial_state "/repo")
                  (perm_swap _ _ []))).
Defined.

(* ================================================================== *)
(** * More on the terraform commands *)

(** The two ways [ensure_symlink] ends, on a concrete list of events. *)
Ltac made_link :=
  split; [cbn [In]; eauto 10|];
  split; [first [left; reflexivity | right; reflexivity]|];
  split; [reflexivity|];
  split; cbn [In]; [intuition congruence|intros H b Hb; intuition congruence].

Ltac failed_call :=
  eexists; split; [reflexivity|intros c Hc; cbn [In] in Hc; intuition discriminate].

(** X9.  [ensure_symlink] calls nothing outside the file system and
    changes nothing there but [dest].  It returns normally exactly when
    none of its calls fails, and then it ends by creating the link [dest],
    pointing at the resolved [src]; it has removed [dest] first exactly
    when [dest] was reported to be a link or to exist, and it has asked
    whether [dest] exists only when it is no link.  When a call fails, the
    error of that call ends it at once and the link is not created, also
    when [dest] has been removed already. *)
Theorem ensure_symlink_replaces_link :
  forall env src dest s,
    let outcome := ensure_symlink env src dest s in
    let happened := new_events s (snd outcome) in
    (forall e, In e happened -> is_fs_mutation e = true ->
               e = EUnlink dest \/ exists target, e = ESymlinkTo dest target) /\
    existsb is_external_call happened = false /\
    (fst outcome = Ok tt <-> forall call, ~ In (EFsError call) happened) /\
    (fst outcome = Ok tt ->
     exists target queries,
       In (EResolve src target) happened /\
       (happened = (queries ++ [EResolve src target; ESymlinkTo dest target])%list \/
        happened = (queries ++ [EUnlink dest; EResolve src target;
                                ESymlinkTo dest target])%list) /\
       existsb is_fs_mutation queries = false /\
       (In (EUnlink dest) happened <->
        In (EIsSymlink dest true) happened \/ In (EExists dest true) happened) /\
       (In (EIsSymlink dest true) happened ->
        forall b, ~ In (EExists dest b) happened)) /\
    (fst outcome <> Ok tt ->
     fst outcome = Raise FileSystemError /\
     (exists before call,
        happened = (before ++ [EFsError call])%list /\
        forall c, ~ In (EFsError c) before) /\
     forall target, ~ In (ESymlinkTo dest target) happened).
Proof.
  intros env src dest s outcome happened. subst happened outcome.
  unfold ensure_symlink. step. fs_cases; rewrite new_events_log; cbn [fst].
  all: (split; [intros e H Hm; cbn [In] in H;
                repeat (destruct H as [H|H]; [subst e; try discriminate Hm|]);
                try (destruct H); eauto|]).
  all: (split; [reflexivity|]).
  all: (split; [split; [first [discriminate
                              | intros _ call H; cbn [In] in H; intuition discriminate]
                       | first [reflexivity
                               | intro H; exfalso; eapply H; cbn [In]; eauto 10]]|]).
  all: (split; [first [discriminate|intros _]
               |first [intro H; contradiction (H eq_refl) | intros _]]).
  all: try (first
         [ solve [eexists; eexists [_]; made_link]
         | solve [eexists; eexists [_; _]; made_link] ]).
  all: (split; [reflexivity|]).
  all: (split; [|intros target H; cbn [In] in H; intuition discriminate]).
  all: first
         [ solve [exists []; failed_call]
         | solve [eexists [_]; failed_call]
         | solve [eexists [_; _]; failed_call]
         | solve [eexists [_; _; _]; failed_call]
         | solve [eexists [_; _; _; _]; failed_call] ].
Qed.

(** In a world where nothing exists yet and every call succeeds, the link
    is made. *)
Lemma ensure_symlink_replaces_link_witness :
  fst (ensure_symlink (calm_env "" "" []) "/repo/settings.tf" "/repo/dev/settings.tf"
         (initial_state "/repo")) = Ok tt /\
  forall call,
    ~ In (EFsError call)
        (new_events (initial_state "/repo")
           (snd (ensure_symlink (calm_env "" "" []) "/repo/settings.tf"
                   "/repo/dev/settings.tf" (initial_state "/repo")))).
Proof.
  pose proof (ensure_symlink_replaces_link (calm_env "" "" []) "/repo/settings.tf"
                "/repo/dev/settings.tf" (initial_state "/repo")) as H.
  cbv zeta in H. destruct H as (_ & _ & H & _).
  split; [reflexivity|]. exact (proj1 H eq_refl).
Defined.

Lemma workspace_items_no_run :
  forall l cmd r, ~ In (ERun cmd r) (workspace_items l).
Proof.
  induction l as [|ws l IH]; intros cmd r H; [destruct H|].
  destruct H as [H|H]; [discriminate|]. now apply (IH cmd r).
Qed.

Lemma apply_command_not_workspace :
  forall cfg workspace auto_approve w,
    "terraform workspace list" <> apply_command cfg workspace auto_approve /\
    "terraform workspace select " ++ w <> apply_command cfg workspace auto_approve.
Proof.
  intros cfg workspace auto_approve w. unfold apply_command.
  destruct auto_approve; split; cbn [String.append]; discriminate.
Qed.

Lemma plan_command_not_other :
  forall cfg workspace reconfigure upgrade w,
    "terraform workspace list" <> plan_command cfg workspace /\
    "terraform workspace select " ++ w <> plan_command cfg workspace /\
    init_command_of reconfigure upgrade <> plan_command cfg workspace.
Proof.
  intros cfg workspace reconfigure upgrade w. unfold plan_command, init_command_of.
  destruct reconfigure, upgrade; repeat split; cbn [String.append]; discriminate.
Qed.

(** Close a goal whose premise places the final command at an event that
    runs another command. *)
Ltac wrong_event H :=
  exfalso;
  first
    [ discriminate H
    | injection H as H _;
      first [ now apply (proj1 (apply_command_not_workspace _ _ _ "") H)
            | now apply (proj2 (apply_command_not_workspace _ _ _ _) H)
            | now apply (proj1 (plan_command_not_other _ _ false false "") H)
            | now apply (proj1 (proj2 (plan_command_not_other _ _ false false _)) H)
            | now apply (proj2 (proj2 (plan_command_not_other _ _ _ _ "")) H) ]
    | now apply (workspace_items_no_run _ _ _ H) ].

Ltac find_event H :=
  repeat first
    [ progress cbn [In] in H
    | rewrite in_app_iff in H
    | match type of H with
      | _ \/ _ => destruct H as [H|H]
      | False => destruct H
      end ].

(** X10.  [apply] runs [terraform apply] only for a name among [dev],
    [staging], [production] that the workspace list of terraform showed
    and whose selection succeeded: whenever the apply command is in the
    log, so are a successful list command whose output holds the name and a
    successful select command for it. *)
Theorem apply_only_on_selected_workspace :
  forall cfg env workspace auto_approve s r,
    let happened := new_events s (snd (apply cfg env workspace auto_approve s)) in
    In (ERun (apply_command cfg workspace auto_approve) r) happened ->
    py_in workspace Workspace_values = true /\
    exists listing sel,
      In (ERun "terraform workspace list" listing) happened /\
      exited listing = 0%Z /\
      py_in workspace (map strip_marker (py_splitlines (stdout listing))) = true /\
      In (ERun ("terraform workspace select " ++ workspace) sel) happened /\
      exited sel = 0%Z.
Proof.
  intros cfg env workspace auto_approve s r happened. subst happened.
  unfold apply, is_valid_workspace, ensure_symlink, change_directory. cbv zeta.
  destruct (py_in workspace Workspace_values) eqn:Hvalid; cbn [negb]; step.
  2:{ rewrite new_events_log. intro H. find_event H; wrong_event H. }
  fs_cases;
    try solve [rewrite new_events_log; intro H; find_event H; wrong_event H];
    rewrite check_and_switch_workspace_run; cbv zeta;
    set (listing := run_reply env _ "terraform workspace list") in *;
    set (sel := run_reply env _ ("terraform workspace select " ++ workspace)) in *;
    (destruct (exited listing =? 0)%Z eqn:El;
     [destruct (py_in workspace (map _ _)) eqn:Hin;
      [destruct (exited sel =? 0)%Z eqn:Es|]|]);
    step;
    try (set (ran := run_reply env _ (apply_command cfg workspace auto_approve)) in *;
         destruct (exited ran =? 0)%Z; step);
    rewrite new_events_log; intro H;
    try (find_event H; wrong_event H);
    (split; [reflexivity|]); exists listing, sel;
    (split; [cbn; auto 12|]);
    (split; [apply Z.eqb_eq; exact El|]);
    (split; [exact Hin|]);
    (split; [cbn; auto 12|apply Z.eqb_eq; exact Es]).
Qed.

(** [dev] is listed and selected, then applied. *)
Lemma apply_only_on_selected_workspace_witness :
  In (ERun (apply_command example_cfg "dev" true) ok_result)
     (new_events (initial_state "/repo")
        (snd (apply example_cfg (calm_env example_listing "" []) "dev" true
                (initial_state "/repo")))) /\
  py_in "dev" Workspace_values = true.
Proof.
  assert (H : In (ERun (apply_command example_cfg "dev" true) ok_result)
                (new_events (initial_state "/repo")
                   (snd (apply example_cfg (calm_env example_listing "" []) "dev" true
                           (initial_state "/repo"))))).
  { cbn. auto 12. }
  split; [exact H|].
  exact (proj1 (apply_only_on_selected_workspace example_cfg
                  (calm_env example_listing "" []) "dev" true (initial_state "/repo")
                  ok_result H)).
Defined.

(** X11.  [plan] runs [terraform plan] only for a name among [dev],
    [staging], [production], after [terraform init] succeeded, the
    workspace list of terraform showed the name and its selection
    succeeded. *)
Theorem plan_only_on_selected_workspace :
  forall cfg env workspace reconfigure upgrade s r,
    let happened := new_events s (snd (plan cfg env workspace reconfigure upgrade s)) in
    In (ERun (plan_command cfg workspace) r) happened ->
    py_in workspace Workspace_values = true /\
    exists ini listing sel,
      In (ERun (init_command_of reconfigure upgrade) ini) happened /\
      exited ini = 0%Z /\
      In (ERun "terraform workspace list" listing) happened /\
      exited listing = 0%Z /\
      py_in workspace (map strip_marker (py_splitlines (stdout listing))) = true /\
      In (ERun ("terraform workspace select " ++ workspace) sel) happened /\
      exited sel = 0%Z.
Proof.
  intros cfg env workspace reconfigure upgrade s r happened. subst happened.
  unfold plan, is_valid_workspace, ensure_symlink, change_directory. cbv zeta.
  destruct (py_in workspace Workspace_values) eqn:Hvalid; cbn [negb]; step.
  2:{ rewrite new_events_log. intro H. find_event H; wrong_event H. }
  fs_cases;
    try solve [rewrite new_events_log; intro H; find_event H; wrong_event H];
    set (ini := run_reply env _ (init_command_of reconfigure upgrade)) in *;
    (destruct (exited ini =? 0)%Z eqn:Ei; step;
     [|rewrite new_events_log; intro H; find_event H; wrong_event H]);
    rewrite check_and_switch_workspace_run; cbv zeta;
    set (listing := run_reply env _ "terraform workspace list") in *;
    set (sel := run_reply env _ ("terraform workspace select " ++ workspace)) in *;
    (destruct (exited listing =? 0)%Z eqn:El;
     [destruct (py_in workspace (map _ _)) eqn:Hin;
      [destruct (exited sel =? 0)%Z eqn:Es|]|]);
    step;
    try (set (ran := run_reply env _ (plan_command cfg workspace)) in *;
         destruct (exited ran =? 0)%Z; step);
    rewrite new_events_log; intro H;
    try (find_event H; wrong_event H);
    (split; [reflexivity|]); exists ini, listing, sel;
    (split; [cbn; auto 12|]);
    (split; [apply Z.eqb_eq; exact Ei|]);
    (split; [cbn; auto 12|]);
    (split; [apply Z.eqb_eq; exact El|]);
    (split; [exact Hin|]);
    (split; [cbn; auto 12|apply Z.eqb_eq; exact Es]).
Qed.

Lemma plan_only_on_selected_workspace_witness :
  In (ERun (plan_command example_cfg "dev") ok_result)
     (new_events (initial_state "/repo")
        (snd (plan example_cfg (calm_env example_listing "" []) "dev" false true
                (initial_state "/repo")))) /\
  py_in "dev" Workspace_values = true.
Proof.
  assert (H : In (ERun (plan_command example_cfg "dev") ok_result)
                (new_events (initial_state "/repo")
                   (snd (plan example_cfg (calm_env example_listing "" []) "dev"
                           false true (initial_state "/repo"))))).
  { cbn. auto 20. }
  split; [exact H|].
  exact (proj1 (plan_only_on_selected_workspace example_cfg
                  (calm_env example_listing "" []) "dev" false true
                  (initial_state "/repo") ok_result H)).
Defined.

(** X12.  If the list command succeeds and one line of its output is the
    requested name behind the current-workspace marker or behind the
    two-blank indentation, and the name holds neither blanks nor [*], then
    [check_and_switch_workspace] runs the select command for that name. *)
Theorem listed_workspace_is_selected :
  forall env workspace workspace_dir s,
    string_forallb name_char workspace = true ->
    let listing := run_reply env (moved workspace_dir s) "terraform workspace list" in
    exited listing = 0%Z ->
    In ("* " ++ workspace) (py_splitlines (stdout listing)) \/
    In ("  " ++ workspace) (py_splitlines (stdout listing)) ->
    In ("terraform workspace select " ++ workspace)
       (run_commands
          (new_events s (snd (check_and_switch_workspace env workspace workspace_dir s)))).
Proof.
  intros env workspace workspace_dir s Hname listing Hexit Hline.
  rewrite check_and_switch_workspace_run. cbv zeta. fold listing.
  apply Z.eqb_eq in Hexit. rewrite Hexit.
  destruct (strip_marker_name workspace Hname) as [Hcur Hother].
  assert (Hin : py_in workspace (map strip_marker (py_splitlines (stdout listing))) = true).
  { unfold py_in. apply existsb_exists. exists workspace.
    split; [|apply String.eqb_refl].
    destruct Hline as [H|H]; apply (in_map strip_marker) in H;
      [now rewrite Hcur in H|now rewrite Hother in H]. }
  rewrite Hin. unfold moved, after. cbn [snd log cwd image_exists].
  rewrite <- !app_assoc, new_events_log. cbn. auto.
Qed.

Lemma listed_workspace_is_selected_witness :
  string_forallb name_char "staging" = true /\
  In "terraform workspace select staging"
     (run_commands
        (new_events (initial_state "/repo")
           (snd (check_and_switch_workspace (calm_env example_listing "" []) "staging"
                   "/repo/infra/terraform/environment/staging" (initial_state "/repo"))))).
Proof.
  split; [reflexivity|].
  apply (listed_workspace_is_selected (calm_env example_listing "" []) "staging"
           "/repo/infra/terraform/environment/staging" (initial_state "/repo")
           eq_refl eq_refl).
  right. cbn. auto.
Defined.

(* ================================================================== *)
(** * The whole tool chain *)

(** X13.  When every command succeeds, [all] runs the two formatting
    commands, the two checking commands and then [pytest] without options
    from the project root, in this order, and returns normally; [test] runs
    one [pytest] command from the project root, with the verbose options
    before the minimal ones when both are asked for. *)
Theorem run_all_runs_format_check_test :
  forall cfg env (verbose minimal : bool) s,
    all_commands_succeed env ->
    let all_outcome := run_all cfg env s in
    let test_outcome := test cfg env verbose minimal s in
    fst all_outcome = Ok tt /\
    run_commands (new_events s (snd all_outcome)) =
      (format_commands ++ check_commands
       ++ [("cd " ++ PROJECT_ROOT_PATH cfg ++ " && pytest")%string])%list /\
    fst test_outcome = Ok tt /\
    run_commands (new_events s (snd test_outcome)) =
      ["cd " ++ PROJECT_ROOT_PATH cfg ++ " && pytest"
         ++ (if verbose then " --capture=no --verbose" else "")
         ++ (if minimal then " -q --disable-warnings" else "")].
Proof.
  intros cfg env verbose minimal s Hok all_outcome test_outcome.
  subst all_outcome test_outcome.
  assert (Hall : completes_running (run_all cfg env)
                   (format_commands ++ check_commands
                    ++ [("cd " ++ PROJECT_ROOT_PATH cfg ++ " && pytest")%string])%list).
  { unfold run_all. eapply completes_eq.
    - repeat first
        [ apply completes_print
        | now apply completes_format_code
        | now apply completes_check
        | now apply (completes_test cfg env Hok false false)
        | eapply completes_seq; [| intro] ].
    - reflexivity. }
  destruct (Hall s) as ([] & evs & E & R).
  destruct (completes_test cfg env Hok verbose minimal s) as ([] & evs' & E' & R').
  rewrite E, E'. cbn [fst snd]. rewrite !new_events_after, R, R'.
  repeat split.
Qed.

Lemma run_all_runs_format_check_test_witness :
  all_commands_succeed (calm_env "" "" []) /\
  run_commands
    (new_events (initial_state "/repo")
       (snd (run_all example_cfg (calm_env "" "" []) (initial_state "/repo")))) =
    ["isort ."; "black --config=./pyproject.toml .";
     "mypy . --exclude 'vendored/.*' --exclude '.*\.ipynb$'";
     "ruff check . --exclude vendored/ --extend-exclude '\.ipynb$'";
     "cd /repo && pytest"].
Proof.
  split; [apply calm_env_succeeds|].
  pose proof (run_all_runs_format_check_test example_cfg (calm_env "" "" []) false false
                (initial_state "/repo") (calm_env_succeeds "" "" [])) as H.
  cbv zeta in H. destruct H as (_ & H & _). exact H.
Defined.

(* ================================================================== *)
(** * The confirmation prompt *)

Lemma lower_char_space : forall c, isspace_char (lower_char c) = isspace_char c.
Proof. intros [[] [] [] [] [] [] [] []]; reflexivity. Qed.

Lemma lower_char_y :
  forall c, Ascii.eqb (lower_char c) "y" = Ascii.eqb c "y" || Ascii.eqb c "Y".
Proof. intros [[] [] [] [] [] [] [] []]; reflexivity. Qed.

Lemma py_lower_app : forall a b, py_lower (a ++ b) = py_lower a ++ py_lower b.
Proof.
  induction a as [|c a IH]; intro b; cbn [String.append py_lower]; [reflexivity|].
  now rewrite IH.
Qed.

Lemma py_lower_blank :
  forall s, string_forallb isspace_char (py_lower s) = string_forallb isspace_char s.
Proof.
  induction s as [|c s IH]; cbn [py_lower string_forallb]; [reflexivity|].
  now rewrite lower_char_space, IH.
Qed.

Lemma py_lower_split :
  forall pre' c' post' s,
    py_lower s = pre' ++ String c' post' ->
    exists pre c post,
      s = pre ++ String c post /\ py_lower pre = pre' /\ lower_char c = c' /\
      py_lower post = post'.
Proof.
  induction pre' as [|d pre' IH]; intros c' post' [|x s] H;
    cbn [py_lower String.append] in H; try discriminate.
  - injection H as Hc Hs. exists EmptyString, x, s. auto.
  - injection H as Hd Hs. destruct (IH _ _ _ Hs) as (pre & c & post & -> & Hp & Hc & Hpo).
    exists (String x pre), c, post. cbn [py_lower String.append].
    repeat split; auto. now rewrite Hd, Hp.
Qed.

Lemma py_lstrip_split :
  forall p s, exists pre, s = pre ++ py_lstrip p s /\ string_forallb p pre = true.
Proof.
  induction s as [|c s IH].
  - exists EmptyString. auto.
  - cbn [py_lstrip]. destruct (p c) eqn:E.
    + destruct IH as (pre & Hs & Hp). exists (String c pre).
      cbn [String.append string_forallb]. rewrite E, Hp. split; [congruence|reflexivity].
    + exists EmptyString. auto.
Qed.

Lemma py_rstrip_split :
  forall p s, exists post, s = py_rstrip p s ++ post /\ string_forallb p post = true.
Proof.
  induction s as [|c s IH].
  - exists EmptyString. auto.
  - destruct IH as (post & Hs & Hp). cbn [py_rstrip].
    destruct (py_rstrip p s) as [|d r] eqn:E.
    + destruct (p c) eqn:Ec.
      * exists (String c s). cbn [String.append string_forallb].
        cbn [String.append] in Hs. rewrite Ec, Hs, Hp. auto.
      * exists post. cbn [String.append] in *. split; [congruence|exact Hp].
    + exists post. cbn [String.append] in *. split; [congruence|exact Hp].
Qed.

Lemma py_rstrip_all :
  forall p s, string_forallb p s = true -> py_rstrip p s = EmptyString.
Proof.
  induction s as [|c s IH]; cbn [string_forallb py_rstrip]; [reflexivity|].
  intro H. apply andb_true_iff in H as [Hc Hs]. now rewrite (IH Hs), Hc.
Qed.

(** [s.strip()] is one non-blank character exactly when [s] is that
    character between blanks. *)
Lemma py_strip_single :
  forall c s,
    isspace_char c = false ->
    (py_strip s = String c EmptyString <->
     exists pre post, s = pre ++ String c post /\ blank pre /\ blank post).
Proof.
  intros c s Hc. unfold py_strip, blank. split.
  - intro H. destruct (py_lstrip_split isspace_char s) as (pre & Hs & Hpre).
    destruct (py_rstrip_split isspace_char (py_lstrip isspace_char s))
      as (post & Hr & Hpost).
    rewrite H in Hr. exists pre, post. rewrite Hs at 1. rewrite Hr. auto.
  - intros (pre & post & -> & Hpre & Hpost).
    rewrite (py_lstrip_app_all _ pre _ Hpre), (py_lstrip_head _ c post Hc).
    cbn [py_rstrip]. now rewrite (py_rstrip_all _ post Hpost), Hc.
Qed.

(** X14.  At the confirmation prompt of the chat table commands the
    answer counts as a yes exactly when it is one letter [y] or [Y] with
    nothing but blanks before and after it; every other answer, such as
    [yes], counts as a no. *)
Theorem confirm_accepts_exactly_y :
  forall env s,
    fst (confirm env s) = Ok true <->
    exists pre c post,
      input_reply env s MsgProceedPrompt = pre ++ String c post /\
      blank pre /\ blank post /\ (c = "y"%char \/ c = "Y"%char).
Proof.
  intros env s. unfold confirm. step.
  set (answer := input_reply env s MsgProceedPrompt).
  assert (Hy : isspace_char "y" = false) by reflexivity.
  split.
  - intro H. injection H as H. apply String.eqb_eq in H.
    apply (py_strip_single "y" _ Hy) in H as (pre' & post' & Hl & Hpre & Hpost).
    apply py_lower_split in Hl as (pre & c & post & Ha & <- & Hc & <-).
    exists pre, c, post. unfold blank in *. rewrite py_lower_blank in Hpre, Hpost.
    repeat split; auto.
    assert (E : Ascii.eqb (lower_char c) "y" = true) by (rewrite Hc; reflexivity).
    rewrite lower_char_y in E. apply orb_true_iff in E as [E|E];
      apply Ascii.eqb_eq in E; auto.
  - intros (pre & c & post & Ha & Hpre & Hpost & Hc). f_equal. f_equal.
    apply String.eqb_eq. apply (py_strip_single "y" _ Hy).
    exists (py_lower pre), (py_lower post). rewrite Ha, py_lower_app.
    cbn [py_lower]. unfold blank in *. rewrite !py_lower_blank.
    repeat split; auto. destruct Hc as [-> | ->]; reflexivity.
Qed.

(** [yes] is no yes. *)
Example confirm_rejects_yes :
  fst (confirm (calm_env "" "yes" []) (initial_state "/repo")) = Ok false /\
  fst (confirm (calm_env "" " Y " []) (initial_state "/repo")) = Ok true.
Proof. split; reflexivity. Qed.

Lemma confirm_accepts_exactly_y_witness :
  fst (confirm (calm_env "" " Y " []) (initial_state "/repo")) = Ok true.
Proof.
  apply (proj2 (confirm_accepts_exactly_y (calm_env "" " Y " []) (initial_state "/repo"))).
  exists " ", "Y"%char, " ". repeat split; auto.
Defined.

(* ================================================================== *)
(** * The enumeration of stacks *)

Lemma upper_codes_shape :
  forall c, (exists m, upper_codes c = [m]) \/ upper_codes c = [83%N; 83%N].
Proof.
  intros [[] [] [] [] [] [] [] []];
    first [left; eexists; reflexivity | right; reflexivity].
Qed.

Lemma upper_codes_capital :
  forall c m, upper_codes c = [m] -> in_range 65 90 m = true ->
              code (lower_char c) = (m + 32)%N.
Proof.
  intros [[] [] [] [] [] [] [] []] m H Hr; vm_compute in H;
    first [discriminate H
          | injection H as <-; vm_compute in Hr; first [discriminate Hr | reflexivity]].
Qed.

Lemma upper_codes_of_small :
  forall c, in_range 97 122 (code (lower_char c)) = true ->
            upper_codes c = [(code (lower_char c) - 32)%N].
Proof.
  intros [[] [] [] [] [] [] [] []] H; vm_compute in H;
    first [discriminate H | reflexivity].
Qed.

Lemma lower_char_capital :
  forall t, in_range 65 90 (code t) = true -> code (lower_char t) = (code t + 32)%N.
Proof.
  intros [[] [] [] [] [] [] [] []] H; vm_compute in H;
    first [discriminate H | reflexivity].
Qed.

Lemma code_inj : forall a b, code a = code b -> a = b.
Proof.
  intros a b H. unfold code in H.
  rewrite <- (ascii_N_embedding a), <- (ascii_N_embedding b). now rewrite H.
Qed.

(** Against a name of plain capitals, comparing the upper-cased text is
    comparing the lower-cased texts. *)
Lemma py_upper_matches :
  forall T, plain_capitals T = true ->
    forall env, py_upper env = codes_of T <-> py_lower env = py_lower T.
Proof.
  induction T as [|t T IH]; intros HT [|c r].
  - split; reflexivity.
  - cbn [py_upper py_lower codes_of]. split; [|discriminate].
    destruct (upper_codes_shape c) as [[m ->]| ->]; discriminate.
  - split; discriminate.
  - cbn [plain_capitals] in HT. apply andb_true_iff in HT as [HT HT'].
    apply andb_true_iff in HT as [Ht Hss].
    cbn [py_upper py_lower codes_of]. split.
    + intro H. destruct (upper_codes_shape c) as [[m Hm]|Hm]; rewrite Hm in H.
      * injection H as -> Hr. f_equal; [|now apply IH].
        apply code_inj. rewrite (upper_codes_capital c _ Hm Ht).
        now rewrite (lower_char_capital t Ht).
      * cbn [app] in H. injection H as Hs Hr. destruct T as [|d T]; [discriminate|].
        cbn [codes_of] in Hr. injection Hr as Hd _.
        rewrite <- Hs, <- Hd in Hss. discriminate.
    + intro H. injection H as Hc Hr. apply (IH HT') in Hr. rewrite Hr.
      assert (Hcode : code (lower_char c) = (code t + 32)%N)
        by (rewrite Hc; now apply lower_char_capital).
      rewrite upper_codes_of_small.
      * rewrite Hcode. cbn [app]. f_equal. f_equal. lia.
      * rewrite Hcode. unfold in_range in *. apply andb_true_iff in Ht as [H1 H2].
        apply N.leb_le in H1. apply N.leb_le in H2.
        apply andb_true_iff. split; apply N.leb_le; lia.
Qed.

(** X15.  [ChatDBTableStack.from_env] finds its member without regard to
    case: it returns [DEV] exactly for the texts that read [dev] in lower
    case, [STAGING] exactly for those that read [staging], and raises
    [KeyError] for every other text, so also for [production].  Texts are
    those of this development, with code points up to U+00FF; beyond them
    [str.upper] maps further letters to capitals (U+017F to [S], U+0131 to
    [I]). *)
Theorem from_env_ignores_case :
  (forall env, from_env env = Some DEV <-> py_lower env = "dev") /\
  (forall env, from_env env = Some STAGING <-> py_lower env = "staging") /\
  (forall env, from_env env = None <->
               py_lower env <> "dev" /\ py_lower env <> "staging").
Proof.
  assert (Hd : forall env, py_upper env = codes_of "DEV" <-> py_lower env = "dev")
    by (intro env; apply (py_upper_matches "DEV" eq_refl)).
  assert (Hs : forall env, py_upper env = codes_of "STAGING" <-> py_lower env = "staging")
    by (intro env; apply (py_upper_matches "STAGING" eq_refl)).
  assert (Hcase : forall env,
            (from_env env = Some DEV /\ py_lower env = "dev") \/
            (from_env env = Some STAGING /\ py_lower env = "staging") \/
            (from_env env = None /\ py_lower env <> "dev" /\ py_lower env <> "staging")).
  { intro env. unfold from_env. cbv zeta.
    destruct (list_eq_dec N.eq_dec (py_upper env) (codes_of "DEV")) as [E|E].
    - left. split; [reflexivity|now apply Hd].
    - destruct (list_eq_dec N.eq_dec (py_upper env) (codes_of "STAGING")) as [E'|E'].
      + right; left. split; [reflexivity|now apply Hs].
      + right; right. split; [reflexivity|].
        split; intro Hx; [apply Hd in Hx|apply Hs in Hx]; contradiction. }
  split; [|split]; intro env;
    destruct (Hcase env) as [[H1 H2]|[[H1 H2]|[H1 [H2 H3]]]]; rewrite H1;
    split; intro H; try reflexivity; try discriminate; try congruence;
    try (split; congruence); try (destruct H; congruence).
Qed.

(* ================================================================== *)
(** * What [destroy] runs *)



